(** * mlflow-export-import: the import pipeline

    A shallow embedding of the import side of the repository:

    - [common/filesystem.py]: path translation ([mk_dbfs_path],
      [mk_local_path]) and the artifact staging scope
      ([DatabricksFileSystem.move_artifacts]);
    - [common/mlflow_utils.py]: [set_experiment];
    - [run/import_run.py]: [RunImporter._import_run],
      [RunImporter._update_mlmodel_run_id] and
      [RunImporter._upload_databricks_notebook];
    - [experiment/import_experiment.py]:
      [ExperimentImporter.import_experiment].

    Python strings are [string]; dictionaries whose iteration order is
    observable are association lists in insertion order, the stores of the
    tracking backend are finite maps; side effects are threaded through a
    state-and-exception monad over a [World]. *)

From Stdlib Require Import String Ascii List Bool Arith Lia.
From stdpp Require Import base option list strings pretty gmap.

Local Open Scope string_scope.
Local Open Scope list_scope.
Local Open Scope stdpp_scope.

(** ** Python string primitives *)
Module PyStr.

(** [s.startswith(p)] *)
Fixpoint startswith (p s : string) : bool :=
  match p, s with
  | EmptyString, _ => true
  | String a p', String b s' => Ascii.eqb a b && startswith p' s'
  | String _ _, EmptyString => false
  end.

(** [s.replace(old, new)] for a non-empty [old]: the occurrences of [old]
    are found left to right and do not overlap.  [skip] counts the
    characters of a matched occurrence that are still to be dropped. *)
Fixpoint replace_from (skip : nat) (old new s : string) : string :=
  match s with
  | EmptyString => EmptyString
  | String c s' =>
      match skip with
      | S k => replace_from k old new s'
      | O =>
          if startswith old s
          then new +:+ replace_from (String.length old - 1) old new s'
          else String c (replace_from 0 old new s')
      end
  end.

Definition replace (old new s : string) : string := replace_from 0 old new s.

(** [old in s] *)
Fixpoint contains (old s : string) : bool :=
  match s with
  | EmptyString => startswith old EmptyString
  | String _ s' => startswith old s || contains old s'
  end.

(** [s.endswith("/")] *)
Fixpoint ends_with_slash (s : string) : bool :=
  match s with
  | EmptyString => false
  | String c EmptyString => Ascii.eqb c "/"
  | String _ s' => ends_with_slash s'
  end.

(** [os.path.join(a, b)] on POSIX *)
Definition path_join (a b : string) : string :=
  if startswith "/" b then b
  else if String.eqb a "" || ends_with_slash a then a +:+ b
  else a +:+ "/" +:+ b.

(** [os.path.basename(p)]: what follows the last slash. *)
Fixpoint basename_acc (acc s : string) : string :=
  match s with
  | EmptyString => acc
  | String c s' =>
      if Ascii.eqb c "/" then basename_acc "" s'
      else basename_acc (acc +:+ String c "") s'
  end.

Definition basename (p : string) : string := basename_acc "" p.

(** [p] with a leading [pre] removed, when [p] starts with [pre]. *)
Fixpoint strip_prefix (pre p : string) : option string :=
  match pre, p with
  | EmptyString, _ => Some p
  | String a pre', String b p' =>
      if Ascii.eqb a b then strip_prefix pre' p' else None
  | String _ _, EmptyString => None
  end.

(** The first path segment of [s], up to the first slash. *)
Fixpoint first_segment (s : string) : string :=
  match s with
  | EmptyString => EmptyString
  | String c s' => if Ascii.eqb c "/" then EmptyString else String c (first_segment s')
  end.

(** [p[:p.rfind("/")+1]] *)
Fixpoint head_to_last_slash (p : string) : string :=
  match p with
  | EmptyString => EmptyString
  | String c p' => if contains "/" p then String c (head_to_last_slash p') else EmptyString
  end.

(** [s.rstrip("/")] *)
Fixpoint rstrip_slash (s : string) : string :=
  match s with
  | EmptyString => EmptyString
  | String c s' =>
      let r := rstrip_slash s' in
      if Ascii.eqb c "/" && String.eqb r "" then EmptyString else String c r
  end.

(** [os.path.dirname(p)] on POSIX *)
Definition dirname (p : string) : string :=
  let head := head_to_last_slash p in
  if String.eqb (rstrip_slash head) "" then head else rstrip_slash head.

End PyStr.

(** ** common/filesystem.py: path translation *)

Definition mk_dbfs_path (path : string) : string :=
  PyStr.replace "/dbfs" "dbfs:" path.

Definition mk_local_path (path : string) : string :=
  PyStr.replace "dbfs:" "/dbfs" path.



(** ** Exceptions and results

    Only subclasses of [Exception] are modelled: these are what the
    [except Exception] clause of [_import_run] catches. *)

Inductive exn : Type :=
| EmptyExperimentPathException
| RestException (error_code : string)
| KeyError (key : string)
| OtherError (descr : string)
| MlflowExportImportException (cause : exn) (msg : string).

(** What a collaborator outside this repository (tracking client, dbutils,
    the HTTP client, the local file system) may raise.  None of them raises
    [EmptyExperimentPathException], which [filesystem.py] defines and only
    [move_artifacts] raises. *)
Inductive Fault : Type :=
| FaultRest (error_code : string)
| FaultOther (descr : string)
| FaultHttp (descr : string).

Definition exn_of_fault (f : Fault) : exn :=
  match f with
  | FaultRest c => RestException c
  | FaultOther d => OtherError d
  | FaultHttp d => MlflowExportImportException (OtherError d) d
  end.


Inductive result (A : Type) : Type :=
| Ok (a : A)
| Raise (e : exn).
Arguments Ok {A} a.
Arguments Raise {A} e.

(** ** Entities of the tracking backend *)

Inductive RunStatus := RUNNING | SCHEDULED | FINISHED | FAILED | KILLED.

Inductive LifecycleStage := ACTIVE | DELETED.

Abbreviation Tags := (gmap string string).

Record RunInfo := mkRunInfo {
  run_id : string;
  experiment_id : string;
  user_id : string;
  status : RunStatus;
  lifecycle_stage : LifecycleStage }.

Record Run := mkRun {
  info : RunInfo;
  tags : Tags }.

Record Experiment := mkExperiment {
  exp_experiment_id : string;
  exp_name : string;
  exp_artifact_location : option string;
  exp_tags : Tags }.

(** A parsed MLmodel file: a YAML mapping with scalar values. *)
Abbreviation MLmodel := (gmap string string).

(** The [mlflow] payload of an exported [run.json]. *)
Record SrcRunInfo := mkSrcRunInfo {
  src_run_id : string;
  src_user_id : string;
  src_lifecycle_stage : string }.

Record SrcRun := mkSrcRun {
  src_info : SrcRunInfo;
  src_tags : Tags }.

(** An exported [experiment.json]: the optional [info] stanza with its
    [failed_runs], and the [mlflow] payload. *)
Record ManifestInfo := mkManifestInfo {
  failed_runs : option (list string) }.

Record ExperimentManifest := mkExperimentManifest {
  man_info : option ManifestInfo;
  man_experiment_tags : Tags;
  man_runs : list string }.

Definition MLFLOW_PARENT_RUN_ID : string := "mlflow.parentRunId".

Definition LifecycleStage_DELETED : string := "deleted".

(** ** Ordered dictionaries

    A Python [dict] whose iteration order is observed: assignment to a key
    that is present keeps its position, a new key goes last. *)
Module Dict.

Definition t (V : Type) := list (string * V).

Fixpoint get {V} (k : string) (d : t V) : option V :=
  match d with
  | [] => None
  | (k', v) :: d' => if String.eqb k k' then Some v else get k d'
  end.

Fixpoint set {V} (k : string) (v : V) (d : t V) : t V :=
  match d with
  | [] => [(k, v)]
  | (k', v') :: d' =>
      if String.eqb k k' then (k, v) :: d' else (k', v') :: set k v d'
  end.

Definition keys {V} (d : t V) : list string := map fst d.

Definition len {V} (d : t V) : nat := length d.

End Dict.

(** ** The world the importer acts on *)

Inductive Event : Type :=
| EvImportRun (input_dir : string)
| EvCreateRun (rid : string)
| EvImportRunData (rid : string)
| EvLogArtifact (rid artifact_dir : string)
| EvLogArtifacts (rid local_dir : string)
| EvSetTerminated (rid : string) (st : RunStatus)
| EvDeleteRun (rid : string)
| EvSetTag (rid key value : string)
| EvWorkspaceMkdirs (dir : string)
| EvWorkspaceImport (path : string)
| EvWarning (msg : string).

Record World := mkWorld {
  w_experiments : list Experiment;       (* experiments of the destination *)
  w_runs : gmap string Run;              (* runs of the destination *)
  w_artifacts : gmap string (Dict.t MLmodel); (* per run: MLmodel files by artifact path *)
  w_dbfs : list string;                  (* keys of the objects dbutils sees *)
  w_next : nat;                          (* id supply of the backend *)
  w_trace : list Event }.                (* calls made, oldest first *)

Definition set_experiments (f : list Experiment -> list Experiment) (w : World) :=
  mkWorld (f (w_experiments w)) (w_runs w) (w_artifacts w) (w_dbfs w) (w_next w) (w_trace w).
Definition set_runs (f : gmap string Run -> gmap string Run) (w : World) :=
  mkWorld (w_experiments w) (f (w_runs w)) (w_artifacts w) (w_dbfs w) (w_next w) (w_trace w).
Definition set_artifacts (f : gmap string (Dict.t MLmodel) -> gmap string (Dict.t MLmodel)) (w : World) :=
  mkWorld (w_experiments w) (w_runs w) (f (w_artifacts w)) (w_dbfs w) (w_next w) (w_trace w).
Definition set_dbfs (f : list string -> list string) (w : World) :=
  mkWorld (w_experiments w) (w_runs w) (w_artifacts w) (f (w_dbfs w)) (w_next w) (w_trace w).
Definition set_next (f : nat -> nat) (w : World) :=
  mkWorld (w_experiments w) (w_runs w) (w_artifacts w) (w_dbfs w) (f (w_next w)) (w_trace w).
Definition set_trace (f : list Event -> list Event) (w : World) :=
  mkWorld (w_experiments w) (w_runs w) (w_artifacts w) (w_dbfs w) (w_next w) (f (w_trace w)).

(** ** The state-and-exception monad

    A raised exception keeps the effects made so far, as in Python. *)

Definition M (A : Type) : Type := World -> result A * World.

Definition ret {A} (a : A) : M A := fun w => (Ok a, w).

Definition raise {A} (e : exn) : M A := fun w => (Raise e, w).

Definition bind {A B} (m : M A) (k : A -> M B) : M B :=
  fun w =>
    match m w with
    | (Ok a, w') => k a w'
    | (Raise e, w') => (Raise e, w')
    end.

(** [try: m except ...: h]: [h e = None] when no clause matches [e]. *)
Definition try_except {A} (m : M A) (h : exn -> option (M A)) : M A :=
  fun w =>
    match m w with
    | (Ok a, w') => (Ok a, w')
    | (Raise e, w') =>
        match h e with
        | Some k => k w'
        | None => (Raise e, w')
        end
    end.

Definition gets {A} (f : World -> A) : M A := fun w => (Ok (f w), w).

Definition modify (f : World -> World) : M unit := fun w => (Ok tt, f w).

Definition emit (e : Event) : M unit := modify (set_trace (fun t => t ++ [e])).

Declare Scope M_scope.
Delimit Scope M_scope with M.
Notation "'let*' x ':=' m 'in' k" := (bind m (fun x => k))
  (at level 10, x pattern, m at level 100, k at level 200) : M_scope.
Notation "m1 ;; m2" := (bind m1 (fun _ => m2))
  (at level 100, m2 at level 200, right associativity) : M_scope.
Local Open Scope M_scope.

(** [for x in l: f x] *)
Fixpoint for_each {A} (l : list A) (f : A -> M unit) : M unit :=
  match l with
  | [] => ret tt
  | x :: l' => f x ;; for_each l' f
  end.

(** ** Collaborators outside the repository

    [Step] names a call to a collaborator; the environment says which of
    them fail, and supplies what the helper modules that are not part of
    the import pipeline compute. *)

Inductive Step : Type :=
| StCreateExperiment (name : string)
| StImportRunData (rid : string)
| StFindArtifacts (rid : string)
| StLs (path : string)
| StCp (src dst : string)
| StRm (path : string)
| StDownloadArtifacts (rid path : string)
| StLogArtifact (rid artifact_dir : string)
| StLogArtifacts (rid local_dir : string)
| StSetTerminated (rid : string) (st : RunStatus)
| StGetRun (rid : string)
| StDeleteRun (rid : string)
| StReadFile (path : string)
| StWorkspaceMkdirs (dir : string)
| StWorkspaceImport (path : string).

Record Env := mkEnv {
  (* utils.importing_into_databricks() *)
  importing_into_databricks : bool;
  (* "DATABRICKS_RUNTIME_VERSION" in os.environ *)
  databricks_runtime : bool;
  (* utils.create_mlflow_tags_for_databricks_import *)
  create_mlflow_tags_for_databricks_import : Tags -> Tags;
  (* source_tags: what import_source_tags adds to the tags of an experiment, of a run *)
  source_tags_for_experiment : Tags -> Tags;
  source_tags_for_run : SrcRun -> Tags;
  (* the identity of the caller at the destination *)
  current_user : string;
  (* which collaborator calls fail *)
  fails : Step -> option Fault;
  (* os.path.exists and open().read() off the /dbfs mount *)
  local_exists : string -> bool;
  local_read : string -> string;
  (* io_utils.read_file_mlflow of a run.json, io_utils.read_file of an experiment.json *)
  run_json : string -> option SrcRun;
  experiment_json : string -> option ExperimentManifest }.

Section Collaborators.

Variable env : Env.

Definition call (st : Step) : M unit :=
  fun w =>
    match fails env st with
    | Some f => (Raise (exn_of_fault f), w)
    | None => (Ok tt, w)
    end.

(** *** The tracking client *)

Definition find_experiment_by_name (name : string) (l : list Experiment) : option Experiment :=
  List.find (fun e => String.eqb (exp_name e) name) l.

Definition find_experiment_by_id (id : string) (l : list Experiment) : option Experiment :=
  List.find (fun e => String.eqb (exp_experiment_id e) id) l.

Definition create_experiment (name : string) (tgs : Tags) (artifact_location : option string)
  : M string :=
  call (StCreateExperiment name) ;;
  let* known := gets (fun w => find_experiment_by_name name (w_experiments w)) in
  match known with
  | Some _ => raise (RestException "RESOURCE_ALREADY_EXISTS")
  | None =>
      let* n := gets w_next in
      let id := pretty n in
      modify (fun w => set_next S
        (set_experiments (fun l => l ++ [mkExperiment id name artifact_location tgs]) w)) ;;
      ret id
  end.

(** [get_experiment] and [get_experiment_by_name] are modelled by what they
    answer on a backend that responds: the lookup itself is not a call
    that the environment can make fail. *)
Definition get_experiment (id : string) : M Experiment :=
  let* found := gets (fun w => find_experiment_by_id id (w_experiments w)) in
  match found with
  | Some e => ret e
  | None => raise (RestException "RESOURCE_DOES_NOT_EXIST")
  end.

Definition get_experiment_by_name (name : string) : M (option Experiment) :=
  gets (fun w => find_experiment_by_name name (w_experiments w)).

Definition create_run (exp_id : string) : M Run :=
  let* n := gets w_next in
  let rid := "run-" +:+ pretty n in
  let run := mkRun (mkRunInfo rid exp_id (current_user env) RUNNING ACTIVE) ∅ in
  modify (fun w => set_next S (set_runs (fun rs => <[rid := run]> rs) w)) ;;
  emit (EvCreateRun rid) ;;
  ret run.

Definition lookup_run (rid : string) : M Run :=
  let* found := gets (fun w => w_runs w !! rid) in
  match found with
  | Some r => ret r
  | None => raise (RestException "RESOURCE_DOES_NOT_EXIST")
  end.

Definition get_run (rid : string) : M Run :=
  call (StGetRun rid) ;;
  lookup_run rid.

Definition with_status (st : RunStatus) (r : Run) : Run :=
  mkRun (mkRunInfo (run_id (info r)) (experiment_id (info r)) (user_id (info r))
           st (lifecycle_stage (info r))) (tags r).

Definition with_lifecycle_stage (ls : LifecycleStage) (r : Run) : Run :=
  mkRun (mkRunInfo (run_id (info r)) (experiment_id (info r)) (user_id (info r))
           (status (info r)) ls) (tags r).

Definition with_user_id (u : string) (r : Run) : Run :=
  mkRun (mkRunInfo (run_id (info r)) (experiment_id (info r)) u
           (status (info r)) (lifecycle_stage (info r))) (tags r).

Definition with_tags (f : Tags -> Tags) (r : Run) : Run :=
  mkRun (info r) (f (tags r)).

Definition update_run (rid : string) (f : Run -> Run) : M unit :=
  let* r := lookup_run rid in
  modify (set_runs (fun rs => <[rid := f r]> rs)).

Definition set_terminated (rid : string) (st : RunStatus) : M unit :=
  call (StSetTerminated rid st) ;;
  update_run rid (with_status st) ;;
  emit (EvSetTerminated rid st).

Definition delete_run (rid : string) : M unit :=
  call (StDeleteRun rid) ;;
  update_run rid (with_lifecycle_stage DELETED) ;;
  emit (EvDeleteRun rid).

Definition set_tag (rid key value : string) : M unit :=
  update_run rid (with_tags (fun t => <[key := value]> t)) ;;
  emit (EvSetTag rid key value).

(** [log_artifacts(run_id, local_dir)]: the bulk upload of a directory.
    The call is recorded in the trace; the files it adds to the artifact
    store are not modelled, so nothing below is stated about the artifacts
    of a run after a bulk upload. *)
Definition log_artifacts (rid local_dir : string) : M unit :=
  call (StLogArtifacts rid local_dir) ;;
  emit (EvLogArtifacts rid local_dir).

(** Where [log_artifact(run_id, ".../MLmodel", artifact_dir)] puts the file. *)
Definition artifact_key (artifact_dir : string) : string :=
  if String.eqb artifact_dir "" then "MLmodel" else artifact_dir +:+ "/MLmodel".

(** [log_artifact(run_id, output_path, artifact_dir)] of a written MLmodel. *)
Definition log_artifact (rid : string) (content : MLmodel) (artifact_dir : string) : M unit :=
  call (StLogArtifact rid artifact_dir) ;;
  modify (set_artifacts (fun a =>
    <[rid := Dict.set (artifact_key artifact_dir) content (default [] (a !! rid))]> a)) ;;
  emit (EvLogArtifact rid artifact_dir).

(** [mlflow.artifacts.download_artifacts] followed by
    [io_utils.read_file(local_path, "yaml")]. *)
Definition download_mlmodel (rid path : string) : M MLmodel :=
  call (StDownloadArtifacts rid path) ;;
  let* found := gets (fun w => Dict.get path (default [] (w_artifacts w !! rid))) in
  match found with
  | Some m => ret m
  | None => raise (OtherError "download_artifacts: no such artifact")
  end.

(** *** dbutils.fs over the object keys *)

Definition under (dir key : string) : bool :=
  String.eqb key dir || PyStr.startswith (dir +:+ "/") key.

Definition child_name (dir key : string) : option string :=
  if String.eqb key dir then Some (PyStr.basename key)
  else PyStr.first_segment <$> PyStr.strip_prefix (dir +:+ "/") key.

Definition listing (dir : string) (keys : list string) : list string :=
  remove_dups (omap (child_name dir) keys).

Definition copies (src dst : string) (recurse : bool) (keys : list string) : list string :=
  omap (fun key =>
          if String.eqb key src then Some dst
          else if recurse then (fun rest => dst +:+ "/" +:+ rest) <$> PyStr.strip_prefix (src +:+ "/") key
          else None) keys.

Definition dbutils_fs_ls (dir : string) : M (list string) :=
  call (StLs dir) ;;
  gets (fun w => listing dir (w_dbfs w)).

Definition dbutils_fs_cp (src dst : string) (recurse : bool) : M unit :=
  call (StCp src dst) ;;
  modify (set_dbfs (fun keys => keys ++ copies src dst recurse keys)).

Definition dbutils_fs_rm (path : string) (recurse : bool) : M unit :=
  call (StRm path) ;;
  modify (set_dbfs (List.filter (fun key =>
    negb (if recurse then under path key else String.eqb key path)))).

(** [os.path.exists]: a path under the /dbfs mount is looked up among the
    object keys. *)
Definition os_path_exists (p : string) : M bool :=
  gets (fun w =>
    if PyStr.startswith "/dbfs" p
    then existsb (under (mk_dbfs_path p)) (w_dbfs w)
    else local_exists env p).

(** Modelled from the spec: [find_artifacts] of common/find_artifacts.py,
    which is not among the sources.  It walks the artifact tree of the run
    and returns, in listing order, the paths whose file name is [target]. *)
Definition find_artifacts (rid path target : string) : M (list string) :=
  call (StFindArtifacts rid) ;;
  gets (fun w =>
    List.filter (fun p => String.eqb (PyStr.basename p) target)
      (Dict.keys (default [] (w_artifacts w !! rid)))).

(** Modelled from the spec: [import_run_data] of run/run_data_importer.py,
    which is not among the sources.  It replays the data of the source
    run on the destination run: the tags (with the source tags when asked
    for) and, where the destination allows it, the source user. *)
Definition import_run_data (src_run_dct : SrcRun) (rid : string)
    (import_source_tags : bool) (src_user : string)
    (use_src_user_id in_databricks : bool) : M unit :=
  call (StImportRunData rid) ;;
  update_run rid (fun r =>
    let r := with_tags (fun t =>
               (if import_source_tags then source_tags_for_run env src_run_dct else ∅)
                 ∪ src_tags src_run_dct ∪ t) r in
    if use_src_user_id && negb in_databricks then with_user_id src_user r else r) ;;
  emit (EvImportRunData rid).

(** [mlflow_utils.create_workspace_dir] *)
Definition create_workspace_dir (workspace_dir : string) : M unit :=
  call (StWorkspaceMkdirs workspace_dir) ;;
  emit (EvWorkspaceMkdirs workspace_dir).

(** [io_utils.read_file_mlflow] of a run.json, modelled by its outcome: the
    parsed content the environment has for the path, or a failure.  For an
    s3 path the source reads through [DatabricksFileSystem.read], whose
    temporary copy is the subject of [DatabricksFileSystem_read] below and
    is not repeated here. *)
Definition read_file_mlflow (path : string) : M SrcRun :=
  match run_json env path with
  | Some d => ret d
  | None => raise (OtherError "read_file")
  end.

(** [io_utils.read_file] of an experiment.json *)
Definition read_file_experiment (path : string) : M ExperimentManifest :=
  match experiment_json env path with
  | Some d => ret d
  | None => raise (OtherError "read_file")
  end.

End Collaborators.

(** ** common/filesystem.py: the staging scope

    [move_artifacts] is a generator function under
    [contextlib.contextmanager].  Its single [yield] stands outside any
    [try]: a generator of that shape is the code that runs up to the yield
    and the code that runs when it is resumed. *)

Record Generator (Y : Type) := mkGenerator {
  before_yield : M Y;
  after_yield : Y -> M unit }.
Arguments before_yield {Y} g.
Arguments after_yield {Y} g.

(** [with g as y: body y].  [__enter__] runs the generator up to its yield.
    When the body completes, [__exit__] resumes the generator, which runs its
    remaining code.  When the body raises, [__exit__] throws the exception
    into the generator at the yield: nothing there catches it, so it leaves
    the generator at once and is raised again by the [with] statement. *)
Definition with_ {Y A} (g : Generator Y) (body : Y -> M A) : M A :=
  fun w =>
    match before_yield g w with
    | (Raise e, w1) => (Raise e, w1)
    | (Ok y, w1) =>
        match body y w1 with
        | (Ok a, w2) =>
            match after_yield g y w2 with
            | (Ok _, w3) => (Ok a, w3)
            | (Raise e, w3) => (Raise e, w3)
            end
        | (Raise e, w2) => (Raise e, w2)
        end
    end.

Section Importer.

Variable env : Env.

(** The temporary location of an s3 path. *)
Definition tmp_dst_path (path : string) : string :=
  PyStr.replace "s3://" "/dbfs/temp/" path.

Definition move_artifacts (path : string) : Generator string :=
  if PyStr.startswith "s3:/" path then
    {| before_yield :=
         let* current_src_path_contents :=
           dbutils_fs_ls env (mk_dbfs_path (PyStr.replace "/artifacts" "" path)) in
         if Nat.leb (length current_src_path_contents) 1
         then raise EmptyExperimentPathException
         else
           dbutils_fs_cp env (mk_dbfs_path path) (mk_dbfs_path (tmp_dst_path path)) true ;;
           ret (tmp_dst_path path);
       after_yield := fun _ =>
         dbutils_fs_rm env (mk_dbfs_path (tmp_dst_path path)) true |}
  else
    {| before_yield := ret (mk_local_path path);
       after_yield := fun _ => ret tt |}.

(** ** common/mlflow_utils.py *)

(** The first statement of [set_experiment]. *)
Definition ensure_workspace_dir (exp_name : string) : M unit :=
  if importing_into_databricks env
  then create_workspace_dir env (PyStr.dirname exp_name)
  else ret tt.

Definition set_experiment (exp_name : string) (tgs : option Tags)
    (artifact_location : option string) : M string :=
  ensure_workspace_dir exp_name ;;
  let* exp :=
    try_except
      (let tgs := default ∅ tgs in
       let tgs := create_mlflow_tags_for_databricks_import env tgs in
       let* exp_id := create_experiment env exp_name tgs artifact_location in
       get_experiment exp_id)
      (fun ex =>
         match ex with
         | RestException error_code =>
             Some (if negb (String.eqb error_code "RESOURCE_ALREADY_EXISTS")
                   then raise (MlflowExportImportException ex
                                 ("Cannot create experiment '" +:+ exp_name +:+ "'"))
                   else
                     let* found := get_experiment_by_name exp_name in
                     match found with
                     | Some exp => ret exp
                     | None => raise (OtherError "AttributeError")
                     end)
         | _ => None
         end) in
  ret (exp_experiment_id exp).

(** ** run/import_run.py *)

Record RunImporter := mkRunImporter {
  import_source_tags : bool;
  mlmodel_fix : bool;
  use_src_user_id : bool;
  in_databricks : bool;
  dst_notebook_dir_add_run_id : bool }.

Definition RunImporter_init (import_source_tags mlmodel_fix use_src_user_id
    dst_notebook_dir_add_run_id : bool) : RunImporter :=
  mkRunImporter import_source_tags mlmodel_fix use_src_user_id
    (databricks_runtime env) dst_notebook_dir_add_run_id.

(** The two assignments of [_update_mlmodel_run_id] to the loaded MLmodel;
    [mlmodel["artifact_path"]] raises when the key is missing. *)
Definition patch_mlmodel (rid : string) (mlmodel : MLmodel) : result MLmodel :=
  let mlmodel := <["run_id" := rid]> mlmodel in
  match mlmodel !! "artifact_path" with
  | Some a => Ok (<["artifact_path" := "artifacts/" +:+ a]> mlmodel)
  | None => Raise (KeyError "artifact_path")
  end.

Definition lift {A} (r : result A) : M A := fun w => (r, w).

Definition update_one_mlmodel (rid mlmodel_path : string) : M unit :=
  let model_path := PyStr.replace "/MLmodel" "" mlmodel_path in
  let* mlmodel := download_mlmodel env rid mlmodel_path in
  let* mlmodel := lift (patch_mlmodel rid mlmodel) in
  let model_path := if String.eqb model_path "MLmodel" then "" else model_path in
  log_artifact env rid mlmodel model_path.

Definition _update_mlmodel_run_id (rid : string) : M unit :=
  let* mlmodel_paths := find_artifacts env rid "" "MLmodel" in
  for_each mlmodel_paths (update_one_mlmodel rid).

Definition _upload_databricks_notebook (input_dir : string) (src_run_dct : SrcRun)
    (dst_notebook_dir : string) : M unit :=
  let rid := src_run_id (src_info src_run_dct) in
  let tag_key := "mlflow.databricks.notebookPath" in
  match src_tags src_run_dct !! tag_key with
  | None | Some "" =>
      emit (EvWarning ("No tag '" +:+ tag_key +:+ "' for run_id '" +:+ rid +:+ "'"))
  | Some src_notebook_path =>
      let notebook_name := PyStr.basename src_notebook_path in
      let notebook_path :=
        PyStr.path_join (PyStr.path_join (PyStr.path_join input_dir "artifacts") "notebooks")
          (notebook_name +:+ ".source") in
      let* present := os_path_exists env notebook_path in
      if negb present
      then emit (EvWarning ("Source '" +:+ notebook_path +:+ "' does not exist for run_id '"
                              +:+ rid +:+ "'"))
      else
        call env (StReadFile notebook_path) ;;
        let dst_notebook_path := PyStr.path_join dst_notebook_dir notebook_name in
        create_workspace_dir env dst_notebook_dir ;;
        try_except
          (call env (StWorkspaceImport dst_notebook_path) ;;
           emit (EvWorkspaceImport dst_notebook_path))
          (fun e =>
             match e with
             | MlflowExportImportException _ _ =>
                 Some (emit (EvWarning ("Cannot save notebook '" +:+ dst_notebook_path +:+ "'")))
             | _ => None
             end)
  end.

Definition is_deleted (src_run_dct : SrcRun) : bool :=
  String.eqb (src_lifecycle_stage (src_info src_run_dct)) LifecycleStage_DELETED.

(** Lines 142 to 156 of [_import_run]: the artifacts, inside the [try]. *)
Definition import_run_artifacts (self : RunImporter) (rid input_dir : string) : M unit :=
  let path := PyStr.path_join input_dir "artifacts" in
  let* found := find_artifacts env rid "" "MLmodel" in
  match found with
  | _ :: _ =>
      with_ (move_artifacts path) (fun path_name =>
        (if mlmodel_fix self then _update_mlmodel_run_id rid else ret tt) ;;
        let* present := os_path_exists env (mk_local_path path_name) in
        if present then log_artifacts env rid (mk_local_path path_name) else ret tt)
  | [] => ret tt
  end.

(** Lines 159 to 162: the run is fetched again, and deleted when the source
    run was. *)
Definition import_run_refetch (src_run_dct : SrcRun) (rid : string) : M Run :=
  let* run := get_run env rid in
  if is_deleted src_run_dct
  then delete_run env (run_id (info run)) ;; get_run env (run_id (info run))
  else ret run.

(** The body of the [try] of [_import_run]; its value is the local [run]
    as the statements that follow the [try] see it. *)
Definition import_run_steps (self : RunImporter) (src_run_dct : SrcRun) (rid : string)
    (input_dir : string) : M Run :=
  import_run_data env src_run_dct rid (import_source_tags self)
    (src_user_id (src_info src_run_dct)) (use_src_user_id self) (in_databricks self) ;;
  import_run_artifacts self rid input_dir ;;
  set_terminated env rid FINISHED ;;
  import_run_refetch src_run_dct rid.

Definition import_failed_msg (rid exp_name : string) : string :=
  "Importing run " +:+ rid +:+ " of experiment '" +:+ exp_name +:+ "' failed".

(** The [try] statement of [_import_run] with its two [except] clauses.
    The first clause leaves [run] as [create_run] returned it. *)
Definition import_run_guarded (self : RunImporter) (exp : Experiment) (src_run_dct : SrcRun)
    (run : Run) (input_dir : string) : M Run :=
  let rid := run_id (info run) in
  try_except (import_run_steps self src_run_dct rid input_dir)
    (fun e =>
       match e with
       | EmptyExperimentPathException =>
           Some (set_terminated env rid FAILED ;; ret run)
       | _ =>
           Some (set_terminated env rid FAILED ;;
                 raise (MlflowExportImportException e (import_failed_msg rid (exp_name exp))))
       end).

(** What [_import_run] does before the [try]. *)
Definition import_run_prologue (dst_exp_name input_dir : string)
  : M (Experiment * SrcRun * Run) :=
  let* exp_id := set_experiment dst_exp_name None None in
  let* exp := get_experiment exp_id in
  let src_run_path := PyStr.path_join input_dir "run.json" in
  let* src_run_dct := read_file_mlflow env src_run_path in
  let* run := create_run env (exp_experiment_id exp) in
  ret (exp, src_run_dct, run).

Definition truthy (s : option string) : bool :=
  match s with
  | Some s => negb (String.eqb s "")
  | None => false
  end.

(** What [_import_run] does after the [try]. *)
Definition import_run_epilogue (self : RunImporter) (src_run_dct : SrcRun) (run0 run : Run)
    (input_dir : string) (dst_notebook_dir : option string) : M (Run * option string) :=
  (if importing_into_databricks env && truthy dst_notebook_dir then
     let dir := default "" dst_notebook_dir in
     let ndir := if dst_notebook_dir_add_run_id self
                 then PyStr.path_join dir (run_id (info run0)) else dir in
     _upload_databricks_notebook input_dir src_run_dct ndir
   else ret tt) ;;
  ret (run, src_tags src_run_dct !! MLFLOW_PARENT_RUN_ID).

Definition _import_run (self : RunImporter) (dst_exp_name input_dir : string)
    (dst_notebook_dir : option string) : M (Run * option string) :=
  let* (exp, src_run_dct, run0) := import_run_prologue dst_exp_name input_dir in
  let* run := import_run_guarded self exp src_run_dct run0 input_dir in
  import_run_epilogue self src_run_dct run0 run input_dir dst_notebook_dir.

(** [RunImporter.import_run]; the event stands for its first log line. *)
Definition RunImporter_import_run (self : RunImporter) (experiment_name input_dir : string)
    (dst_notebook_dir : option string) : M (Run * option string) :=
  emit (EvImportRun input_dir) ;;
  _import_run self experiment_name input_dir dst_notebook_dir.

(** The module-level [import_run] with the defaults that
    [import_experiment] leaves in place. *)
Definition import_run (experiment_name input_dir : string) (dst_notebook_dir : option string)
    (import_source_tags use_src_user_id : bool) : M (Run * option string) :=
  RunImporter_import_run
    (RunImporter_init import_source_tags true use_src_user_id false)
    experiment_name input_dir dst_notebook_dir.

End Importer.

(** ** experiment/import_experiment.py *)

(** A value of the ID mapping [run_ids_map]. *)
Record IdEntry := mkIdEntry {
  dst_run_id : string;
  src_parent_run_id : option string }.

Section ExperimentImporter.

Variable env : Env.

Record ExperimentImporter := mkExperimentImporter {
  ei_import_source_tags : bool;
  ei_use_src_user_id : bool }.

(** Modelled from the spec: [nested_tags] of common/utils.py, which is not
    among the sources.  The linking pass: for every entry of the ID
    mapping whose source run had a parent, the parent tag of the
    destination run is overwritten with the destination id of the parent;
    when the parent is not in the mapping the tag is left as it is. *)
Definition link_parent (run_ids_map : Dict.t IdEntry) (v : IdEntry) : M unit :=
  match src_parent_run_id v with
  | None => ret tt
  | Some src_parent =>
      match Dict.get src_parent run_ids_map with
      | Some parent => set_tag (dst_run_id v) MLFLOW_PARENT_RUN_ID (dst_run_id parent)
      | None => ret tt
      end
  end.

Definition nested_tags (run_ids_map : Dict.t IdEntry) : M unit :=
  for_each run_ids_map (fun kv => link_parent run_ids_map (snd kv)).

(** The [for src_run_id in run_ids] loop with its two dictionaries. *)
Fixpoint import_runs (self : ExperimentImporter) (experiment_name input_dir : string)
    (dst_notebook_dir : option string) (run_ids : list string)
    (run_ids_map : Dict.t IdEntry) (run_info_map : Dict.t RunInfo)
  : M (Dict.t IdEntry * Dict.t RunInfo) :=
  match run_ids with
  | [] => ret (run_ids_map, run_info_map)
  | src_run_id :: run_ids' =>
      let* (dst_run, src_parent) :=
        import_run env experiment_name (PyStr.path_join input_dir src_run_id)
          dst_notebook_dir (ei_import_source_tags self) (ei_use_src_user_id self) in
      let dst_id := run_id (info dst_run) in
      import_runs self experiment_name input_dir dst_notebook_dir run_ids'
        (Dict.set src_run_id (mkIdEntry dst_id src_parent) run_ids_map)
        (Dict.set src_run_id (info dst_run) run_info_map)
  end.

Definition import_experiment (self : ExperimentImporter) (experiment_name input_dir : string)
    (dst_notebook_dir artifact_location : option string) : M (Dict.t RunInfo) :=
  let path := PyStr.path_join input_dir "experiment.json" in
  let* exp_dct := read_file_experiment env path in
  let* info :=
    match man_info exp_dct with
    | Some i => ret i
    | None => raise (KeyError "info")
    end in
  let tgs := man_experiment_tags exp_dct in
  let tgs := if ei_import_source_tags self then source_tags_for_experiment env tgs else tgs in
  set_experiment env experiment_name (Some tgs) artifact_location ;;
  let run_ids := rev (man_runs exp_dct) in
  let* failed_run_ids :=
    match failed_runs info with
    | Some l => ret l
    | None => raise (KeyError "failed_runs")
    end in
  let* (run_ids_map, run_info_map) :=
    import_runs self experiment_name input_dir dst_notebook_dir run_ids [] [] in
  (if Nat.ltb 0 (length failed_run_ids)
   then emit (EvWarning "failed runs were not imported")
   else ret tt) ;;
  nested_tags run_ids_map ;;
  ret run_info_map.

End ExperimentImporter.

(** ** common/filesystem.py: the other operations

    [DatabricksFileSystem.mv], [mkdirs] and [write] and the operations of
    [LocalFileSystem] call [dbutils.fs.mv], [mkdirs], [put] and [shutil],
    whose effect on contents is outside this development. *)

Inductive FileSystem : Type := DatabricksFileSystem | LocalFileSystem.

Definition get_filesystem (dir : string) : FileSystem :=
  if PyStr.startswith "dbfs:" dir || PyStr.startswith "s3:" dir
  then DatabricksFileSystem else LocalFileSystem.

Section DatabricksFS.

Variable env : Env.

Definition DatabricksFileSystem_ls (path : string) : M (list string) :=
  dbutils_fs_ls env (mk_dbfs_path path).

Definition DatabricksFileSystem_cp (src dst : string) (recursive : bool) : M unit :=
  dbutils_fs_cp env (mk_dbfs_path src) (mk_dbfs_path dst) recursive.

Definition DatabricksFileSystem_rm (path : string) (recurse : bool) : M unit :=
  dbutils_fs_rm env (mk_dbfs_path path) recurse.

Definition DatabricksFileSystem_exists (path : string) : M bool :=
  let* l := DatabricksFileSystem_ls path in
  ret (Nat.ltb 0 (length l)).

(** [with open(p, "r", encoding="utf-8") as f: f.read()] *)
Definition open_read (p : string) : M string :=
  call env (StReadFile p) ;;
  ret (local_read env p).

Definition DatabricksFileSystem_read (path : string) : M string :=
  if PyStr.startswith "s3:/" path then
    let tmp := tmp_dst_path path in
    dbutils_fs_cp env (mk_dbfs_path path) (mk_dbfs_path tmp) false ;;
    let* response := open_read (mk_local_path tmp) in
    dbutils_fs_rm env (mk_dbfs_path tmp) false ;;
    ret response
  else open_read (mk_local_path path).

End DatabricksFS.

(** ** common/mlflow_utils.py: [get_experiment]

    The experiment is looked up by name first, then by id; [client] is the
    text of the client in the message. *)
Definition mlflow_utils_get_experiment (client exp_id_or_name : string) : M Experiment :=
  let* exp := get_experiment_by_name exp_id_or_name in
  match exp with
  | None =>
      try_except (get_experiment exp_id_or_name)
        (fun ex =>
           Some (raise (MlflowExportImportException ex
                   ("Cannot find experiment ID or name '" +:+ exp_id_or_name
                      +:+ "'. Client: " +:+ client +:+ "'"))))
  | Some exp => ret exp
  end.

(** ** reverse_order.py

    [main] rewrites the [experiment.json] of a directory with the list
    [mlflow.runs] reversed.  The files are those of the environment, keyed
    by the text of their path: [experiment_directory] is the text of the
    [Path], which pathlib keeps normalised, so that [joinpath] with a file
    name is [os.path.join].  The script opens the file on the local disk;
    the importer reads the same file only when the path it is given is a
    local one that the path translation leaves as it is. *)
Definition reverse_runs (json_data : ExperimentManifest) : ExperimentManifest :=
  mkExperimentManifest (man_info json_data) (man_experiment_tags json_data)
    (rev (man_runs json_data)).

Definition write_experiment_json (path : string) (json_data : ExperimentManifest)
    (env : Env) : Env :=
  {| importing_into_databricks := importing_into_databricks env;
     databricks_runtime := databricks_runtime env;
     create_mlflow_tags_for_databricks_import := create_mlflow_tags_for_databricks_import env;
     source_tags_for_experiment := source_tags_for_experiment env;
     source_tags_for_run := source_tags_for_run env;
     current_user := current_user env;
     fails := fails env;
     local_exists := local_exists env;
     local_read := local_read env;
     run_json := run_json env;
     experiment_json := fun p =>
       if String.eqb p path then Some json_data else experiment_json env p |}.

Definition reverse_order_main (env : Env) (experiment_directory : string) : result Env :=
  let experiment_file_path := PyStr.path_join experiment_directory "experiment.json" in
  match experiment_json env experiment_file_path with
  | Some json_data =>
      Ok (write_experiment_json experiment_file_path (reverse_runs json_data) env)
  | None => Raise (OtherError "read_text")
  end.

(** ** Observations on a world *)

(** The directory [move_artifacts] lists: the path without its [/artifacts]. *)
Definition run_dir (path : string) : string :=
  mk_dbfs_path (PyStr.replace "/artifacts" "" path).

(** The objects a path resolves to. *)
Definition objects_under (w : World) (path : string) : list string :=
  List.filter (under (mk_dbfs_path path)) (w_dbfs w).

(** An exported run: the directory [d] holds the run.json and, below
    [d/artifacts], the artifacts; nothing else. *)
Definition exported_layout (d : string) (keys : list string) : Prop :=
  In (d +:+ "/run.json") keys /\
  forall key, In key keys -> under d key = true ->
    key = d +:+ "/run.json" \/ under (d +:+ "/artifacts") key = true.

(** The objects of the staging copy of a path. *)
Definition staged (w : World) (path : string) : list string :=
  List.filter (under (mk_dbfs_path (tmp_dst_path path))) (w_dbfs w).

(** The status the backend holds for a run. *)
Definition status_of (w : World) (rid : string) : option RunStatus :=
  (fun r => status (info r)) <$> w_runs w !! rid.

(** The events of the trace that [keep] selects, oldest first. *)
Definition view (keep : Event -> bool) (w : World) : list Event :=
  List.filter keep (w_trace w).

Definition is_upload (e : Event) : bool :=
  match e with EvLogArtifacts _ _ => true | _ => false end.

Definition is_import (e : Event) : bool :=
  match e with EvImportRun _ => true | _ => false end.

(** The bulk uploads made so far; the runs whose import was started. *)
Abbreviation uploads := (view is_upload).
Abbreviation imports := (view is_import).

(** Events that none of the properties below observes. *)
Definition quiet_event (e : Event) : bool :=
  match e with
  | EvLogArtifact _ _ | EvWorkspaceMkdirs _ | EvWorkspaceImport _ | EvWarning _ => true
  | _ => false
  end.

(** [m] takes a world to one that [R] relates to it, whatever the outcome. *)
Definition steady {A} (R : World -> World -> Prop) (m : M A) : Prop :=
  forall w, R w (snd (m w)).

(** [m] never raises the empty-path error. *)
Definition never_empty {A} (m : M A) : Prop :=
  forall w, fst (m w) <> Raise EmptyExperimentPathException.

(** Relations between the world before and the world after. *)
Definition keeps_run (rid : string) (w w' : World) : Prop :=
  is_Some (w_runs w !! rid) -> is_Some (w_runs w' !! rid).

Definition same_runs (w w' : World) : Prop := w_runs w' = w_runs w.

Definition same_status (rid : string) (w w' : World) : Prop :=
  status_of w' rid = status_of w rid.

Definition same_view (keep : Event -> bool) (w w' : World) : Prop :=
  view keep w' = view keep w.

Abbreviation same_uploads := (same_view is_upload).
Abbreviation same_imports := (same_view is_import).


(** The MLmodel files of a run, by artifact path. *)
Definition run_artifacts (w : World) (rid : string) : Dict.t MLmodel :=
  default [] (w_artifacts w !! rid).

(** Where [_update_mlmodel_run_id] uploads the patched copy of the MLmodel
    found at [mlmodel_path]. *)
Definition upload_key (mlmodel_path : string) : string :=
  let model_path := PyStr.replace "/MLmodel" "" mlmodel_path in
  artifact_key (if String.eqb model_path "MLmodel" then "" else model_path).

(** An MLmodel after the two assignments of the patch. *)
Definition patched (rid a : string) (m : MLmodel) : MLmodel :=
  <["artifact_path" := "artifacts/" +:+ a]> (<["run_id" := rid]> m).

(** The event [import_experiment] leaves when it starts the import of a
    source run. *)
Definition import_event (input_dir src_run_id : string) : Event :=
  EvImportRun (PyStr.path_join input_dir src_run_id).

(** The value of a tag of a destination run. *)
Definition tag_of (w : World) (rid key : string) : option string :=
  w_runs w !! rid ≫= (fun r => tags r !! key).

(** The destination run ids of an ID mapping. *)
Definition dst_ids (m : Dict.t IdEntry) : list string :=
  map (fun kv => dst_run_id (snd kv)) m.

(** The destination id the source parent of an entry maps to, if it has a
    parent and the mapping knows it. *)
Definition linked_parent (m : Dict.t IdEntry) (v : IdEntry) : option string :=
  src_parent_run_id v ≫= (fun p => dst_run_id <$> Dict.get p m).

(** ** Further observations and relations *)

Definition same_dbfs (w w' : World) : Prop := w_dbfs w' = w_dbfs w.

Definition same_artifacts (w w' : World) : Prop := w_artifacts w' = w_artifacts w.

(** The lifecycle stage the backend holds for a run. *)
Definition lifecycle_of (w : World) (rid : string) : option LifecycleStage :=
  (fun r => lifecycle_stage (info r)) <$> w_runs w !! rid.

Definition same_lifecycle (rid : string) (w w' : World) : Prop :=
  lifecycle_of w' rid = lifecycle_of w rid.

(** The record stored under [rid] carries that id. *)
Definition well_keyed (w : World) (rid : string) : Prop :=
  forall r, w_runs w !! rid = Some r -> run_id (info r) = rid.

(** Provided the run [rid] is well keyed, it stays so and no other run
    changes. *)
Definition owns (rid : string) (w w' : World) : Prop :=
  well_keyed w rid ->
  well_keyed w' rid /\
  forall rid', rid' <> rid -> w_runs w' !! rid' = w_runs w !! rid'.

Definition is_create (e : Event) : bool :=
  match e with EvCreateRun _ => true | _ => false end.

(** The calls that end the life of the run [rid]: termination and deletion. *)
Definition is_end_of_run (rid : string) (e : Event) : bool :=
  match e with
  | EvSetTerminated r _ | EvDeleteRun r => String.eqb r rid
  | _ => false
  end.

Definition is_link (e : Event) : bool :=
  match e with EvSetTag _ _ _ => true | _ => false end.

(** The file names [find_artifacts] looks for in [_import_run]. *)
Definition mlmodel_paths (w : World) (rid : string) : list string :=
  List.filter (fun p => String.eqb (PyStr.basename p) "MLmodel")
    (Dict.keys (run_artifacts w rid)).

(** A backend that holds no artifact under an id it has not issued yet:
    [create_run] numbers the runs it creates, and artifacts are logged to
    runs that exist. *)
Definition fresh_backend (w : World) : Prop :=
  forall n, w_next w <= n -> run_artifacts w ("run-" +:+ pretty n) = [].

Definition next_le (w w' : World) : Prop := w_next w <= w_next w'.

(** [imported_in_order ids rs w w']: the runs [ids] were imported one after
    the other by [import_run], from the backend [w] to [w'], each import
    starting where the one before it ended, and [rs] are the destination
    runs these calls returned. *)
Fixpoint imported_in_order (env : Env) (self : ExperimentImporter)
    (experiment_name input_dir : string) (dst_notebook_dir : option string)
    (ids : list string) (rs : list Run) (w w' : World) : Prop :=
  match ids, rs with
  | [], [] => w' = w
  | src_run_id :: ids', r :: rs' =>
      exists p w1,
        import_run env experiment_name (PyStr.path_join input_dir src_run_id)
          dst_notebook_dir (ei_import_source_tags self) (ei_use_src_user_id self) w
          = (Ok (r, p), w1) /\
        imported_in_order env self experiment_name input_dir dst_notebook_dir ids' rs' w1 w'
  | _, _ => False
  end.

(** The creation events of the runs [rs]. *)
Definition created (rs : list Run) : list Event :=
  map (fun r => EvCreateRun (run_id (info r))) rs.

(** ** Invariants of monadic code *)

(** Relations that do not look at the object store, the artifacts, or the
    quiet events. *)
Class Blind (R : World -> World -> Prop) : Prop := {
  blind_dbfs : forall f w, R w (set_dbfs f w);
  blind_artifacts : forall f w, R w (set_artifacts f w);
  blind_experiments : forall f w, R w (set_experiments f w);
  blind_next : forall f w, R w (set_next f w);
  blind_event : forall e w, quiet_event e = true -> R w (set_trace (fun t => t ++ [e]) w) }.

(** A view that selects no quiet event. *)
Class Unobserved (keep : Event -> bool) : Prop :=
  unobserved : forall e, quiet_event e = true -> keep e = false.


(** The statements of [_import_run] after the [try], among them the
    optional notebook upload, raise nothing. *)
Definition notebook_upload_completes (env : Env) (self : RunImporter) (src : SrcRun)
    (run0 : Run) (input_dir : string) (nb : option string) : Prop :=
  forall run w, fst (import_run_epilogue env self src run0 run input_dir nb w)
                = Ok (run, src_tags src !! MLFLOW_PARENT_RUN_ID).

(** ** Concrete environments and worlds used by the examples *)
Module Sample.

(** The export under [s3://bucket/exp]: run r1 and its child r2. *)
Definition src_r1 : SrcRun :=
  mkSrcRun (mkSrcRunInfo "r1" "alice" "active") ∅.

Definition src_r2 : SrcRun :=
  mkSrcRun (mkSrcRunInfo "r2" "alice" "active") {[ MLFLOW_PARENT_RUN_ID := "r1" ]}.

Definition manifest : ExperimentManifest :=
  mkExperimentManifest (Some (mkManifestInfo (Some []))) ∅ ["r2"; "r1"].

(** Not importing into Databricks; [fl] says which collaborator calls fail. *)
Definition env_with (fl : Step -> option Fault) : Env :=
  {| importing_into_databricks := false;
     databricks_runtime := false;
     create_mlflow_tags_for_databricks_import := fun t => t;
     source_tags_for_experiment := fun t => t;
     source_tags_for_run := fun _ => ∅;
     current_user := "importer";
     fails := fl;
     local_exists := fun _ => false;
     local_read := fun _ => "";
     run_json := fun p =>
       if String.eqb p "s3://bucket/exp/r1/run.json" then Some src_r1
       else if String.eqb p "s3://bucket/exp/r2/run.json" then Some src_r2
       else None;
     experiment_json := fun p =>
       if String.eqb p "s3://bucket/exp/experiment.json" then Some manifest else None |}.

(** No collaborator fails. *)
Definition quiet_env : Env := env_with (fun _ => None).

(** The bulk upload of every run fails at the backend. *)
Definition upload_fails_env : Env :=
  env_with (fun st => match st with
                      | StLogArtifacts _ _ => Some (FaultRest "INTERNAL_ERROR")
                      | _ => None
                      end).

(** The replay of the run data fails at the backend. *)
Definition data_fails_env : Env :=
  env_with (fun st => match st with
                      | StImportRunData _ => Some (FaultRest "BAD_REQUEST")
                      | _ => None
                      end).

Definition empty_world : World :=
  {| w_experiments := []; w_runs := ∅; w_artifacts := ∅; w_dbfs := [];
     w_next := 0; w_trace := [] |}.

Definition with_dbfs (keys : list string) : World :=
  {| w_experiments := []; w_runs := ∅; w_artifacts := ∅; w_dbfs := keys;
     w_next := 0; w_trace := [] |}.

(** The world after a first [set_experiment] on the empty backend. *)
Definition created_once : World :=
  snd (set_experiment quiet_env "/Shared/exp" None None empty_world).

(** An exported run on s3 with one model. *)
Definition exported_run : World :=
  with_dbfs ["s3://bucket/exp/r1/run.json"; "s3://bucket/exp/r1/artifacts/model/MLmodel"].

(** An MLmodel file as the source wrote it. *)
Definition mlmodel_old : MLmodel :=
  {[ "run_id" := "r1"; "artifact_path" := "model"; "flavors" := "python_function" ]}.

(** The export of r1 holds nothing but its run.json, and the artifact store
    of the destination already holds a model under the id the next run
    gets. *)
Definition empty_export : World :=
  {| w_experiments := []; w_runs := ∅;
     w_artifacts := {[ "run-1" := [("model/MLmodel", mlmodel_old)] ]};
     w_dbfs := ["s3://bucket/exp/r1/run.json"];
     w_next := 0; w_trace := [] |}.

(** The destination run holds a model under a directory whose name starts
    with the file name of the manifest. *)
Definition nested_models : World :=
  {| w_experiments := []; w_runs := ∅;
     w_artifacts := {[ "run-1" := [("out/MLmodels/MLmodel", mlmodel_old)] ]};
     w_dbfs := []; w_next := 0; w_trace := [] |}.

(** An ID mapping whose last entry has a parent that was not imported, and
    a backend holding the three destination runs with the tags replayed. *)
Definition linking_map : Dict.t IdEntry :=
  [("r1", mkIdEntry "run-1" None);
   ("r2", mkIdEntry "run-2" (Some "r1"));
   ("r3", mkIdEntry "run-3" (Some "r0"))].

Definition replayed (rid : string) (tgs : Tags) : Run :=
  mkRun (mkRunInfo rid "0" "importer" FINISHED ACTIVE) tgs.

Definition linking_world : World :=
  {| w_experiments := [];
     w_runs := {[ "run-1" := replayed "run-1" ∅;
                  "run-2" := replayed "run-2" {[ MLFLOW_PARENT_RUN_ID := "r1" ]};
                  "run-3" := replayed "run-3" {[ MLFLOW_PARENT_RUN_ID := "r0" ]} ]};
     w_artifacts := ∅; w_dbfs := []; w_next := 4; w_trace := [] |}.

(** An export addressed with a single slash after the scheme. *)
Definition single_slash_export : World :=
  with_dbfs ["s3:/bucket/r1/run.json"; "s3:/bucket/r1/artifacts/model/MLmodel"].

(** A source run that was made from a notebook, and a destination in
    Databricks where the workspace refuses every notebook. *)
Definition src_nb : SrcRun :=
  mkSrcRun (mkSrcRunInfo "r3" "alice" "active")
    {[ "mlflow.databricks.notebookPath" := "/Users/alice/train" ]}.

Definition notebook_env : Env :=
  {| importing_into_databricks := true;
     databricks_runtime := true;
     create_mlflow_tags_for_databricks_import := fun t => t;
     source_tags_for_experiment := fun t => t;
     source_tags_for_run := fun _ => ∅;
     current_user := "importer";
     fails := fun st => match st with
                        | StWorkspaceImport _ => Some (FaultHttp "403")
                        | _ => None
                        end;
     local_exists := fun _ => true;
     local_read := fun _ => "";
     run_json := fun p =>
       if String.eqb p "s3://bucket/exp/r3/run.json" then Some src_nb else None;
     experiment_json := fun _ => None |}.

(** The creation of every experiment is refused. *)
Definition create_fails_env : Env :=
  env_with (fun st => match st with
                      | StCreateExperiment _ => Some (FaultRest "PERMISSION_DENIED")
                      | _ => None
                      end).

(** The manifest of [s3://bucket/exp] without its [info] stanza. *)
Definition no_info_env : Env :=
  write_experiment_json "s3://bucket/exp/experiment.json"
    (mkExperimentManifest None ∅ ["r2"; "r1"]) quiet_env.

(** The export of r1 holds nothing but its run.json: the artifact root of
    the run has no object. *)
Definition bare_export : World :=
  with_dbfs ["s3://bucket/exp/r1/run.json"].

(** An export below a directory whose name starts with [artifacts]. *)
Definition versioned_export : World :=
  with_dbfs ["s3://bucket/artifacts_v2/r1/run.json";
             "s3://bucket/artifacts_v2/r1/artifacts/model/MLmodel"].




(** The export of [manifest] on a local disk, under [/exports/exp]. *)
Definition local_env : Env :=
  {| importing_into_databricks := false;
     databricks_runtime := false;
     create_mlflow_tags_for_databricks_import := fun t => t;
     source_tags_for_experiment := fun t => t;
     source_tags_for_run := fun _ => ∅;
     current_user := "importer";
     fails := fun _ => None;
     local_exists := fun _ => true;
     local_read := fun _ => "";
     run_json := fun p =>
       if String.eqb p "/exports/exp/r1/run.json" then Some src_r1
       else if String.eqb p "/exports/exp/r2/run.json" then Some src_r2
       else None;
     experiment_json := fun p =>
       if String.eqb p "/exports/exp/experiment.json" then Some manifest else None |}.

Definition importer : RunImporter := RunImporter_init quiet_env false true false false.

(** What [import_run_prologue] yields on these worlds. *)
Definition exp0 : Experiment := mkExperiment "0" "/Shared/exp" None ∅.

Definition run1 : Run := mkRun (mkRunInfo "run-1" "0" "importer" RUNNING ACTIVE) ∅.

End Sample.

(** * Properties *)

(** ** The monad *)
Section MonadFacts.

Context {A B : Type}.

Lemma bind_inv (m : M A) (k : A -> M B) w r w' :
  bind m k w = (r, w') ->
  (exists a w1, m w = (Ok a, w1) /\ k a w1 = (r, w')) \/
  (exists e, m w = (Raise e, w') /\ r = Raise e).
Proof.
  unfold bind. destruct (m w) as [[a|e] w1]; intros H.
  - left; eauto.
  - right. inversion H; subst. eauto.
Qed.

Lemma bind_ok (m : M A) (k : A -> M B) w a w1 :
  m w = (Ok a, w1) -> bind m k w = k a w1.
Proof. intros H. unfold bind. now rewrite H. Qed.

Lemma bind_raise (m : M A) (k : A -> M B) w e w1 :
  m w = (Raise e, w1) -> bind m k w = (Raise e, w1).
Proof. intros H. unfold bind. now rewrite H. Qed.

End MonadFacts.

(** ** Strings *)
Section StringFacts.

Lemma replace_from_absent (old new s : string) :
  PyStr.contains old s = false -> PyStr.replace_from 0 old new s = s.
Proof.
  induction s as [|c s IH]; intros H; [reflexivity|].
  cbn [PyStr.contains] in H. apply orb_false_iff in H as [Hp Hc].
  cbn [PyStr.replace_from]. rewrite Hp. f_equal. auto.
Qed.

Lemma replace_absent (old new s : string) :
  PyStr.contains old s = false -> PyStr.replace old new s = s.
Proof. apply replace_from_absent. Qed.

Lemma mk_dbfs_path_prefix (stem : string) :
  mk_dbfs_path ("/dbfs" +:+ stem) = "dbfs:" +:+ mk_dbfs_path stem.
Proof. lazy. reflexivity. Qed.

Lemma mk_local_path_prefix (stem : string) :
  mk_local_path ("dbfs:" +:+ stem) = "/dbfs" +:+ mk_local_path stem.
Proof. lazy. reflexivity. Qed.

End StringFacts.

(** ** Path translation *)

Example mk_dbfs_path_ex : mk_dbfs_path "/dbfs/mnt/exp" = "dbfs:/mnt/exp".
Proof. reflexivity. Qed.

Example mk_local_path_ex : mk_local_path "dbfs:/mnt/exp" = "/dbfs/mnt/exp".
Proof. reflexivity. Qed.

(** C9, at the failing input: the DBFS path [dbfs:/FileStore/dbfs_export/r1]
    has a directory whose name starts with [dbfs].  Its local form is right,
    but the translation of that local form changes more than the prefix, so
    the round trip does not give the path back. *)
Theorem mk_dbfs_path_inner_marker :
  mk_local_path "dbfs:/FileStore/dbfs_export/r1" = "/dbfs/FileStore/dbfs_export/r1" /\
  mk_dbfs_path "/dbfs/FileStore/dbfs_export/r1" = "dbfs:/FileStoredbfs:_export/r1" /\
  mk_dbfs_path (mk_local_path "dbfs:/FileStore/dbfs_export/r1")
  <> "dbfs:/FileStore/dbfs_export/r1".
Proof. repeat split; discriminate. Qed.

(** X1: Where the translation is a bijection: for a path made of the prefix
    [/dbfs] (or [dbfs:]) and a stem in which neither [/dbfs] nor [dbfs:]
    occurs, the translation to the other representation changes the prefix
    only, and translating back gives the original string, in both
    directions. *)
Lemma mk_path_round_trip (stem : string) :
  PyStr.contains "/dbfs" stem = false ->
  PyStr.contains "dbfs:" stem = false ->
  mk_dbfs_path ("/dbfs" +:+ stem) = "dbfs:" +:+ stem /\
  mk_local_path ("dbfs:" +:+ stem) = "/dbfs" +:+ stem /\
  mk_local_path (mk_dbfs_path ("/dbfs" +:+ stem)) = "/dbfs" +:+ stem /\
  mk_dbfs_path (mk_local_path ("dbfs:" +:+ stem)) = "dbfs:" +:+ stem.
Proof.
  intros Hl Hd.
  assert (E1 : mk_dbfs_path ("/dbfs" +:+ stem) = "dbfs:" +:+ stem).
  { rewrite mk_dbfs_path_prefix. unfold mk_dbfs_path. now rewrite replace_absent. }
  assert (E2 : mk_local_path ("dbfs:" +:+ stem) = "/dbfs" +:+ stem).
  { rewrite mk_local_path_prefix. unfold mk_local_path. now rewrite replace_absent. }
  rewrite E1, E2. auto.
Qed.

Example mk_path_round_trip_mnt :
  mk_local_path (mk_dbfs_path "/dbfs/mnt/exp/run1") = "/dbfs/mnt/exp/run1" /\
  mk_dbfs_path (mk_local_path "dbfs:/mnt/exp/run1") = "dbfs:/mnt/exp/run1".
Proof. split; reflexivity. Qed.

(** ** The staging scope *)
Section Staging.

Variable env : Env.

Lemma exn_of_fault_not_empty (f : Fault) :
  exn_of_fault f <> EmptyExperimentPathException.
Proof. destruct f; discriminate. Qed.

(** A body that raises leaves the [with] statement with its exception and
    with the world as the body left it: the code after the yield is not
    run. *)
Lemma with_body_raises {Y A} (g : Generator Y) (body : Y -> M A) w y w1 e w2 :
  before_yield g w = (Ok y, w1) ->
  body y w1 = (Raise e, w2) ->
  with_ g body w = (Raise e, w2).
Proof. intros H1 H2. unfold with_. now rewrite H1, H2. Qed.

Lemma filter_under_removed (dir : string) (keys : list string) :
  List.filter (under dir) (List.filter (fun key => negb (under dir key)) keys) = [].
Proof.
  induction keys as [|k keys IH]; [reflexivity|].
  cbn. destruct (under dir k) eqn:E; cbn; [assumption|].
  now rewrite E.
Qed.

(** X2: When the [with] statement over an s3 path completes, no object of the
    staging copy is left. *)
Lemma move_artifacts_normal_exit {A} (path : string) (body : string -> M A) w a w' :
  PyStr.startswith "s3:/" path = true ->
  with_ (move_artifacts env path) body w = (Ok a, w') ->
  staged w' path = [].
Proof.
  intros Hs. unfold with_, move_artifacts. rewrite Hs. cbn [before_yield after_yield].
  destruct (bind _ _ w) as [[y|e] w1]; [|discriminate].
  destruct (body y w1) as [[b|e] w2]; [|discriminate].
  unfold dbutils_fs_rm, bind, call, modify.
  destruct (fails env _); [discriminate|].
  intros [= <- <-]. unfold staged. cbn. apply filter_under_removed.
Qed.

End Staging.

(** C8, at the failing input: the run r1 exported below
    [s3://bucket/artifacts_v2], with its run.json and one model.  The
    artifact path holds an object, but every [/artifacts] is taken out of
    it where the last one is meant, so that the directory listed is
    [s3://bucket_v2/r1], which has no entry: staging raises the empty-path
    error, and copies nothing. *)
Theorem move_artifacts_inner_artifacts :
  objects_under Sample.versioned_export "s3://bucket/artifacts_v2/r1/artifacts"
  = ["s3://bucket/artifacts_v2/r1/artifacts/model/MLmodel"] /\
  run_dir "s3://bucket/artifacts_v2/r1/artifacts" = "s3://bucket_v2/r1" /\
  listing "s3://bucket/artifacts_v2/r1" (w_dbfs Sample.versioned_export)
  = ["run.json"; "artifacts"] /\
  before_yield (move_artifacts Sample.quiet_env "s3://bucket/artifacts_v2/r1/artifacts")
    Sample.versioned_export
  = (Raise EmptyExperimentPathException, Sample.versioned_export).
Proof. repeat split; vm_compute; reflexivity. Qed.

(** The same run exported below [s3://bucket/exp]: its artifact path is
    staged when it holds the model, and raises the empty-path error when
    the export holds the run.json only. *)
Example move_artifacts_exported_layout :
  (objects_under Sample.exported_run "s3://bucket/exp/r1/artifacts"
   = ["s3://bucket/exp/r1/artifacts/model/MLmodel"] /\
   fst (before_yield (move_artifacts Sample.quiet_env "s3://bucket/exp/r1/artifacts")
          Sample.exported_run) = Ok "/dbfs/temp/bucket/exp/r1/artifacts") /\
  (objects_under Sample.bare_export "s3://bucket/exp/r1/artifacts" = [] /\
   before_yield (move_artifacts Sample.quiet_env "s3://bucket/exp/r1/artifacts")
     Sample.bare_export = (Raise EmptyExperimentPathException, Sample.bare_export)).
Proof. repeat split; vm_compute; reflexivity. Qed.

(** What the guard of [move_artifacts] tests: staging raises the empty-path
    error exactly when the path starts with [s3:/] and the listing of
    [run_dir path] has at most one entry; in that case nothing has been
    copied, the world is as it was.  (A listing that itself fails raises
    the collaborator's exception instead.) *)
Theorem move_artifacts_empty_path (env : Env) (path : string) (w : World) :
  (fst (before_yield (move_artifacts env path) w) = Raise EmptyExperimentPathException
   <-> PyStr.startswith "s3:/" path = true /\
       fails env (StLs (run_dir path)) = None /\
       length (listing (run_dir path) (w_dbfs w)) <= 1) /\
  (fst (before_yield (move_artifacts env path) w) = Raise EmptyExperimentPathException ->
   snd (before_yield (move_artifacts env path) w) = w).
Proof.
  unfold move_artifacts, run_dir.
  destruct (PyStr.startswith "s3:/" path); cbn [before_yield].
  - unfold bind, dbutils_fs_ls, dbutils_fs_cp, call, gets, modify, raise, ret.
    destruct (fails env (StLs _)) as [f|]; cbn.
    { split; [split|]; intros H.
      - inversion H as [H']. now apply exn_of_fault_not_empty in H'.
      - destruct H as (_ & ? & _); discriminate.
      - reflexivity. }
    destruct (Nat.leb_spec (length (listing (mk_dbfs_path (PyStr.replace "/artifacts" "" path))
                                      (w_dbfs w))) 1) as [Hle|Hgt]; cbn.
    + repeat split; auto.
    + destruct (fails env (StCp _ _)) as [f|]; cbn.
      * split; [split|]; intros H.
        -- inversion H as [H']. now apply exn_of_fault_not_empty in H'.
        -- destruct H as (_ & _ & ?); lia.
        -- reflexivity.
      * split; [split|]; intros H; try discriminate.
        destruct H as (_ & _ & ?); lia.
  - cbn. split; [split|]; intros H; try discriminate.
    destruct H as (? & _); discriminate.
Qed.

(** C1, at the failing input: the run exported under
    [s3://bucket/exp/r1] is staged, and the bulk upload made inside the scope
    fails.  The exception leaves the [with] statement and the staging copy
    is still on the store. *)
Theorem move_artifacts_leaves_copy_on_exception :
  staged Sample.exported_run "s3://bucket/exp/r1/artifacts" = [] /\
  exists w',
    with_ (move_artifacts Sample.upload_fails_env "s3://bucket/exp/r1/artifacts")
      (fun path_name => log_artifacts Sample.upload_fails_env "run-1" (mk_local_path path_name))
      Sample.exported_run
    = (Raise (RestException "INTERNAL_ERROR"), w') /\
    staged w' "s3://bucket/exp/r1/artifacts"
    = ["dbfs:/temp/bucket/exp/r1/artifacts/model/MLmodel"].
Proof.
  split; [reflexivity|].
  eexists. split; vm_compute; reflexivity.
Qed.

(** ** Experiment creation *)
Section SetExperiment.

Variable env : Env.

Lemma find_snoc {A} (f : A -> bool) l x :
  List.find f (l ++ [x]) =
  match List.find f l with Some y => Some y | None => if f x then Some x else None end.
Proof. induction l as [|a l IH]; cbn; [reflexivity|]. destruct (f a); auto. Qed.

(** Creating the workspace directory does not look at the world and leaves
    the experiments alone. *)
Lemma ensure_workspace_dir_ok name w wa :
  ensure_workspace_dir env name w = (Ok tt, wa) ->
  w_experiments wa = w_experiments w /\
  forall w', exists wa', ensure_workspace_dir env name w' = (Ok tt, wa') /\
                         w_experiments wa' = w_experiments w'.
Proof.
  unfold ensure_workspace_dir, create_workspace_dir, bind, call, emit, modify, ret.
  destruct (importing_into_databricks env).
  - destruct (fails env _); [discriminate|]. intros [= <-]. split; [reflexivity|].
    intros w'. eexists; split; reflexivity.
  - intros [= <-]. split; [reflexivity|]. intros w'. eexists; split; reflexivity.
Qed.

(** The experiment a successful call leaves behind. *)
Lemma set_experiment_ok name tgs loc w id w1 :
  set_experiment env name tgs loc w = (Ok id, w1) ->
  (fails env (StCreateExperiment name) = None \/
   fails env (StCreateExperiment name) = Some (FaultRest "RESOURCE_ALREADY_EXISTS")) /\
  (exists wa, ensure_workspace_dir env name w = (Ok tt, wa)) /\
  exists exp, find_experiment_by_name name (w_experiments w1) = Some exp /\
              exp_experiment_id exp = id.
Proof.
  unfold set_experiment. intros H.
  apply bind_inv in H as [([] & wa & Hws & H)|(e & _ & [=])].
  apply ensure_workspace_dir_ok in Hws as Hws'. destruct Hws' as [Hwa _].
  apply bind_inv in H as [(exp & wb & Htry & H)|(e & _ & [=])].
  injection H as <- <-.
  unfold try_except, bind, create_experiment, bind, call, gets, get_experiment,
    get_experiment_by_name, gets, modify, ret, raise in Htry.
  destruct (fails env (StCreateExperiment name)) as [f|] eqn:Ef.
  - destruct f as [c|d|d]; cbn in Htry; try discriminate.
    destruct (String.eqb_spec c "RESOURCE_ALREADY_EXISTS") as [->|Hc]; cbn in Htry;
      [|discriminate].
    destruct (find_experiment_by_name name (w_experiments wa)) as [exp'|] eqn:Ex;
      [|discriminate].
    injection Htry as <- <-. split; [now right|]. split; [eauto|]. eauto.
  - split; [now left|]. split; [eauto|].
    destruct (find_experiment_by_name name (w_experiments wa)) as [exp'|] eqn:Ex;
      cbn in Htry.
    + rewrite Ex in Htry. injection Htry as <- <-. eauto.
    + unfold find_experiment_by_id in Htry. cbn in Htry.
      match type of Htry with
      | context [List.find ?f ?l] => destruct (List.find f l) as [e'|] eqn:Eid
      end; cbn in Htry; [|discriminate].
      injection Htry as <- <-. cbn.
      unfold find_experiment_by_name in *. rewrite find_snoc, Ex. cbn.
      rewrite String.eqb_refl. eexists; split; [reflexivity|]. cbn.
      apply find_some in Eid as [_ Eid]. apply String.eqb_eq in Eid.
      now rewrite Eid.
Qed.

(** Creating an experiment whose name is taken raises the already-exists
    error and changes nothing. *)
Lemma create_experiment_known name tgs loc w exp :
  (fails env (StCreateExperiment name) = None \/
   fails env (StCreateExperiment name) = Some (FaultRest "RESOURCE_ALREADY_EXISTS")) ->
  find_experiment_by_name name (w_experiments w) = Some exp ->
  create_experiment env name tgs loc w = (Raise (RestException "RESOURCE_ALREADY_EXISTS"), w).
Proof.
  intros [Ef|Ef] Ex; unfold create_experiment, bind, call, gets, raise; rewrite Ef; cbn;
    [now rewrite Ex | reflexivity].
Qed.

Lemma set_experiment_known name tgs loc w exp :
  (fails env (StCreateExperiment name) = None \/
   fails env (StCreateExperiment name) = Some (FaultRest "RESOURCE_ALREADY_EXISTS")) ->
  (exists wa, ensure_workspace_dir env name w = (Ok tt, wa)) ->
  find_experiment_by_name name (w_experiments w) = Some exp ->
  exists w2, set_experiment env name tgs loc w = (Ok (exp_experiment_id exp), w2) /\
             w_experiments w2 = w_experiments w.
Proof.
  intros Ef (wa & Hws) Ex. unfold set_experiment.
  destruct (ensure_workspace_dir_ok _ _ _ Hws) as [Hwa _].
  rewrite (bind_ok _ _ _ _ _ Hws).
  exists wa. split; [|assumption].
  rewrite <- Hwa in Ex.
  unfold bind at 1, try_except.
  rewrite (bind_raise _ _ _ _ _ (create_experiment_known _ _ _ _ _ Ef Ex)).
  cbn. unfold bind, get_experiment_by_name, gets. now rewrite Ex.
Qed.

(** C7: after a call of [set_experiment] that returned an experiment id, a
    second call with the same name (whatever its tags and artifact
    location) raises nothing and returns the same id; its attempt to create
    the experiment meets the already-exists error, and the experiments of
    the backend are those the first call left. *)
Theorem set_experiment_idempotent name tgs1 loc1 tgs2 loc2 w id w1 :
  set_experiment env name tgs1 loc1 w = (Ok id, w1) ->
  exists w2,
    set_experiment env name tgs2 loc2 w1 = (Ok id, w2) /\
    w_experiments w2 = w_experiments w1 /\
    forall wa, ensure_workspace_dir env name w1 = (Ok tt, wa) ->
      create_experiment env name
        (create_mlflow_tags_for_databricks_import env (default ∅ tgs2)) loc2 wa
      = (Raise (RestException "RESOURCE_ALREADY_EXISTS"), wa).
Proof.
  intros H. apply set_experiment_ok in H as (Ef & (wa & Hws) & exp & Ex & <-).
  destruct (ensure_workspace_dir_ok _ _ _ Hws) as [_ Hall].
  destruct (Hall w1) as (wa' & Hws' & _).
  destruct (set_experiment_known name tgs2 loc2 w1 exp Ef (ex_intro _ wa' Hws') Ex)
    as (w2 & H2 & He).
  exists w2. split; [exact H2|]. split; [exact He|].
  intros wb Hwb. destruct (ensure_workspace_dir_ok _ _ _ Hwb) as [Hwe _].
  rewrite <- Hwe in Ex. eapply create_experiment_known; eauto.
Qed.

End SetExperiment.

Lemma set_experiment_idempotent_witness :
  exists w2,
    set_experiment Sample.quiet_env "/Shared/exp" None None Sample.created_once = (Ok "0", w2) /\
    w_experiments w2 = w_experiments Sample.created_once /\
    forall wa, ensure_workspace_dir Sample.quiet_env "/Shared/exp" Sample.created_once = (Ok tt, wa) ->
      create_experiment Sample.quiet_env "/Shared/exp"
        (create_mlflow_tags_for_databricks_import Sample.quiet_env (default ∅ None)) None wa
      = (Raise (RestException "RESOURCE_ALREADY_EXISTS"), wa).
Proof.
  apply (set_experiment_idempotent Sample.quiet_env "/Shared/exp" None None None None
           Sample.empty_world "0" Sample.created_once).
  vm_compute. reflexivity.
Defined.

(** ** Invariants of the import of a run *)
Section Steady.
Context (R : World -> World -> Prop) `{!PreOrder R}.

Lemma steady_ret {A} (a : A) : steady R (ret a).
Proof. intros w. reflexivity. Qed.

Lemma steady_raise {A} e : steady R (@raise A e).
Proof. intros w. reflexivity. Qed.

Lemma steady_gets {A} (f : World -> A) : steady R (gets f).
Proof. intros w. reflexivity. Qed.

Lemma steady_lift {A} (r : result A) : steady R (lift r).
Proof. intros w. reflexivity. Qed.

Lemma steady_call env st : steady R (call env st).
Proof. intros w. unfold call. destruct (fails env st); reflexivity. Qed.

Lemma steady_modify f : (forall w, R w (f w)) -> steady R (modify f).
Proof. intros H w. apply H. Qed.

Lemma steady_bind {A B} (m : M A) (k : A -> M B) :
  steady R m -> (forall a, steady R (k a)) -> steady R (bind m k).
Proof.
  intros Hm Hk w. unfold bind. specialize (Hm w).
  destruct (m w) as [[a|e] w1]; cbn in *; [|assumption].
  etransitivity; [exact Hm|apply Hk].
Qed.

Lemma steady_try_except {A} (m : M A) h :
  steady R m -> (forall e k, h e = Some k -> steady R k) -> steady R (try_except m h).
Proof.
  intros Hm Hh w. unfold try_except. specialize (Hm w).
  destruct (m w) as [[a|e] w1]; cbn in *; [assumption|].
  destruct (h e) as [k|] eqn:E; [|assumption].
  etransitivity; [exact Hm|eapply Hh; eauto].
Qed.

Lemma steady_for_each {A} (l : list A) f :
  (forall x, steady R (f x)) -> steady R (for_each l f).
Proof.
  intros Hf. induction l as [|x l IH]; cbn [for_each].
  - apply steady_ret.
  - apply steady_bind; auto.
Qed.

Lemma steady_with {Y A} (g : Generator Y) (body : Y -> M A) :
  steady R (before_yield g) -> (forall y, steady R (body y)) ->
  (forall y, steady R (after_yield g y)) -> steady R (with_ g body).
Proof.
  intros Hb Hy Ha w. unfold with_. specialize (Hb w).
  destruct (before_yield g w) as [[y|e] w1]; cbn in *; [|assumption].
  specialize (Hy y w1). destruct (body y w1) as [[a|e] w2]; cbn in *.
  - specialize (Ha y w2). destruct (after_yield g y w2) as [[[]|e] w3]; cbn in *;
      (etransitivity; [exact Hb|]; etransitivity; [exact Hy|exact Ha]).
  - etransitivity; eauto.
Qed.

End Steady.

Global Instance keeps_run_preorder rid : PreOrder (keeps_run rid).
Proof. split; [intros w; unfold keeps_run; auto | intros a b c; unfold keeps_run; auto]. Qed.
Global Instance same_runs_preorder : PreOrder same_runs.
Proof. split; [intros w; reflexivity | intros a b c; unfold same_runs; congruence]. Qed.
Global Instance same_status_preorder rid : PreOrder (same_status rid).
Proof. split; [intros w; reflexivity | intros a b c; unfold same_status; congruence]. Qed.
Global Instance same_view_preorder keep : PreOrder (same_view keep).
Proof. split; [intros w; reflexivity | intros a b c; unfold same_view; congruence]. Qed.

Ltac steady_step :=
  lazymatch goal with
  | |- steady _ (bind _ _) => apply steady_bind; [typeclasses eauto| |intros ?]
  | |- steady _ (ret _) => apply steady_ret; typeclasses eauto
  | |- steady _ (raise _) => apply steady_raise; typeclasses eauto
  | |- steady _ (gets _) => apply steady_gets; typeclasses eauto
  | |- steady _ (lift _) => apply steady_lift; typeclasses eauto
  | |- steady _ (call _ _) => apply steady_call; typeclasses eauto
  | |- steady _ (for_each _ _) => apply steady_for_each; [typeclasses eauto|intros ?]
  | |- steady _ (with_ _ _) => apply steady_with; [typeclasses eauto| |intros ?|intros ?]
  | |- steady _ (if ?b then _ else _) => destruct b
  | |- steady _ (match ?x with _ => _ end) => destruct x
  end.


Lemma view_event keep e w :
  view keep (set_trace (fun t => t ++ [e]) w) = view keep w ++ (if keep e then [e] else []).
Proof. unfold view. cbn. rewrite List.filter_app. cbn. now destruct (keep e). Qed.

Global Instance is_upload_unobserved : Unobserved is_upload.
Proof. intros []; cbn; congruence. Qed.

Global Instance is_import_unobserved : Unobserved is_import.
Proof. intros []; cbn; congruence. Qed.

Global Instance keeps_run_blind rid : Blind (keeps_run rid).
Proof. split; intros; intros Hr; exact Hr. Qed.
Global Instance same_runs_blind : Blind same_runs.
Proof. split; intros; reflexivity. Qed.
Global Instance same_status_blind rid : Blind (same_status rid).
Proof. split; intros; reflexivity. Qed.
Global Instance same_view_blind keep `{!Unobserved keep} : Blind (same_view keep).
Proof.
  split; intros; try reflexivity.
  unfold same_view. rewrite view_event, unobserved by assumption. apply app_nil_r.
Qed.

Ltac steady_go := repeat (steady_step; try typeclasses eauto).

Section BlindFacts.
Context (env : Env) (R : World -> World -> Prop) `{!PreOrder R} `{!Blind R}.

Lemma steady_event e : quiet_event e = true -> steady R (emit e).
Proof. intros H w. now apply blind_event. Qed.

Lemma steady_find_artifacts rid path target : steady R (find_artifacts env rid path target).
Proof. unfold find_artifacts. steady_go. Qed.

Lemma steady_download_mlmodel rid path : steady R (download_mlmodel env rid path).
Proof. unfold download_mlmodel. steady_go. Qed.

Lemma steady_log_artifact rid content dir : steady R (log_artifact env rid content dir).
Proof.
  unfold log_artifact. steady_go.
  - apply steady_modify. intros w. apply blind_artifacts.
  - now apply steady_event.
Qed.

Lemma steady_update_mlmodel_run_id rid : steady R (_update_mlmodel_run_id env rid).
Proof.
  unfold _update_mlmodel_run_id, update_one_mlmodel. steady_go;
    auto using steady_find_artifacts, steady_download_mlmodel, steady_log_artifact.
Qed.

Lemma steady_ls dir : steady R (dbutils_fs_ls env dir).
Proof. unfold dbutils_fs_ls. steady_go. Qed.

Lemma steady_cp src dst rec : steady R (dbutils_fs_cp env src dst rec).
Proof. unfold dbutils_fs_cp. steady_go. apply steady_modify. intros w. apply blind_dbfs. Qed.

Lemma steady_rm path rec : steady R (dbutils_fs_rm env path rec).
Proof. unfold dbutils_fs_rm. steady_go. apply steady_modify. intros w. apply blind_dbfs. Qed.

Lemma steady_before_yield path : steady R (before_yield (move_artifacts env path)).
Proof.
  unfold move_artifacts. destruct (PyStr.startswith "s3:/" path); cbn [before_yield];
    steady_go; auto using steady_ls, steady_cp.
Qed.

Lemma steady_after_yield path y : steady R (after_yield (move_artifacts env path) y).
Proof.
  unfold move_artifacts. destruct (PyStr.startswith "s3:/" path); cbn [after_yield];
    steady_go; auto using steady_rm.
Qed.

Lemma steady_os_path_exists p : steady R (os_path_exists env p).
Proof. unfold os_path_exists. steady_go. Qed.

Lemma steady_create_workspace_dir d : steady R (create_workspace_dir env d).
Proof. unfold create_workspace_dir. steady_go. now apply steady_event. Qed.

Lemma steady_upload_notebook input_dir src d :
  steady R (_upload_databricks_notebook env input_dir src d).
Proof.
  unfold _upload_databricks_notebook.
  destruct (src_tags src !! _) as [[|c t]|]; try (now apply steady_event).
  steady_go; auto using steady_os_path_exists, steady_create_workspace_dir;
    try (now apply steady_event).
  apply steady_try_except; [typeclasses eauto| |].
  - steady_go. now apply steady_event.
  - intros e k H. destruct e; try discriminate. injection H as <-. now apply steady_event.
Qed.

Lemma steady_set_experiment name tgs loc : steady R (set_experiment env name tgs loc).
Proof.
  unfold set_experiment, ensure_workspace_dir.
  steady_go; auto using steady_create_workspace_dir.
  apply steady_try_except; [typeclasses eauto| |].
  - unfold create_experiment, get_experiment. steady_go.
    apply steady_modify. intros w. etransitivity; [apply blind_experiments|apply blind_next].
  - intros e k H. destruct e; try discriminate. injection H as <-.
    unfold get_experiment_by_name. steady_go.
Qed.

Lemma steady_epilogue self src run0 run input_dir nb :
  steady R (import_run_epilogue env self src run0 run input_dir nb).
Proof.
  unfold import_run_epilogue. steady_go; auto using steady_upload_notebook.
Qed.

End BlindFacts.

Section RunFacts.
Variable env : Env.

Lemma keeps_run_update rid rid' f : steady (keeps_run rid) (update_run rid' f).
Proof.
  intros w [r Hr]. unfold update_run, lookup_run, bind, gets, modify, raise, ret.
  destruct (w_runs w !! rid') as [r'|]; cbn; [|eauto].
  destruct (decide (rid = rid')) as [->|Hne].
  - rewrite lookup_insert_eq. eauto.
  - rewrite lookup_insert_ne by congruence. eauto.
Qed.

Lemma keeps_run_emit rid e : steady (keeps_run rid) (emit e).
Proof. intros w H. exact H. Qed.

Lemma view_update keep rid f : steady (same_view keep) (update_run rid f).
Proof.
  intros w. unfold update_run, lookup_run, bind, gets, modify, raise, ret.
  destruct (w_runs w !! rid); reflexivity.
Qed.



Lemma keeps_run_import_run_data rid src rid' b u b1 b2 :
  steady (keeps_run rid) (import_run_data env src rid' b u b1 b2).
Proof.
  unfold import_run_data. steady_go; auto using keeps_run_update, keeps_run_emit.
Qed.

Lemma view_emit keep e : keep e = false -> steady (same_view keep) (emit e).
Proof.
  intros H w. unfold same_view, emit, modify. cbn [snd]. rewrite view_event, H.
  apply app_nil_r.
Qed.

Lemma view_import_run_data keep src rid b u b1 b2 :
  keep (EvImportRunData rid) = false ->
  steady (same_view keep) (import_run_data env src rid b u b1 b2).
Proof.
  intros H. unfold import_run_data. steady_go; auto using view_update, view_emit.
Qed.

Lemma keeps_run_set_terminated rid rid' st : steady (keeps_run rid) (set_terminated env rid' st).
Proof. unfold set_terminated. steady_go; auto using keeps_run_update, keeps_run_emit. Qed.

Lemma view_set_terminated keep rid st :
  keep (EvSetTerminated rid st) = false ->
  steady (same_view keep) (set_terminated env rid st).
Proof.
  intros H. unfold set_terminated. steady_go; auto using view_update, view_emit.
Qed.

Lemma keeps_run_get_run rid rid' : steady (keeps_run rid) (get_run env rid').
Proof. unfold get_run, lookup_run. steady_go. Qed.


Lemma keeps_run_delete_run rid rid' : steady (keeps_run rid) (delete_run env rid').
Proof. unfold delete_run. steady_go; auto using keeps_run_update, keeps_run_emit. Qed.


Lemma keeps_run_log_artifacts rid rid' d : steady (keeps_run rid) (log_artifacts env rid' d).
Proof. unfold log_artifacts. steady_go. apply keeps_run_emit. Qed.


Lemma keeps_run_artifacts rid self rid' input_dir :
  steady (keeps_run rid) (import_run_artifacts env self rid' input_dir).
Proof.
  unfold import_run_artifacts.
  steady_go; auto using steady_find_artifacts, steady_before_yield, steady_after_yield,
    steady_update_mlmodel_run_id, steady_os_path_exists, keeps_run_log_artifacts
    with typeclass_instances.
Qed.

Lemma keeps_run_refetch rid src rid' :
  steady (keeps_run rid) (import_run_refetch env src rid').
Proof.
  unfold import_run_refetch. steady_go; auto using keeps_run_get_run, keeps_run_delete_run.
Qed.


Lemma keeps_run_steps rid self src rid' input_dir :
  steady (keeps_run rid) (import_run_steps env self src rid' input_dir).
Proof.
  unfold import_run_steps.
  steady_go; auto using keeps_run_import_run_data, keeps_run_artifacts,
    keeps_run_set_terminated, keeps_run_refetch.
Qed.

End RunFacts.

(** ** Which exceptions can be raised *)
Section NeverEmpty.
Variable env : Env.

Lemma never_empty_ret {A} (a : A) : never_empty (ret a).
Proof. intros w. discriminate. Qed.

Lemma never_empty_gets {A} (f : World -> A) : never_empty (gets f).
Proof. intros w. discriminate. Qed.

Lemma never_empty_modify f : never_empty (modify f).
Proof. intros w. discriminate. Qed.

Lemma never_empty_emit e : never_empty (emit e).
Proof. intros w. discriminate. Qed.

Lemma never_empty_raise {A} e : e <> EmptyExperimentPathException -> never_empty (@raise A e).
Proof. intros H w. cbn. congruence. Qed.

Lemma never_empty_call st : never_empty (call env st).
Proof.
  intros w. unfold call. destruct (fails env st) as [f|]; cbn; [|discriminate].
  intros [= H]. now apply exn_of_fault_not_empty in H.
Qed.

Lemma never_empty_bind {A B} (m : M A) (k : A -> M B) :
  never_empty m -> (forall a, never_empty (k a)) -> never_empty (bind m k).
Proof.
  intros Hm Hk w. unfold bind. specialize (Hm w).
  destruct (m w) as [[a|e] w1]; [apply Hk|].
  cbn in *. intros [= ->]. now apply Hm.
Qed.

Lemma never_empty_for_each {A} (l : list A) f :
  (forall x, never_empty (f x)) -> never_empty (for_each l f).
Proof.
  intros Hf. induction l as [|x l IH]; cbn [for_each].
  - apply never_empty_ret.
  - apply never_empty_bind; auto.
Qed.

Ltac never_step :=
  lazymatch goal with
  | |- never_empty (bind _ _) => apply never_empty_bind; [|intros ?]
  | |- never_empty (ret _) => apply never_empty_ret
  | |- never_empty (gets _) => apply never_empty_gets
  | |- never_empty (modify _) => apply never_empty_modify
  | |- never_empty (emit _) => apply never_empty_emit
  | |- never_empty (call _ _) => apply never_empty_call
  | |- never_empty (raise _) => apply never_empty_raise; discriminate
  | |- never_empty (for_each _ _) => apply never_empty_for_each; intros ?
  | |- never_empty (if ?b then _ else _) => destruct b
  | |- never_empty (match ?x with _ => _ end) => destruct x
  end.
Ltac never_go := repeat never_step.

Lemma never_empty_update_run rid f : never_empty (update_run rid f).
Proof. unfold update_run, lookup_run. never_go. Qed.

Lemma never_empty_import_run_data src rid b u b1 b2 :
  never_empty (import_run_data env src rid b u b1 b2).
Proof. unfold import_run_data. never_go. apply never_empty_update_run. Qed.

Lemma never_empty_find_artifacts rid p t : never_empty (find_artifacts env rid p t).
Proof. unfold find_artifacts. never_go. Qed.

Lemma never_empty_set_terminated rid st : never_empty (set_terminated env rid st).
Proof. unfold set_terminated. never_go. apply never_empty_update_run. Qed.

Lemma never_empty_get_run rid : never_empty (get_run env rid).
Proof. unfold get_run, lookup_run. never_go. Qed.

Lemma never_empty_delete_run rid : never_empty (delete_run env rid).
Proof. unfold delete_run. never_go. apply never_empty_update_run. Qed.

Lemma never_empty_refetch src rid : never_empty (import_run_refetch env src rid).
Proof.
  unfold import_run_refetch. never_go; auto using never_empty_get_run, never_empty_delete_run.
Qed.

Lemma never_empty_update_mlmodel rid : never_empty (_update_mlmodel_run_id env rid).
Proof.
  unfold _update_mlmodel_run_id, update_one_mlmodel, download_mlmodel, log_artifact, lift.
  never_go; auto using never_empty_find_artifacts.
  intros w. unfold patch_mlmodel. cbn. destruct (_ !! _); discriminate.
Qed.

Lemma never_empty_staged_body self rid path_name :
  never_empty
    ((if mlmodel_fix self then _update_mlmodel_run_id env rid else ret tt) ;;
     let* present := os_path_exists env (mk_local_path path_name) in
     if present then log_artifacts env rid (mk_local_path path_name) else ret tt).
Proof.
  unfold os_path_exists, log_artifacts. never_go; auto using never_empty_update_mlmodel.
Qed.

Lemma never_empty_after_yield path y : never_empty (after_yield (move_artifacts env path) y).
Proof.
  unfold move_artifacts. destruct (PyStr.startswith "s3:/" path); cbn [after_yield];
    unfold dbutils_fs_rm; never_go.
Qed.

(** Inside a [with], the empty-path error can only come from the code that
    runs before the yield. *)
Lemma with_raises_empty {Y A} (g : Generator Y) (body : Y -> M A) w w' :
  (forall y, never_empty (body y)) ->
  (forall y, never_empty (after_yield g y)) ->
  with_ g body w = (Raise EmptyExperimentPathException, w') ->
  before_yield g w = (Raise EmptyExperimentPathException, w').
Proof.
  intros Hb Ha. unfold with_.
  destruct (before_yield g w) as [[y|e] w1]; [|intros [= -> ->]; reflexivity].
  specialize (Hb y w1). destruct (body y w1) as [[a|e] w2]; cbn in Hb.
  - specialize (Ha y w2). destruct (after_yield g y w2) as [[[]|e] w3]; cbn in Ha.
    + discriminate.
    + intros [= -> _]. now destruct Ha.
  - intros [= -> _]. now destruct Hb.
Qed.

End NeverEmpty.

Section ImportRun.
Variable env : Env.

Lemma set_terminated_ok rid st w :
  fails env (StSetTerminated rid st) = None ->
  is_Some (w_runs w !! rid) ->
  exists w', set_terminated env rid st w = (Ok tt, w') /\
             status_of w' rid = Some st /\ uploads w' = uploads w.
Proof.
  intros Hacc [r Hr].
  unfold set_terminated, update_run, lookup_run, emit, bind, call, gets, modify, ret.
  rewrite Hacc, Hr. cbn. eexists. split; [reflexivity|]. split.
  - unfold status_of. cbn. now rewrite lookup_insert_eq.
  - unfold view. cbn. rewrite List.filter_app. cbn. apply app_nil_r.
Qed.

(** A termination call that the backend refuses changes nothing. *)
Lemma set_terminated_refused rid st f w :
  fails env (StSetTerminated rid st) = Some f ->
  set_terminated env rid st w = (Raise (exn_of_fault f), w).
Proof. intros Hf. unfold set_terminated, bind, call. now rewrite Hf. Qed.


Lemma create_run_inv exp_id w run w1 :
  create_run env exp_id w = (Ok run, w1) ->
  w_runs w1 !! run_id (info run) = Some run /\ status (info run) = RUNNING /\
  uploads w1 = uploads w.
Proof.
  unfold create_run, emit, bind, gets, modify, ret. cbn. intros [= <- <-]. cbn.
  split; [apply lookup_insert_eq|]. split; [reflexivity|].
  unfold view. cbn. rewrite List.filter_app. cbn. apply app_nil_r.
Qed.

Lemma prologue_inv name input_dir w exp src run0 w1 :
  import_run_prologue env name input_dir w = (Ok (exp, src, run0), w1) ->
  w_runs w1 !! run_id (info run0) = Some run0 /\ status (info run0) = RUNNING.
Proof.
  unfold import_run_prologue. intros H.
  apply bind_inv in H as [(exp_id & wa & _ & H)|(e & _ & [=])].
  apply bind_inv in H as [(exp' & wb & _ & H)|(e & _ & [=])].
  apply bind_inv in H as [(src' & wc & _ & H)|(e & _ & [=])].
  apply bind_inv in H as [(run & wd & Hc & H)|(e & _ & [=])].
  injection H as <- <- <- <-.
  apply create_run_inv in Hc as (? & ? & _). auto.
Qed.

Section Guarded.
Variables (self : RunImporter) (exp : Experiment) (src : SrcRun) (run0 : Run)
  (input_dir : string).
Let rid := run_id (info run0).


(** When the backend refuses the FAILED call, the exception of that call
    is what leaves the [try] statement, and the status is the one the
    guarded steps left. *)
Lemma guarded_refused w1 e w2 f :
  fails env (StSetTerminated rid FAILED) = Some f ->
  import_run_steps env self src rid input_dir w1 = (Raise e, w2) ->
  import_run_guarded env self exp src run0 input_dir w1 = (Raise (exn_of_fault f), w2).
Proof.
  intros Hf Hsteps. unfold import_run_guarded, try_except. fold rid. rewrite Hsteps.
  destruct e; now rewrite (bind_raise _ _ _ _ _ (set_terminated_refused rid FAILED f w2 Hf)).
Qed.

Lemma artifacts_raise_empty w w' :
  import_run_artifacts env self rid input_dir w = (Raise EmptyExperimentPathException, w') ->
  uploads w' = uploads w.
Proof.
  unfold import_run_artifacts. intros H.
  apply bind_inv in H as [(found & wa & Hf & H)|(e & Hf & [= <-])].
  - pose proof (steady_find_artifacts env same_uploads rid "" "MLmodel" w) as Hu.
    rewrite Hf in Hu. cbn in Hu. destruct found; [discriminate|].
    apply with_raises_empty in H;
      [|intros; apply never_empty_staged_body|intros; apply never_empty_after_yield].
    pose proof (steady_before_yield env same_uploads (PyStr.path_join input_dir "artifacts") wa)
      as Hb.
    rewrite H in Hb. cbn in Hb. unfold same_view in *. congruence.
  - pose proof (never_empty_find_artifacts env rid "" "MLmodel" w) as Hn.
    rewrite Hf in Hn. now destruct Hn.
Qed.

Lemma steps_raise_empty w1 w2 :
  import_run_steps env self src rid input_dir w1 = (Raise EmptyExperimentPathException, w2) ->
  uploads w2 = uploads w1.
Proof.
  unfold import_run_steps. intros H.
  apply bind_inv in H as [([] & wa & Hd & H)|(e & Hd & [= <-])].
  - pose proof (view_import_run_data env is_upload src rid (import_source_tags self)
                  (src_user_id (src_info src)) (use_src_user_id self) (in_databricks self)
                  eq_refl w1)
      as Hu.
    rewrite Hd in Hu. cbn in Hu.
    apply bind_inv in H as [([] & wb & Ha & H)|(e & Ha & [= <-])].
    + apply bind_inv in H as [([] & wc & Ht & H)|(e & Ht & [= <-])].
      * pose proof (never_empty_refetch env src rid wc) as Hn. rewrite H in Hn. now destruct Hn.
      * pose proof (never_empty_set_terminated env rid FINISHED wb) as Hn.
        rewrite Ht in Hn. now destruct Hn.
    + apply artifacts_raise_empty in Ha. unfold same_view in Hu. congruence.
  - pose proof (never_empty_import_run_data env src rid (import_source_tags self)
                  (src_user_id (src_info src)) (use_src_user_id self) (in_databricks self) w1)
      as Hn.
    rewrite Hd in Hn. now destruct Hn.
Qed.

(** The first [except] clause, when the backend accepts the FAILED call. *)
Lemma guarded_empty w1 w2 :
  fails env (StSetTerminated rid FAILED) = None ->
  is_Some (w_runs w1 !! rid) ->
  import_run_steps env self src rid input_dir w1 = (Raise EmptyExperimentPathException, w2) ->
  exists w3,
    import_run_guarded env self exp src run0 input_dir w1 = (Ok run0, w3) /\
    status_of w3 rid = Some FAILED /\ uploads w3 = uploads w1.
Proof.
  intros Hacc Hrun Hsteps.
  pose proof (keeps_run_steps env rid self src rid input_dir w1) as Hk.
  rewrite Hsteps in Hk. cbn in Hk. specialize (Hk Hrun).
  destruct (set_terminated_ok rid FAILED w2 Hacc Hk) as (w3 & Hst & Hs & Hu).
  exists w3. split; [|split; [exact Hs|]].
  - unfold import_run_guarded, try_except. fold rid. rewrite Hsteps.
    now rewrite (bind_ok _ _ _ _ _ Hst).
  - rewrite Hu. now apply steps_raise_empty.
Qed.



End Guarded.
End ImportRun.

Section ImportRunResults.
Variables (env : Env) (self : RunImporter) (name input_dir : string) (nb : option string).

Lemma prologue_uploads w exp src run0 w1 :
  import_run_prologue env name input_dir w = (Ok (exp, src, run0), w1) ->
  uploads w1 = uploads w.
Proof.
  unfold import_run_prologue. intros H.
  apply bind_inv in H as [(exp_id & wa & Hs & H)|(e & _ & [=])].
  pose proof (steady_set_experiment env same_uploads name None None w) as Hu.
  rewrite Hs in Hu. cbn in Hu.
  apply bind_inv in H as [(exp' & wb & Hg & H)|(e & _ & [=])].
  assert (wb = wa) as ->.
  { unfold get_experiment, bind, gets, ret, raise in Hg. destruct find_experiment_by_id; now inversion Hg. }
  apply bind_inv in H as [(src' & wc & Hr & H)|(e & _ & [=])].
  assert (wc = wa) as ->.
  { unfold read_file_mlflow, ret, raise in Hr. destruct run_json; now inversion Hr. }
  apply bind_inv in H as [(run & wd & Hc & H)|(e & _ & [=])].
  injection H as <- <- <- <-.
  apply create_run_inv in Hc as (_ & _ & Hc). unfold same_view in Hu. congruence.
Qed.

Lemma epilogue_inv src run0 run w r p w' :
  import_run_epilogue env self src run0 run input_dir nb w = (Ok (r, p), w') ->
  r = run /\ p = src_tags src !! MLFLOW_PARENT_RUN_ID.
Proof.
  unfold import_run_epilogue. intros H.
  apply bind_inv in H as [([] & wa & _ & H)|(e & _ & [=])].
  now injection H as <- <- <-.
Qed.

Lemma notebook_upload_not_requested src run0 :
  importing_into_databricks env && truthy nb = false ->
  notebook_upload_completes env self src run0 input_dir nb.
Proof. intros H run w. unfold import_run_epilogue. now rewrite H. Qed.


(** The first [except] clause of [_import_run] (lines 163 and 164), where
    it is reached: when the guarded steps raise the empty-path error and
    the backend accepts the FAILED call, the status of the run is set to
    FAILED, no bulk upload has been made, and (the statements after the
    [try] raising nothing) [_import_run] returns the run as [create_run]
    returned it, which still reports RUNNING. *)
Lemma import_run_handles_empty_path w exp src run0 w1 w2 :
  import_run_prologue env name input_dir w = (Ok (exp, src, run0), w1) ->
  import_run_steps env self src (run_id (info run0)) input_dir w1
    = (Raise EmptyExperimentPathException, w2) ->
  fails env (StSetTerminated (run_id (info run0)) FAILED) = None ->
  notebook_upload_completes env self src run0 input_dir nb ->
  exists w3,
    _import_run env self name input_dir nb w
    = (Ok (run0, src_tags src !! MLFLOW_PARENT_RUN_ID), w3) /\
    status (info run0) = RUNNING /\
    status_of w3 (run_id (info run0)) = Some FAILED /\
    uploads w3 = uploads w.
Proof.
  intros Hp Hsteps Hacc Hnb. destruct (prologue_inv _ _ _ _ _ _ _ _ Hp) as [Hrun Hst].
  assert (Hsome : is_Some (w_runs w1 !! run_id (info run0))) by eauto.
  destruct (guarded_empty env self exp src run0 input_dir w1 w2 Hacc Hsome Hsteps)
    as (wg & Hg & Hs & Hu).
  specialize (Hnb run0 wg).
  pose proof (steady_epilogue env (same_status (run_id (info run0))) self src run0 run0
                input_dir nb wg) as He1.
  pose proof (steady_epilogue env same_uploads self src run0 run0 input_dir nb wg) as He2.
  destruct (import_run_epilogue env self src run0 run0 input_dir nb wg) as [r w3] eqn:E.
  cbn in *. subst r. exists w3.
  unfold _import_run. rewrite (bind_ok _ _ _ _ _ Hp), (bind_ok _ _ _ _ _ Hg), E.
  split; [reflexivity|]. split; [exact Hst|]. unfold same_status, same_view in *.
  rewrite (prologue_uploads _ _ _ _ _ Hp) in Hu. split; congruence.
Qed.

End ImportRunResults.



(** ** The MLmodel patch *)
Section DictFacts.
Context {V : Type}.

Lemma dict_get_set_eq k (v : V) d : Dict.get k (Dict.set k v d) = Some v.
Proof.
  induction d as [|[k' v'] d IH]; cbn.
  - now rewrite String.eqb_refl.
  - destruct (String.eqb_spec k k') as [->|Hne]; cbn.
    + now rewrite String.eqb_refl.
    + destruct (String.eqb_spec k k'); [contradiction|assumption].
Qed.

Lemma dict_get_set_ne k k' (v : V) d : k <> k' -> Dict.get k' (Dict.set k v d) = Dict.get k' d.
Proof.
  intros Hne. induction d as [|[k0 v0] d IH]; cbn.
  - destruct (String.eqb_spec k' k); [congruence|reflexivity].
  - destruct (String.eqb_spec k k0) as [->|Hk]; cbn.
    + destruct (String.eqb_spec k' k0); [congruence|reflexivity].
    + destruct (String.eqb_spec k' k0); [reflexivity|assumption].
Qed.

Lemma dict_get_in_keys k (d : Dict.t V) : In k (Dict.keys d) -> is_Some (Dict.get k d).
Proof.
  induction d as [|[k' v'] d IH]; cbn; [tauto|].
  destruct (String.eqb_spec k k'); [eauto|]. intros [H|H]; [congruence|auto].
Qed.

End DictFacts.

Section Patch.
Variables (env : Env) (rid : string).
Hypothesis no_find_fault : fails env (StFindArtifacts rid) = None.
Hypothesis no_download_fault : forall p, fails env (StDownloadArtifacts rid p) = None.
Hypothesis no_upload_fault : forall d, fails env (StLogArtifact rid d) = None.

Lemma update_one_mlmodel_ok p w m a :
  Dict.get p (run_artifacts w rid) = Some m ->
  m !! "artifact_path" = Some a ->
  exists w',
    update_one_mlmodel env rid p w = (Ok tt, w') /\
    run_artifacts w' rid = Dict.set (upload_key p) (patched rid a m) (run_artifacts w rid).
Proof.
  intros Hg Ha.
  unfold update_one_mlmodel, download_mlmodel, log_artifact, lift, patch_mlmodel,
    bind, call, gets, modify, emit, ret, raise.
  rewrite no_download_fault. cbn. fold (run_artifacts w rid). rewrite Hg. cbn.
  rewrite lookup_insert_ne by discriminate. rewrite Ha. cbn.
  rewrite no_upload_fault. cbn. eexists. split; [reflexivity|].
  unfold run_artifacts. cbn. now rewrite lookup_insert_eq.
Qed.

Lemma update_each_mlmodel l : forall w,
  List.NoDup l ->
  (forall p, In p l -> upload_key p = p /\
     exists m a, Dict.get p (run_artifacts w rid) = Some m /\ m !! "artifact_path" = Some a) ->
  exists w',
    for_each l (update_one_mlmodel env rid) w = (Ok tt, w') /\
    (forall p m a, In p l -> Dict.get p (run_artifacts w rid) = Some m ->
       m !! "artifact_path" = Some a ->
       Dict.get p (run_artifacts w' rid) = Some (patched rid a m)) /\
    (forall q, ~ In q l -> Dict.get q (run_artifacts w' rid) = Dict.get q (run_artifacts w rid)).
Proof.
  induction l as [|p l IH]; intros w Hnd Hall.
  - exists w. split; [reflexivity|]. split; [intros ? ? ? []|reflexivity].
  - inversion Hnd as [|? ? Hnotin Hnd']; subst.
    destruct (Hall p (or_introl eq_refl)) as (Hkey & m & a & Hg & Ha).
    destruct (update_one_mlmodel_ok p w m a Hg Ha) as (w1 & H1 & Hw1).
    rewrite Hkey in Hw1.
    assert (Hother : forall q, q <> p ->
              Dict.get q (run_artifacts w1 rid) = Dict.get q (run_artifacts w rid)).
    { intros q Hq. rewrite Hw1. apply dict_get_set_ne. congruence. }
    destruct (IH w1 Hnd') as (w' & Hl & Hin & Hout).
    { intros q Hq. destruct (Hall q (or_intror Hq)) as (Hk & m' & a' & Hg' & Ha').
      split; [exact Hk|]. exists m', a'. split; [|exact Ha'].
      rewrite Hother; [exact Hg'|]. intros ->. contradiction. }
    exists w'. split; [|split].
    + cbn [for_each]. now rewrite (bind_ok _ _ _ _ _ H1).
    + intros q mq aq [<-|Hq] Hgq Haq.
      * rewrite Hout by assumption. rewrite Hw1, dict_get_set_eq. congruence.
      * apply Hin; auto. rewrite Hother; [exact Hgq|]. intros ->. contradiction.
    + intros q Hq. rewrite Hout by (intros ?; apply Hq; now right).
      apply Hother. intros ->. apply Hq. now left.
Qed.

(** X3: The patch step on well-formed input: when no collaborator call fails,
    the artifact paths are distinct, and every MLmodel found has an
    [artifact_path] and lies where its patched copy is uploaded, every
    MLmodel found ends up with the destination run id and its
    [artifact_path] prefixed, its other fields unchanged. *)
Lemma update_mlmodel_run_id_patches w :
  List.NoDup (Dict.keys (run_artifacts w rid)) ->
  (forall p m, Dict.get p (run_artifacts w rid) = Some m ->
     PyStr.basename p = "MLmodel" ->
     upload_key p = p /\ is_Some (m !! "artifact_path")) ->
  exists w',
    _update_mlmodel_run_id env rid w = (Ok tt, w') /\
    forall p m a,
      Dict.get p (run_artifacts w rid) = Some m ->
      PyStr.basename p = "MLmodel" ->
      m !! "artifact_path" = Some a ->
      exists m',
        Dict.get p (run_artifacts w' rid) = Some m' /\
        m' !! "run_id" = Some rid /\
        m' !! "artifact_path" = Some ("artifacts/" +:+ a) /\
        forall k, k <> "run_id" -> k <> "artifact_path" -> m' !! k = m !! k.
Proof.
  intros Hnd Hwf.
  set (paths := List.filter (fun p => String.eqb (PyStr.basename p) "MLmodel")
                  (Dict.keys (run_artifacts w rid))).
  assert (Hpaths : forall p, In p paths <->
            In p (Dict.keys (run_artifacts w rid)) /\ PyStr.basename p = "MLmodel").
  { intros p. unfold paths. rewrite List.filter_In, String.eqb_eq. reflexivity. }
  destruct (update_each_mlmodel paths w) as (w' & Hl & Hin & _).
  { apply List.NoDup_filter, Hnd. }
  { intros p Hp. apply Hpaths in Hp as [Hk Hb].
    destruct (dict_get_in_keys _ _ Hk) as [m Hm].
    destruct (Hwf p m Hm Hb) as [Hu [a Ha]]. eauto 6. }
  exists w'. split.
  - unfold _update_mlmodel_run_id, find_artifacts.
    unfold bind at 1. unfold bind at 1. unfold call. rewrite no_find_fault. cbn.
    exact Hl.
  - intros p m a Hg Hb Ha. exists (patched rid a m). split.
    + apply Hin; auto. apply Hpaths. split; [|exact Hb].
      clear -Hg. induction (run_artifacts w rid) as [|[k v] d IH]; cbn in *; [discriminate|].
      destruct (String.eqb_spec p k); [now left|right; auto].
    + unfold patched. split; [|split].
      * rewrite lookup_insert_ne by discriminate. apply lookup_insert_eq.
      * apply lookup_insert_eq.
      * intros k H1 H2. now rewrite !lookup_insert_ne by congruence.
Qed.

End Patch.

(** The upload directory is computed by a textual replacement: for a model
    under a nested directory whose name starts with [MLmodel] it is not the
    directory of the file. *)
Remark upload_key_examples :
  upload_key "model/MLmodel" = "model/MLmodel" /\
  upload_key "MLmodel" = "MLmodel" /\
  upload_key "out/MLmodels/MLmodel" = "outs/MLmodel".
Proof. repeat split. Qed.

(** C5, at the failing input: the destination run holds the MLmodel
    [out/MLmodels/MLmodel].  The patch step completes; the patched copy is
    uploaded as [outs/MLmodel], and the MLmodel that was found still has the
    run id and the artifact path of the source. *)
Theorem update_mlmodel_run_id_misplaced :
  exists w',
    _update_mlmodel_run_id Sample.quiet_env "run-1" Sample.nested_models = (Ok tt, w') /\
    Dict.get "out/MLmodels/MLmodel" (run_artifacts w' "run-1") = Some Sample.mlmodel_old /\
    Sample.mlmodel_old !! "run_id" = Some "r1" /\
    Sample.mlmodel_old !! "artifact_path" = Some "model" /\
    Dict.get "outs/MLmodel" (run_artifacts w' "run-1")
    = Some (patched "run-1" "model" Sample.mlmodel_old).
Proof. eexists. repeat split; vm_compute; reflexivity. Qed.

(** ** The experiment importer *)
Section ViewFacts.
Variables (env : Env) (keep : Event -> bool).

Lemma view_get_run rid : steady (same_view keep) (get_run env rid).
Proof. unfold get_run, lookup_run. steady_go. Qed.

Lemma view_delete_run rid :
  keep (EvDeleteRun rid) = false -> steady (same_view keep) (delete_run env rid).
Proof. intros H. unfold delete_run. steady_go; auto using view_update, view_emit. Qed.

Lemma view_log_artifacts rid d :
  keep (EvLogArtifacts rid d) = false -> steady (same_view keep) (log_artifacts env rid d).
Proof. intros H. unfold log_artifacts. steady_go; auto using view_emit. Qed.

Lemma view_set_tag rid k v :
  keep (EvSetTag rid k v) = false -> steady (same_view keep) (set_tag rid k v).
Proof. intros H. unfold set_tag. steady_go; auto using view_update, view_emit. Qed.

Lemma view_create_run exp_id :
  (forall rid, keep (EvCreateRun rid) = false) ->
  steady (same_view keep) (create_run env exp_id).
Proof.
  intros H. unfold create_run. steady_go; auto using view_emit.
  apply steady_modify. intros w. reflexivity.
Qed.

End ViewFacts.

Section Imports.
Variable env : Env.

Lemma imports_steps self src rid input_dir :
  steady same_imports (import_run_steps env self src rid input_dir).
Proof.
  unfold import_run_steps, import_run_artifacts, import_run_refetch.
  steady_go; auto using view_import_run_data, view_set_terminated, view_get_run,
    view_delete_run, view_log_artifacts, steady_find_artifacts, steady_before_yield,
    steady_after_yield, steady_update_mlmodel_run_id, steady_os_path_exists
    with typeclass_instances.
Qed.

Lemma imports_import_run self name input_dir nb :
  steady same_imports (_import_run env self name input_dir nb).
Proof.
  unfold _import_run, import_run_prologue, import_run_guarded, get_experiment,
    read_file_mlflow.
  steady_go; auto using steady_set_experiment, view_create_run, steady_epilogue
    with typeclass_instances.
  apply steady_try_except; [typeclasses eauto|apply imports_steps|].
  intros ex k H.
  destruct ex; injection H as <-; steady_go; auto using view_set_terminated.
Qed.

End Imports.

Section DictKeys.
Context {V : Type}.

Lemma keys_set_in k (v : V) d : In k (Dict.keys d) -> Dict.keys (Dict.set k v d) = Dict.keys d.
Proof.
  induction d as [|[k' v'] d IH]; cbn; [tauto|].
  destruct (String.eqb_spec k k') as [->|Hne]; cbn; [reflexivity|].
  intros [H|H]; [congruence|]. f_equal. auto.
Qed.

Lemma keys_set_notin k (v : V) d :
  ~ In k (Dict.keys d) -> Dict.keys (Dict.set k v d) = Dict.keys d ++ [k].
Proof.
  induction d as [|[k' v'] d IH]; cbn; [reflexivity|].
  destruct (String.eqb_spec k k') as [->|Hne]; cbn; [tauto|].
  intros H. f_equal. apply IH. tauto.
Qed.

Lemma in_keys_set k (v : V) d id :
  In id (Dict.keys (Dict.set k v d)) <-> In id (Dict.keys d) \/ id = k.
Proof.
  destruct (in_dec string_dec k (Dict.keys d)) as [Hin|Hnot].
  - rewrite keys_set_in by assumption. split; [tauto|]. intros [H| ->]; assumption.
  - rewrite keys_set_notin by assumption. rewrite in_app_iff. cbn. intuition congruence.
Qed.

Lemma nodup_keys_set k (v : V) d :
  List.NoDup (Dict.keys d) -> List.NoDup (Dict.keys (Dict.set k v d)).
Proof.
  intros Hnd. destruct (in_dec string_dec k (Dict.keys d)) as [Hin|Hnot].
  - now rewrite keys_set_in.
  - rewrite keys_set_notin by assumption. apply List.NoDup_app; [assumption| |].
    + constructor; [intros []|constructor].
    + intros a Ha [<-|[]]. contradiction.
Qed.

Lemma len_set_notin k (v : V) d :
  ~ In k (Dict.keys d) -> Dict.len (Dict.set k v d) = S (Dict.len d).
Proof.
  intros H. unfold Dict.len. rewrite <- (length_map fst (Dict.set k v d)).
  fold (Dict.keys (Dict.set k v d)). rewrite keys_set_notin by assumption.
  rewrite length_app. unfold Dict.keys. rewrite length_map. cbn. lia.
Qed.

End DictKeys.

Section Experiment.
Variables (env : Env) (self : ExperimentImporter) (name input_dir : string)
  (nb : option string).

Lemma import_run_imports src_run_id r w' w :
  import_run env name (PyStr.path_join input_dir src_run_id) nb
    (ei_import_source_tags self) (ei_use_src_user_id self) w = (r, w') ->
  imports w' = imports w ++ [import_event input_dir src_run_id].
Proof.
  unfold import_run, RunImporter_import_run. intros H.
  apply bind_inv in H as [([] & wa & He & H)|(e & He & _)]; [|discriminate].
  injection He as <-.
  pose proof (imports_import_run env
                (RunImporter_init env (ei_import_source_tags self) true
                   (ei_use_src_user_id self) false)
                name (PyStr.path_join input_dir src_run_id) nb
                (set_trace (fun t => t ++ [import_event input_dir src_run_id]) w)) as Hs.
  unfold import_event in *. rewrite H in Hs. cbn [snd] in Hs. unfold same_view in Hs.
  rewrite Hs. now rewrite view_event.
Qed.

Lemma import_runs_spec l : forall m1 m2 w m1' m2' w',
  import_runs env self name input_dir nb l m1 m2 w = (Ok (m1', m2'), w') ->
  imports w' = imports w ++ map (import_event input_dir) l /\
  (forall id, In id (Dict.keys m2') <-> In id (Dict.keys m2) \/ In id l) /\
  (List.NoDup (Dict.keys m2) -> List.NoDup (Dict.keys m2')) /\
  (List.NoDup l -> (forall id, In id l -> ~ In id (Dict.keys m2)) ->
   Dict.len m2' = Dict.len m2 + length l).
Proof.
  induction l as [|id l IH]; intros m1 m2 w m1' m2' w' H.
  - cbn in H. injection H as <- <- <-. cbn. rewrite app_nil_r.
    split; [reflexivity|]. split; [tauto|]. split; [auto|]. intros; lia.
  - cbn [import_runs] in H.
    apply bind_inv in H as [([dst_run parent] & wa & Hr & H)|(e & _ & [=])].
    apply import_run_imports in Hr.
    apply IH in H as (Hi & Hk & Hn & Hl).
    split; [|split; [|split]].
    + rewrite Hi, Hr. cbn. now rewrite <- app_assoc.
    + intros x. rewrite Hk, in_keys_set. cbn. intuition.
    + intros Hnd. apply Hn. now apply nodup_keys_set.
    + intros Hnd Hdis. inversion Hnd as [|? ? Hnotin Hnd']; subst.
      rewrite Hl; [| assumption |].
      * rewrite len_set_notin by (apply Hdis; now left). cbn. lia.
      * intros x Hx. rewrite in_keys_set. intros [Hin| ->]; [|contradiction].
        apply (Hdis x); [now right|assumption].
Qed.

Lemma imports_nested_tags m : steady same_imports (nested_tags m).
Proof.
  unfold nested_tags, link_parent. steady_go; auto using view_set_tag.
Qed.

End Experiment.

(** The scenario of the specification: the manifest lists r2 then r1; r1 is
    imported first and the mapping has two entries. *)
Example import_experiment_r2_r1 :
  man_runs Sample.manifest = ["r2"; "r1"] /\
  imports (snd (import_experiment Sample.quiet_env (mkExperimentImporter false false)
                  "/Shared/exp" "s3://bucket/exp" None None Sample.exported_run))
  = [EvImportRun "s3://bucket/exp/r1"; EvImportRun "s3://bucket/exp/r2"] /\
  fst (import_experiment Sample.quiet_env (mkExperimentImporter false false)
         "/Shared/exp" "s3://bucket/exp" None None Sample.exported_run)
  = Ok [("r1", mkRunInfo "run-1" "0" "importer" FINISHED ACTIVE);
        ("r2", mkRunInfo "run-2" "0" "importer" FINISHED ACTIVE)].
Proof. repeat split. Qed.

(** ** The linking pass *)
Section Linking.

Lemma set_tag_ok rid key value w r :
  w_runs w !! rid = Some r ->
  exists w', set_tag rid key value w = (Ok tt, w') /\
             w_runs w' = <[rid := with_tags (fun t => <[key := value]> t) r]> (w_runs w).
Proof.
  intros Hr. unfold set_tag, update_run, lookup_run, emit, bind, gets, modify, ret.
  rewrite Hr. cbn. eexists. split; reflexivity.
Qed.

Lemma link_parent_ok m v w :
  is_Some (w_runs w !! dst_run_id v) ->
  exists w', link_parent m v w = (Ok tt, w') /\
    tag_of w' (dst_run_id v) MLFLOW_PARENT_RUN_ID
    = match linked_parent m v with
      | Some d => Some d
      | None => tag_of w (dst_run_id v) MLFLOW_PARENT_RUN_ID
      end /\
    (forall rid, rid <> dst_run_id v -> w_runs w' !! rid = w_runs w !! rid) /\
    (forall rid, is_Some (w_runs w !! rid) -> is_Some (w_runs w' !! rid)).
Proof.
  intros [r Hr]. unfold link_parent, linked_parent.
  destruct (src_parent_run_id v) as [p|]; cbn.
  - destruct (Dict.get p m) as [pv|]; cbn.
    + destruct (set_tag_ok _ MLFLOW_PARENT_RUN_ID (dst_run_id pv) _ _ Hr) as (w' & H & Hw).
      exists w'. split; [exact H|]. split; [|split].
      * unfold tag_of. rewrite Hw, lookup_insert_eq. cbn. apply lookup_insert_eq.
      * intros rid Hne. rewrite Hw. now rewrite lookup_insert_ne by congruence.
      * intros rid Hs. rewrite Hw. destruct (decide (rid = dst_run_id v)) as [->|Hne].
        -- rewrite lookup_insert_eq. eauto.
        -- now rewrite lookup_insert_ne by congruence.
    + exists w. repeat split; auto.
  - exists w. repeat split; auto.
Qed.

Lemma link_each m l : forall w,
  List.NoDup (dst_ids l) ->
  (forall kv, In kv l -> is_Some (w_runs w !! dst_run_id (snd kv))) ->
  exists w',
    for_each l (fun kv => link_parent m (snd kv)) w = (Ok tt, w') /\
    (forall kv, In kv l ->
       tag_of w' (dst_run_id (snd kv)) MLFLOW_PARENT_RUN_ID
       = match linked_parent m (snd kv) with
         | Some d => Some d
         | None => tag_of w (dst_run_id (snd kv)) MLFLOW_PARENT_RUN_ID
         end) /\
    (forall rid, ~ In rid (dst_ids l) -> w_runs w' !! rid = w_runs w !! rid).
Proof.
  induction l as [|kv l IH]; intros w Hnd Hex.
  - exists w. split; [reflexivity|]. split; [intros ? []|reflexivity].
  - cbn in Hnd. inversion Hnd as [|? ? Hnotin Hnd']; subst.
    destruct (link_parent_ok m (snd kv) w (Hex kv (or_introl eq_refl)))
      as (w1 & H1 & Htag & Hother & Hkeep).
    destruct (IH w1 Hnd') as (w' & Hl & Hin & Hout).
    { intros kv' Hkv'. apply Hkeep, Hex. now right. }
    exists w'. split; [|split].
    + cbn [for_each]. now rewrite (bind_ok _ _ _ _ _ H1).
    + intros kv' [<-|Hkv'].
      * unfold tag_of at 1. rewrite (Hout _ Hnotin). exact Htag.
      * rewrite (Hin kv' Hkv'). destruct (linked_parent m (snd kv')); [reflexivity|].
        unfold tag_of. rewrite Hother; [reflexivity|].
        intros Heq. apply Hnotin. rewrite <- Heq. unfold dst_ids.
        apply (in_map (fun kv => dst_run_id (snd kv))), Hkv'.
    + intros rid Hrid. rewrite Hout by (intros ?; apply Hrid; now right).
      apply Hother. intros ->. apply Hrid. now left.
Qed.

(** C6: the linking pass over an ID mapping whose destination runs exist
    and are distinct raises nothing; afterwards the parent tag of every
    destination run whose source parent is in the mapping holds the
    destination id of that parent, and the parent tag of every other run is
    what it was before the pass. *)
Theorem nested_tags_links m w :
  List.NoDup (dst_ids m) ->
  (forall src v, In (src, v) m -> is_Some (w_runs w !! dst_run_id v)) ->
  exists w',
    nested_tags m w = (Ok tt, w') /\
    forall src v, In (src, v) m ->
      tag_of w' (dst_run_id v) MLFLOW_PARENT_RUN_ID
      = match linked_parent m v with
        | Some dst_parent => Some dst_parent
        | None => tag_of w (dst_run_id v) MLFLOW_PARENT_RUN_ID
        end.
Proof.
  intros Hnd Hex. destruct (link_each m m w Hnd) as (w' & H & Hin & _).
  { intros [src v] Hkv. eapply Hex; eauto. }
  exists w'. split; [exact H|]. intros src v Hkv. exact (Hin (src, v) Hkv).
Qed.

End Linking.

Lemma nested_tags_links_witness :
  exists w',
    nested_tags Sample.linking_map Sample.linking_world = (Ok tt, w') /\
    forall src v, In (src, v) Sample.linking_map ->
      tag_of w' (dst_run_id v) MLFLOW_PARENT_RUN_ID
      = match linked_parent Sample.linking_map v with
        | Some dst_parent => Some dst_parent
        | None => tag_of Sample.linking_world (dst_run_id v) MLFLOW_PARENT_RUN_ID
        end.
Proof.
  apply (nested_tags_links Sample.linking_map Sample.linking_world).
  - repeat constructor; cbn; intuition discriminate.
  - intros src v H. cbn in H.
    destruct H as [[= <- <-]|[[= <- <-]|[[= <- <-]|[]]]]; vm_compute; eauto.
Defined.

(** On that mapping: the tag of run-2 now names run-1, the tag of run-3
    still names the source run r0, and run-1 has no parent tag. *)
Example nested_tags_sample :
  let w' := snd (nested_tags Sample.linking_map Sample.linking_world) in
  tag_of w' "run-1" MLFLOW_PARENT_RUN_ID = None /\
  tag_of w' "run-2" MLFLOW_PARENT_RUN_ID = Some "run-1" /\
  tag_of w' "run-3" MLFLOW_PARENT_RUN_ID = Some "r0".
Proof. repeat split. Qed.

(** * Further properties *)

(** ** The object store under staging and reading *)
Section StoreFacts.

Variable env : Env.

Lemma startswith_app (a b : string) : PyStr.startswith a (a +:+ b) = true.
Proof.
  induction a as [|c a IH]; [reflexivity|].
  change (String c a +:+ b) with (String c (a +:+ b)).
  cbn. now rewrite Ascii.eqb_refl.
Qed.

Lemma append_assoc (a b c : string) : (a +:+ b) +:+ c = a +:+ b +:+ c.
Proof.
  induction a as [|x a IH]; [reflexivity|].
  change ((String x a +:+ b) +:+ c) with (String x ((a +:+ b) +:+ c)).
  change (String x a +:+ b +:+ c) with (String x (a +:+ b +:+ c)).
  now rewrite IH.
Qed.

Lemma copies_under src dst rec keys key :
  In key (copies src dst rec keys) -> under dst key = true.
Proof.
  unfold copies. induction keys as [|k keys IH]; cbn; [tauto|].
  destruct (String.eqb k src).
  - intros [<-|H]; [|auto]. unfold under. now rewrite String.eqb_refl.
  - destruct rec; [|auto].
    destruct (PyStr.strip_prefix (src +:+ "/") k) as [rest|]; cbn; [|auto].
    intros [<-|H]; [|auto]. unfold under.
    rewrite <- append_assoc, startswith_app. apply orb_true_r.
Qed.

Lemma filter_none {A} (f : A -> bool) l :
  (forall x, In x l -> f x = false) -> List.filter f l = [].
Proof.
  induction l as [|x l IH]; intros H; [reflexivity|].
  cbn. rewrite (H x (or_introl eq_refl)). apply IH. intros; apply H; now right.
Qed.

Lemma filter_all {A} (f : A -> bool) l :
  List.filter (fun x => negb (f x)) l = l <-> List.filter f l = [].
Proof.
  induction l as [|x l IH]; cbn; [tauto|].
  destruct (f x) eqn:E; cbn.
  - split; [|discriminate]. intros H.
    assert (Hl : length (List.filter (fun x => negb (f x)) l) <= length l)
      by apply List.filter_length_le.
    rewrite H in Hl. cbn in Hl. lia.
  - rewrite <- IH. split; [now intros [= ->]|now intros ->].
Qed.

(** Copying under [dst] and then removing what lies under [dst] gives the
    keys back, when none of them lay under [dst]. *)
Lemma cp_then_rm (dst : string) (keys extra : list string) :
  List.filter (under dst) keys = [] ->
  (forall key, In key extra -> under dst key = true) ->
  List.filter (fun key => negb (under dst key)) (keys ++ extra) = keys.
Proof.
  intros Hk He. rewrite List.filter_app.
  rewrite (proj2 (filter_all (under dst) keys) Hk).
  rewrite filter_none; [apply app_nil_r|].
  intros x Hx. now rewrite (He x Hx).
Qed.

(** X4: Staging and leaving the scope normally gives the object store back:
    when no object lay under the temporary location and the body leaves the
    store alone, the store after the [with] statement is the store before
    it. *)
Theorem move_artifacts_restores_store {A} (path : string) (body : string -> M A) w a w' :
  PyStr.startswith "s3:/" path = true ->
  staged w path = [] ->
  (forall y w0, w_dbfs (snd (body y w0)) = w_dbfs w0) ->
  with_ (move_artifacts env path) body w = (Ok a, w') ->
  w_dbfs w' = w_dbfs w.
Proof.
  intros Hs Hst Hbody. unfold with_, move_artifacts. rewrite Hs.
  cbn [before_yield after_yield].
  unfold bind at 1. unfold dbutils_fs_ls at 1. unfold bind at 1. unfold call at 1.
  destruct (fails env (StLs _)); [discriminate|]. cbn [gets].
  destruct (Nat.leb _ 1); [discriminate|].
  unfold bind at 1. unfold dbutils_fs_cp, bind, call, modify.
  destruct (fails env (StCp _ _)); [discriminate|]. cbn [ret].
  match goal with |- context [body ?y ?w1] =>
    specialize (Hbody y w1); destruct (body y w1) as [[b|e] w2] end; [|discriminate].
  cbn [snd] in Hbody. unfold dbutils_fs_rm, bind, call, modify.
  destruct (fails env (StRm _)); [discriminate|].
  intros [= <- <-]. cbn. rewrite Hbody. cbn.
  apply cp_then_rm; [exact Hst|]. intros key. apply copies_under.
Qed.

(** X5: A path that starts with [s3:/] but holds no [s3://] is its own
    temporary location: leaving the scope normally removes the objects of
    the path itself. *)
Theorem move_artifacts_single_slash {A} (path : string) (body : string -> M A) w a w' :
  PyStr.startswith "s3:/" path = true ->
  PyStr.contains "s3://" path = false ->
  with_ (move_artifacts env path) body w = (Ok a, w') ->
  tmp_dst_path path = path /\ objects_under w' path = [].
Proof.
  intros Hs Hc H.
  assert (Ht : tmp_dst_path path = path) by (apply replace_absent, Hc).
  split; [exact Ht|].
  assert (Hn : staged w' path = []).
  { revert H. unfold with_, move_artifacts. rewrite Hs. cbn [before_yield after_yield].
    destruct (bind _ _ w) as [[y|e] w1]; [|discriminate].
    destruct (body y w1) as [[b|e] w2]; [|discriminate].
    unfold dbutils_fs_rm, bind, call, modify.
    destruct (fails env _); [discriminate|].
    intros [= <- <-]. unfold staged. cbn. apply filter_under_removed. }
  unfold staged in Hn. now rewrite Ht in Hn.
Qed.

(** X6: Reading an s3 path goes through a temporary copy; when the read returns,
    its value is the content of that copy and the object store is as it was
    (the temporary key was not in use). *)
Theorem DatabricksFileSystem_read_s3 (path : string) w c w' :
  PyStr.startswith "s3:/" path = true ->
  ~ In (mk_dbfs_path (tmp_dst_path path)) (w_dbfs w) ->
  DatabricksFileSystem_read env path w = (Ok c, w') ->
  c = local_read env (mk_local_path (tmp_dst_path path)) /\ w_dbfs w' = w_dbfs w.
Proof.
  intros Hs Hnot. unfold DatabricksFileSystem_read. rewrite Hs.
  unfold dbutils_fs_cp, dbutils_fs_rm, open_read, bind, call, modify, ret.
  destruct (fails env (StCp _ _)); [discriminate|].
  destruct (fails env (StReadFile _)); [discriminate|].
  destruct (fails env (StRm _)); [discriminate|].
  intros [= <- <-]. split; [reflexivity|]. cbn.
  set (tmp := mk_dbfs_path (tmp_dst_path path)) in *.
  rewrite List.filter_app.
  rewrite (proj2 (filter_all (fun key => String.eqb key tmp) (w_dbfs w))).
  - rewrite filter_none; [apply app_nil_r|].
    intros x Hx. unfold copies in Hx.
    induction (w_dbfs w) as [|k l IH]; cbn in Hx; [destruct Hx|].
    destruct (String.eqb k (mk_dbfs_path path)).
    + destruct Hx as [<-|Hx].
      * now rewrite String.eqb_refl.
      * apply IH; [|exact Hx]. intros Hin. apply Hnot. now right.
    + apply IH; [|exact Hx]. intros Hin. apply Hnot. now right.
  - apply filter_none. intros x Hx. apply String.eqb_neq. intros ->. contradiction.
Qed.

(** The read of any other path does not touch the object store. *)
Lemma DatabricksFileSystem_read_plain (path : string) w :
  PyStr.startswith "s3:/" path = false ->
  snd (DatabricksFileSystem_read env path w) = w.
Proof.
  intros Hs. unfold DatabricksFileSystem_read, open_read, bind, call. rewrite Hs.
  now destruct (fails env _).
Qed.

Lemma listing_nil dir keys :
  List.filter (under dir) keys = [] -> listing dir keys = [].
Proof.
  intros H. unfold listing.
  assert (Ho : omap (child_name dir) keys = []).
  { induction keys as [|k keys IH]; [reflexivity|].
    cbn in H. destruct (under dir k) eqn:E; [discriminate|].
    cbn. unfold child_name, under in *. apply orb_false_iff in E as [E1 E2].
    rewrite E1.
    assert (Hsp : PyStr.strip_prefix (dir +:+ "/") k = None).
    { clear -E2. revert k E2. induction (dir +:+ "/") as [|c p IHp]; intros k E2.
      - discriminate.
      - destruct k as [|c' k]; [reflexivity|]. cbn in *.
        rewrite Ascii.eqb_sym in E2.
        destruct (Ascii.eqb c' c) eqn:Ec; cbn in E2.
        + rewrite Ascii.eqb_sym, Ec. auto.
        + now rewrite Ascii.eqb_sym, Ec. }
    rewrite Hsp. cbn. auto. }
  now rewrite Ho.
Qed.

(** After a recursive [rm] that returned, [exists] of the same path answers
    no. *)
Theorem DatabricksFileSystem_rm_exists (path : string) w w1 :
  DatabricksFileSystem_rm env path true w = (Ok tt, w1) ->
  fails env (StLs (mk_dbfs_path path)) = None ->
  DatabricksFileSystem_exists env path w1 = (Ok false, w1).
Proof.
  unfold DatabricksFileSystem_rm, DatabricksFileSystem_exists, DatabricksFileSystem_ls,
    dbutils_fs_rm, dbutils_fs_ls, bind, call, modify, gets, ret.
  destruct (fails env (StRm _)); [discriminate|]. intros [= <-] ->. cbn -[listing].
  now rewrite listing_nil by apply filter_under_removed.
Qed.

End StoreFacts.

Section ReadFailure.
Variable env : Env.

(** X7: The temporary copy that [read] makes of an s3 object is removed after
    the read only: when the copy is made and opening it fails, [read]
    raises that error and the copy stays on the store. *)
Theorem DatabricksFileSystem_read_leaves_copy (path : string) w f :
  PyStr.startswith "s3:/" path = true ->
  In (mk_dbfs_path path) (w_dbfs w) ->
  fails env (StCp (mk_dbfs_path path) (mk_dbfs_path (tmp_dst_path path))) = None ->
  fails env (StReadFile (mk_local_path (tmp_dst_path path))) = Some f ->
  exists w',
    DatabricksFileSystem_read env path w = (Raise (exn_of_fault f), w') /\
    In (mk_dbfs_path (tmp_dst_path path)) (w_dbfs w').
Proof.
  intros Hs Hin Hcp Hread. unfold DatabricksFileSystem_read. rewrite Hs.
  unfold dbutils_fs_cp, open_read, bind, call, modify, ret. rewrite Hcp, Hread.
  eexists. split; [reflexivity|]. cbn. apply in_or_app. right.
  unfold copies. induction (w_dbfs w) as [|k l IH]; [destruct Hin|].
  cbn. destruct (String.eqb_spec k (mk_dbfs_path path)) as [->|Hne].
  - now left.
  - destruct Hin as [->|Hin]; [contradiction|]. auto.
Qed.

End ReadFailure.

(** ** The guard of the staging scope on the layout of an exported run *)
Section ExportedLayout.

Lemma startswith_length p s :
  PyStr.startswith p s = true -> String.length p <= String.length s.
Proof.
  revert s. induction p as [|a p IH]; intros s H; cbn; [lia|].
  destruct s as [|b s]; [discriminate|]. cbn in H.
  apply andb_true_iff in H as [_ H]. apply IH in H. cbn. lia.
Qed.

Lemma length_append (a b : string) :
  String.length (a +:+ b) = String.length a + String.length b.
Proof.
  induction a as [|c a IH]; [reflexivity|].
  change (String c a +:+ b) with (String c (a +:+ b)). cbn. now rewrite IH.
Qed.

Lemma strip_prefix_app (a b : string) : PyStr.strip_prefix a (a +:+ b) = Some b.
Proof.
  induction a as [|c a IH]; [reflexivity|].
  change (String c a +:+ b) with (String c (a +:+ b)).
  cbn. now rewrite Ascii.eqb_refl.
Qed.

Lemma strip_prefix_inv (a s r : string) : PyStr.strip_prefix a s = Some r -> s = a +:+ r.
Proof.
  revert s. induction a as [|c a IH]; intros s H.
  - now injection H as <-.
  - destruct s as [|c' s]; [discriminate|]. cbn in H.
    destruct (Ascii.eqb_spec c c') as [->|]; [|discriminate].
    apply IH in H. now subst s.
Qed.

Lemma startswith_inv (a s : string) :
  PyStr.startswith a s = true -> exists r, s = a +:+ r.
Proof.
  revert s. induction a as [|c a IH]; intros s H; [now exists s|].
  destruct s as [|c' s]; [discriminate|]. cbn in H.
  apply andb_true_iff in H as [Hc H]. apply Ascii.eqb_eq in Hc as ->.
  apply IH in H as [r ->]. now exists r.
Qed.

Lemma first_segment_app (a r : string) :
  PyStr.first_segment a = a -> PyStr.first_segment (a +:+ "/" +:+ r) = a.
Proof.
  induction a as [|c a IH]; intros H; [reflexivity|].
  change (String c a +:+ "/" +:+ r) with (String c (a +:+ "/" +:+ r)).
  cbn in *. destruct (Ascii.eqb c "/"); [discriminate|].
  injection H as H. now rewrite IH.
Qed.

(** The entry of the listing of [d] that a key below [d/name] gives. *)
Lemma child_name_below d name key :
  PyStr.first_segment name = name -> name <> "" ->
  under (d +:+ "/" +:+ name) key = true ->
  child_name d key = Some name.
Proof.
  intros Hseg Hne Hu. unfold under in Hu. unfold child_name.
  assert (Hd : String.eqb key d = false).
  { apply String.eqb_neq. intros ->. apply orb_true_iff in Hu as [Hu|Hu].
    - apply String.eqb_eq in Hu. apply (f_equal String.length) in Hu.
      rewrite !length_append in Hu. cbn in Hu. lia.
    - apply startswith_length in Hu. rewrite !length_append in Hu. cbn in Hu. lia. }
  rewrite Hd. apply orb_true_iff in Hu as [Hu|Hu].
  - apply String.eqb_eq in Hu as ->. rewrite <- append_assoc, strip_prefix_app. cbn.
    now rewrite Hseg.
  - apply startswith_inv in Hu as [r ->].
    rewrite <- (append_assoc d "/" name), (append_assoc (d +:+ "/") name "/"),
      (append_assoc (d +:+ "/") (name +:+ "/") r), strip_prefix_app. cbn.
    now rewrite append_assoc, first_segment_app.
Qed.

Lemma child_name_under d key x : child_name d key = Some x -> under d key = true.
Proof.
  unfold child_name, under. destruct (String.eqb key d); [reflexivity|]. cbn.
  destruct (PyStr.strip_prefix (d +:+ "/") key) as [r|] eqn:E; [|discriminate].
  intros _. apply strip_prefix_inv in E as ->. apply startswith_app.
Qed.

Lemma listing_exported_layout d keys :
  exported_layout d keys ->
  (length (listing d keys) <= 1 <-> List.filter (under (d +:+ "/artifacts")) keys = []).
Proof.
  intros [Hrun Hlay]. unfold listing.
  assert (Hj : child_name d (d +:+ "/run.json") = Some "run.json").
  { apply (child_name_below d "run.json"); [reflexivity|discriminate|].
    unfold under. now rewrite String.eqb_refl. }
  assert (Hin : "run.json" ∈ remove_dups (omap (child_name d) keys)).
  { apply elem_of_remove_dups, list_elem_of_omap. exists (d +:+ "/run.json").
    split; [now apply list_elem_of_In|exact Hj]. }
  assert (Hnd := NoDup_remove_dups (omap (child_name d) keys)).
  split.
  - intros Hlen. apply filter_none. intros key Hk.
    destruct (under (d +:+ "/artifacts") key) eqn:Hu; [exfalso|reflexivity].
    assert (Ha : "artifacts" ∈ remove_dups (omap (child_name d) keys)).
    { apply elem_of_remove_dups, list_elem_of_omap. exists key.
      split; [now apply list_elem_of_In|].
      apply (child_name_below d "artifacts"); [reflexivity|discriminate|exact Hu]. }
    destruct (remove_dups (omap (child_name d) keys)) as [|x [|y l]]; cbn in Hlen; [|  |lia].
    + now apply elem_of_nil in Hin.
    + apply list_elem_of_singleton in Hin, Ha. congruence.
  - intros Hf.
    assert (Hall : forall x, x ∈ remove_dups (omap (child_name d) keys) -> x = "run.json").
    { intros x Hx. apply elem_of_remove_dups, list_elem_of_omap in Hx as (key & Hk & Hc).
      apply list_elem_of_In in Hk.
      destruct (Hlay key Hk (child_name_under _ _ _ Hc)) as [->|Hu].
      - rewrite Hj in Hc. now injection Hc as <-.
      - assert (Hin' : In key (List.filter (under (d +:+ "/artifacts")) keys))
          by (apply List.filter_In; auto).
        rewrite Hf in Hin'. destruct Hin'. }
    destruct (remove_dups (omap (child_name d) keys)) as [|x [|y l]]; cbn; [lia|lia|].
    exfalso. apply NoDup_cons in Hnd as [Hx _]. apply Hx.
    assert (x = "run.json") as -> by (apply Hall; constructor).
    assert (y = "run.json") as -> by (apply Hall; do 2 constructor).
    constructor.
Qed.

(** On the layout of an exported run, for an s3 path that holds no other
    [/artifacts] and no [/dbfs], the guard of [move_artifacts] is the test
    the name of its exception announces: staging raises the empty-path
    error exactly when the artifact path holds no object. *)
Lemma move_artifacts_exported_run (env : Env) (d : string) (w : World) :
  PyStr.startswith "s3:/" (d +:+ "/artifacts") = true ->
  run_dir (d +:+ "/artifacts") = d ->
  mk_dbfs_path (d +:+ "/artifacts") = d +:+ "/artifacts" ->
  fails env (StLs d) = None ->
  exported_layout d (w_dbfs w) ->
  (fst (before_yield (move_artifacts env (d +:+ "/artifacts")) w)
     = Raise EmptyExperimentPathException
   <-> objects_under w (d +:+ "/artifacts") = []).
Proof.
  intros Hs Hd Hp Hf Hl.
  destruct (move_artifacts_empty_path env (d +:+ "/artifacts") w) as [He _].
  rewrite He, Hd. unfold objects_under. rewrite Hp.
  rewrite <- (listing_exported_layout d (w_dbfs w) Hl). tauto.
Qed.

End ExportedLayout.

Lemma move_artifacts_exported_run_witness :
  (fst (before_yield (move_artifacts Sample.quiet_env ("s3://bucket/exp/r1" +:+ "/artifacts"))
          Sample.bare_export) = Raise EmptyExperimentPathException
   <-> objects_under Sample.bare_export ("s3://bucket/exp/r1" +:+ "/artifacts") = []) /\
  (fst (before_yield (move_artifacts Sample.quiet_env ("s3://bucket/exp/r1" +:+ "/artifacts"))
          Sample.exported_run) = Raise EmptyExperimentPathException
   <-> objects_under Sample.exported_run ("s3://bucket/exp/r1" +:+ "/artifacts") = []).
Proof.
  split; apply (move_artifacts_exported_run Sample.quiet_env "s3://bucket/exp/r1");
    try reflexivity.
  - split; [now left|]. intros key [<-|[]] _. now left.
  - split; [now left|]. intros key [<-|[<-|[]]] _; [now left|now right].
Defined.

Lemma move_artifacts_normal_exit_witness :
  staged (snd (with_ (move_artifacts Sample.quiet_env "s3://bucket/exp/r1/artifacts")
                 (fun path_name => ret path_name) Sample.exported_run))
    "s3://bucket/exp/r1/artifacts" = [].
Proof.
  apply (move_artifacts_normal_exit Sample.quiet_env "s3://bucket/exp/r1/artifacts"
           (fun path_name => ret path_name) Sample.exported_run
           "/dbfs/temp/bucket/exp/r1/artifacts").
  - reflexivity.
  - vm_compute. reflexivity.
Defined.

Lemma move_artifacts_restores_store_witness :
  w_dbfs (snd (with_ (move_artifacts Sample.quiet_env "s3://bucket/exp/r1/artifacts")
                 (fun path_name => ret path_name) Sample.exported_run))
  = w_dbfs Sample.exported_run.
Proof.
  apply (move_artifacts_restores_store Sample.quiet_env "s3://bucket/exp/r1/artifacts"
           (fun path_name => ret path_name) Sample.exported_run
           "/dbfs/temp/bucket/exp/r1/artifacts").
  - reflexivity.
  - reflexivity.
  - intros y w0. reflexivity.
  - vm_compute. reflexivity.
Defined.

Lemma move_artifacts_single_slash_witness :
  tmp_dst_path "s3:/bucket/r1/artifacts" = "s3:/bucket/r1/artifacts" /\
  objects_under
    (snd (with_ (move_artifacts Sample.quiet_env "s3:/bucket/r1/artifacts")
            (fun path_name => ret path_name) Sample.single_slash_export))
    "s3:/bucket/r1/artifacts" = [].
Proof.
  apply (move_artifacts_single_slash Sample.quiet_env "s3:/bucket/r1/artifacts"
           (fun path_name => ret path_name) Sample.single_slash_export
           "s3:/bucket/r1/artifacts").
  - reflexivity.
  - reflexivity.
  - vm_compute. reflexivity.
Defined.

(** Before the scope the path of that export held an object. *)
Example single_slash_export_objects :
  objects_under Sample.single_slash_export "s3:/bucket/r1/artifacts"
  = ["s3:/bucket/r1/artifacts/model/MLmodel"].
Proof. reflexivity. Qed.

Lemma DatabricksFileSystem_read_s3_witness :
  "" = local_read Sample.quiet_env (mk_local_path (tmp_dst_path "s3://bucket/exp/r1/run.json")) /\
  w_dbfs (snd (DatabricksFileSystem_read Sample.quiet_env "s3://bucket/exp/r1/run.json"
                 Sample.exported_run))
  = w_dbfs Sample.exported_run.
Proof.
  apply (DatabricksFileSystem_read_s3 Sample.quiet_env "s3://bucket/exp/r1/run.json"
           Sample.exported_run).
  - reflexivity.
  - cbn. intuition discriminate.
  - vm_compute. reflexivity.
Defined.

Lemma DatabricksFileSystem_rm_exists_witness :
  DatabricksFileSystem_exists Sample.quiet_env "s3://bucket/exp/r1"
    (snd (DatabricksFileSystem_rm Sample.quiet_env "s3://bucket/exp/r1" true
            Sample.exported_run))
  = (Ok false,
     snd (DatabricksFileSystem_rm Sample.quiet_env "s3://bucket/exp/r1" true
            Sample.exported_run)).
Proof.
  apply (DatabricksFileSystem_rm_exists Sample.quiet_env "s3://bucket/exp/r1"
           Sample.exported_run).
  - reflexivity.
  - reflexivity.
Defined.

Lemma mk_path_round_trip_witness :
  mk_dbfs_path ("/dbfs" +:+ "/mnt/exp/run1") = "dbfs:" +:+ "/mnt/exp/run1" /\
  mk_local_path ("dbfs:" +:+ "/mnt/exp/run1") = "/dbfs" +:+ "/mnt/exp/run1" /\
  mk_local_path (mk_dbfs_path ("/dbfs" +:+ "/mnt/exp/run1")) = "/dbfs" +:+ "/mnt/exp/run1" /\
  mk_dbfs_path (mk_local_path ("dbfs:" +:+ "/mnt/exp/run1")) = "dbfs:" +:+ "/mnt/exp/run1".
Proof. apply (mk_path_round_trip "/mnt/exp/run1"); reflexivity. Defined.

Section FileSystemChoice.

(** A pattern without the characters [/] and [d] starts the local form of a
    path exactly when it starts the path. *)
Lemma startswith_mk_local_path (q : string) :
  forallb (fun c => negb (Ascii.eqb c "/") && negb (Ascii.eqb c "d")) (list_ascii_of_string q)
  = true ->
  forall p, PyStr.startswith q (mk_local_path p) = PyStr.startswith q p.
Proof.
  induction q as [|a q IH]; intros Hq p; [reflexivity|].
  cbn [forallb list_ascii_of_string] in Hq. apply andb_true_iff in Hq as [Ha Hq].
  apply andb_true_iff in Ha as [Ha1 Ha2].
  apply negb_true_iff in Ha1, Ha2.
  destruct p as [|c p]; [reflexivity|].
  unfold mk_local_path, PyStr.replace. cbn [PyStr.replace_from].
  destruct (PyStr.startswith "dbfs:" (String c p)) eqn:E.
  - cbn [PyStr.startswith] in E. apply andb_true_iff in E as [E _].
    apply Ascii.eqb_eq in E. subst c.
    change ("/dbfs" +:+ ?x) with (String "/" ("dbfs" +:+ x)).
    cbn [PyStr.startswith]. now rewrite Ha1, Ha2.
  - cbn [PyStr.startswith]. f_equal. apply (IH Hq).
Qed.

Lemma mk_local_path_not_dbfs (p : string) :
  PyStr.startswith "dbfs:" (mk_local_path p) = false.
Proof.
  destruct p as [|c p]; [reflexivity|].
  unfold mk_local_path, PyStr.replace. cbn [PyStr.replace_from].
  destruct (PyStr.startswith "dbfs:" (String c p)) eqn:E.
  - reflexivity.
  - change (PyStr.replace_from 0 "dbfs:" "/dbfs" p) with (mk_local_path p).
    transitivity (PyStr.startswith "dbfs:" (String c p)); [|exact E].
    cbn [PyStr.startswith]. f_equal.
    apply (startswith_mk_local_path "bfs:" eq_refl).
Qed.

(** X8: [io_utils.write_file] and [write_export_file] choose the file system of
    the local form of the path: that is [DatabricksFileSystem] for the
    paths that start with [s3:] and [LocalFileSystem] for every other path,
    those that start with [dbfs:] included. *)
Theorem get_filesystem_mk_local_path (p : string) :
  get_filesystem (mk_local_path p)
  = if PyStr.startswith "s3:" p then DatabricksFileSystem else LocalFileSystem.
Proof.
  unfold get_filesystem.
  now rewrite mk_local_path_not_dbfs, (startswith_mk_local_path "s3:" eq_refl).
Qed.

End FileSystemChoice.

(** ** What the import of a run leaves alone *)

Global Instance same_dbfs_preorder : PreOrder same_dbfs.
Proof. split; [intros w; reflexivity | intros a b c; unfold same_dbfs; congruence]. Qed.

Global Instance same_artifacts_preorder : PreOrder same_artifacts.
Proof. split; [intros w; reflexivity | intros a b c; unfold same_artifacts; congruence]. Qed.

Global Instance same_lifecycle_preorder rid : PreOrder (same_lifecycle rid).
Proof. split; [intros w; reflexivity | intros a b c; unfold same_lifecycle; congruence]. Qed.

Global Instance same_lifecycle_blind rid : Blind (same_lifecycle rid).
Proof. split; intros; reflexivity. Qed.

Global Instance owns_preorder rid : PreOrder (owns rid).
Proof.
  split.
  - intros w Hk. split; [exact Hk|reflexivity].
  - intros a b c Hab Hbc Hk. destruct (Hab Hk) as [Hkb Hob].
    destruct (Hbc Hkb) as [Hkc Hoc]. split; [exact Hkc|].
    intros rid' Hne. now rewrite Hoc, Hob.
Qed.

Global Instance owns_blind rid : Blind (owns rid).
Proof. split; intros; intros Hk; (split; [exact Hk|reflexivity]). Qed.

Global Instance is_create_unobserved : Unobserved is_create.
Proof. intros []; cbn; congruence. Qed.

Global Instance is_end_of_run_unobserved rid : Unobserved (is_end_of_run rid).
Proof. intros []; cbn; congruence. Qed.

Global Instance is_link_unobserved : Unobserved is_link.
Proof. intros []; cbn; congruence. Qed.

(** The handlers of a [try]: one goal for each exception a clause catches. *)
Ltac steady_try :=
  lazymatch goal with
  | |- steady _ (try_except _ _) =>
      apply steady_try_except;
      [typeclasses eauto| |
       let ex := fresh "ex" in let k := fresh "k" in let Hk := fresh "Hk" in
       intros ex k Hk; destruct ex; first [discriminate Hk | injection Hk as <-]]
  end.

(** Unfolds the import of a run down to the monad, for relations that
    neither the backend runs nor the trace can break. *)
Ltac steady_open :=
  repeat first
    [ steady_step; try typeclasses eauto
    | steady_try
    | apply steady_modify; intros ?; reflexivity
    | progress unfold _import_run, import_run_prologue, import_run_guarded,
        import_run_epilogue, import_run_steps, import_run_artifacts, import_run_refetch,
        _upload_databricks_notebook, _update_mlmodel_run_id, update_one_mlmodel,
        set_experiment, ensure_workspace_dir, create_workspace_dir, create_experiment,
        get_experiment, get_experiment_by_name, read_file_mlflow, create_run, get_run,
        lookup_run, set_terminated, delete_run, update_run, import_run_data,
        find_artifacts, download_mlmodel, log_artifacts, os_path_exists, emit ].

Section Untouched.
Variables (env : Env) (self : RunImporter) (name input_dir : string) (nb : option string).



End Untouched.

Section Ownership.
Variable env : Env.

Lemma owns_update rid f :
  (forall r, run_id (info (f r)) = run_id (info r)) ->
  steady (owns rid) (update_run rid f).
Proof.
  intros Hf w Hk. unfold update_run, lookup_run, bind, gets, modify, raise, ret.
  destruct (w_runs w !! rid) as [r|] eqn:E; cbn; [|split; [exact Hk|reflexivity]].
  split.
  - intros r'. cbn. rewrite lookup_insert_eq. intros [= <-]. rewrite Hf. now apply Hk.
  - intros rid' Hne. cbn. now rewrite lookup_insert_ne by congruence.
Qed.

Lemma owns_emit rid e : steady (owns rid) (emit e).
Proof. intros w Hk. split; [exact Hk|reflexivity]. Qed.

Lemma owns_import_run_data rid src b u b1 b2 :
  steady (owns rid) (import_run_data env src rid b u b1 b2).
Proof.
  unfold import_run_data. steady_go; auto using owns_emit.
  apply owns_update. intros r. now destruct (b1 && negb b2).
Qed.

Lemma owns_set_terminated rid st : steady (owns rid) (set_terminated env rid st).
Proof. unfold set_terminated. steady_go; auto using owns_emit, owns_update. Qed.

Lemma owns_get_run rid rid' : steady (owns rid) (get_run env rid').
Proof. unfold get_run, lookup_run. steady_go. Qed.

Lemma owns_delete_run rid : steady (owns rid) (delete_run env rid).
Proof. unfold delete_run. steady_go; auto using owns_emit, owns_update. Qed.

Lemma owns_artifacts rid self input_dir :
  steady (owns rid) (import_run_artifacts env self rid input_dir).
Proof.
  unfold import_run_artifacts, log_artifacts.
  steady_go; auto using steady_find_artifacts, steady_before_yield, steady_after_yield,
    steady_update_mlmodel_run_id, steady_os_path_exists, owns_emit with typeclass_instances.
Qed.

(** The run that is fetched again is the run that is deleted. *)
Lemma owns_refetch rid src : steady (owns rid) (import_run_refetch env src rid).
Proof.
  intros w Hk. unfold import_run_refetch.
  destruct (get_run env rid w) as [[r|e] wa] eqn:Hg.
  - assert (Hr : run_id (info r) = rid /\ wa = w).
    { unfold get_run, lookup_run, bind, call, gets, ret, raise in Hg.
      destruct (fails env _); [discriminate|].
      destruct (w_runs w !! rid) as [r'|] eqn:E; [|discriminate].
      injection Hg as <- <-. split; [now apply Hk|reflexivity]. }
    destruct Hr as [Hr ->]. rewrite (bind_ok _ _ _ _ _ Hg), Hr.
    destruct (is_deleted src); [|split; [exact Hk|reflexivity]].
    assert (Hs : steady (owns rid) (delete_run env rid ;; get_run env rid))
      by (steady_go; auto using owns_delete_run, owns_get_run).
    exact (Hs w Hk).
  - rewrite (bind_raise _ _ _ _ _ Hg). cbn.
    pose proof (owns_get_run rid rid w Hk) as H. now rewrite Hg in H.
Qed.

Lemma owns_steps rid self src input_dir :
  steady (owns rid) (import_run_steps env self src rid input_dir).
Proof.
  unfold import_run_steps.
  steady_go; auto using owns_import_run_data, owns_artifacts, owns_set_terminated,
    owns_refetch.
Qed.

Lemma owns_guarded self exp src run0 input_dir :
  steady (owns (run_id (info run0))) (import_run_guarded env self exp src run0 input_dir).
Proof.
  unfold import_run_guarded. steady_try; [apply owns_steps|..];
    steady_go; auto using owns_set_terminated.
Qed.

Lemma create_run_runs exp_id w run w1 :
  create_run env exp_id w = (Ok run, w1) ->
  w_runs w1 = <[run_id (info run) := run]> (w_runs w) /\
  lifecycle_stage (info run) = ACTIVE /\
  w_artifacts w1 = w_artifacts w /\
  forall keep, (forall rid, keep (EvCreateRun rid) = false) -> view keep w1 = view keep w.
Proof.
  unfold create_run, emit, bind, gets, modify, ret. cbn. intros [= <- <-]. cbn.
  split; [reflexivity|]. split; [reflexivity|]. split; [reflexivity|].
  intros keep Hk. unfold view. cbn. rewrite List.filter_app. cbn. rewrite Hk. apply app_nil_r.
Qed.

(** What [import_run_prologue] has done when it returns. *)
Lemma prologue_runs name input_dir w exp src run0 w1 :
  import_run_prologue env name input_dir w = (Ok (exp, src, run0), w1) ->
  w_runs w1 = <[run_id (info run0) := run0]> (w_runs w) /\
  lifecycle_stage (info run0) = ACTIVE /\
  w_artifacts w1 = w_artifacts w /\
  forall keep, Unobserved keep -> (forall rid, keep (EvCreateRun rid) = false) ->
    view keep w1 = view keep w.
Proof.
  unfold import_run_prologue. intros H.
  apply bind_inv in H as [(exp_id & wa & Hs & H)|(e & _ & [=])].
  apply bind_inv in H as [(exp' & wb & Hg & H)|(e & _ & [=])].
  assert (wb = wa) as ->.
  { unfold get_experiment, bind, gets, ret, raise in Hg.
    destruct find_experiment_by_id; now inversion Hg. }
  apply bind_inv in H as [(src' & wc & Hr & H)|(e & _ & [=])].
  assert (wc = wa) as ->.
  { unfold read_file_mlflow, ret, raise in Hr. destruct run_json; now inversion Hr. }
  apply bind_inv in H as [(run & wd & Hc & H)|(e & _ & [=])].
  injection H as <- <- <- <-.
  apply create_run_runs in Hc as (Hruns & Hl & Hart & Hv).
  pose proof (steady_set_experiment env same_runs name None None w) as H1.
  rewrite Hs in H1. cbn in H1. unfold same_runs in H1.
  split; [now rewrite Hruns, H1|]. split; [exact Hl|]. split.
  - assert (Ha : steady same_artifacts (set_experiment env name None None)) by steady_open.
    specialize (Ha w). rewrite Hs in Ha. cbn in Ha. unfold same_artifacts in Ha.
    congruence.
  - intros keep Hu Hk.
    pose proof (steady_set_experiment env (same_view keep) name None None w) as H2.
    rewrite Hs in H2. cbn in H2. unfold same_view in H2. now rewrite Hv.
Qed.

End Ownership.

Section ImportRunFurther.
Variables (env : Env) (self : RunImporter) (name input_dir : string) (nb : option string).

(** X11: A failure before the [try] of [_import_run] (the experiment cannot be
    set, or [run.json] cannot be read) leaves [_import_run] with that very
    exception, and no run has been created. *)
Theorem import_run_early_failure w e w1 :
  import_run_prologue env name input_dir w = (Raise e, w1) ->
  _import_run env self name input_dir nb w = (Raise e, w1) /\
  w_runs w1 = w_runs w /\
  view is_create w1 = view is_create w.
Proof.
  intros H. split; [unfold _import_run; now rewrite (bind_raise _ _ _ _ _ H)|].
  assert (Hq : forall R, PreOrder R -> Blind R -> R w w1).
  { intros R HP HB. unfold import_run_prologue in H.
    apply bind_inv in H as [(exp_id & wa & Hs & H)|(e' & Hs & [= <-])].
    2: { pose proof (steady_set_experiment env R name None None w) as H1.
         now rewrite Hs in H1. }
    pose proof (steady_set_experiment env R name None None w) as H1.
    rewrite Hs in H1. cbn in H1. etransitivity; [exact H1|].
    apply bind_inv in H as [(exp' & wb & Hg & H)|(e' & Hg & [= <-])].
    2: { unfold get_experiment, bind, gets, ret, raise in Hg.
         destruct find_experiment_by_id; inversion Hg; reflexivity. }
    assert (wb = wa) as ->.
    { unfold get_experiment, bind, gets, ret, raise in Hg.
      destruct find_experiment_by_id; now inversion Hg. }
    apply bind_inv in H as [(src' & wc & Hr & H)|(e' & Hr & [= <-])].
    2: { unfold read_file_mlflow, ret, raise in Hr. destruct run_json; inversion Hr; reflexivity. }
    apply bind_inv in H as [(run & wd & Hc & H)|(e' & Hc & _)]; [discriminate H|].
    unfold create_run, emit, bind, gets, modify, ret in Hc. discriminate Hc. }
  split; [exact (Hq same_runs _ _)|exact (Hq (same_view is_create) _ _)].
Qed.

(** X12: [_import_run] writes to one run only, the one it creates: every other
    run of the tracking store is what it was, whatever fails. *)
Theorem import_run_other_runs w exp src run0 w1 rid' :
  import_run_prologue env name input_dir w = (Ok (exp, src, run0), w1) ->
  rid' <> run_id (info run0) ->
  w_runs (snd (_import_run env self name input_dir nb w)) !! rid' = w_runs w !! rid'.
Proof.
  intros Hp Hne. pose proof (prologue_runs _ _ _ _ _ _ _ _ Hp) as (Hruns & _).
  unfold _import_run. rewrite (bind_ok _ _ _ _ _ Hp).
  assert (Hs : steady (owns (run_id (info run0)))
            (let* run := import_run_guarded env self exp src run0 input_dir in
             import_run_epilogue env self src run0 run input_dir nb)).
  { steady_go; [apply owns_guarded|]. apply steady_epilogue; typeclasses eauto. }
  destruct (Hs w1) as [_ Ho].
  - intros r. rewrite Hruns, lookup_insert_eq. now intros [= <-].
  - rewrite Ho by exact Hne. rewrite Hruns. now rewrite lookup_insert_ne by congruence.
Qed.

(** X13: On the path with no failure in the [try], the run [_import_run]
    hands back is the record the tracking store holds: FINISHED, deleted
    exactly when the source run was, and the deletion follows the
    termination. *)
Theorem import_run_success w exp src run0 w1 r w2 :
  import_run_prologue env name input_dir w = (Ok (exp, src, run0), w1) ->
  import_run_steps env self src (run_id (info run0)) input_dir w1 = (Ok r, w2) ->
  let rid := run_id (info run0) in
  let w3 := snd (_import_run env self name input_dir nb w) in
  w_runs w3 !! rid = Some r /\
  status (info r) = FINISHED /\
  lifecycle_stage (info r) = (if is_deleted src then DELETED else ACTIVE) /\
  view (is_end_of_run rid) w3 =
    view (is_end_of_run rid) w ++
      EvSetTerminated rid FINISHED :: (if is_deleted src then [EvDeleteRun rid] else []) /\
  forall p, fst (_import_run env self name input_dir nb w) = Ok p ->
            p = (r, src_tags src !! MLFLOW_PARENT_RUN_ID).
Proof.
  intros Hp Hs. cbv zeta.
  pose proof (prologue_runs _ _ _ _ _ _ _ _ Hp) as (Hruns & Hact & _ & Hview).
  set (rid := run_id (info run0)) in *.
  assert (Hend : forall st, is_end_of_run rid (EvSetTerminated rid st) = true)
    by (intros st; cbn; apply String.eqb_refl).
  assert (Hdel : is_end_of_run rid (EvDeleteRun rid) = true) by (cbn; apply String.eqb_refl).
  (* the world after the try *)
  assert (Hg : import_run_guarded env self exp src run0 input_dir w1 = (Ok r, w2)).
  { unfold import_run_guarded, try_except. cbv zeta. fold rid. now rewrite Hs. }
  (* what the steps did *)
  assert (Hsteps : w_runs w2 !! rid = Some r /\ status (info r) = FINISHED /\
            lifecycle_stage (info r) = (if is_deleted src then DELETED else ACTIVE) /\
            view (is_end_of_run rid) w2 = view (is_end_of_run rid) w1 ++
              EvSetTerminated rid FINISHED ::
              (if is_deleted src then [EvDeleteRun rid] else [])).
  { unfold import_run_steps in Hs.
    apply bind_inv in Hs as [(? & wa & Hd & Hs)|(e & _ & [=])].
    apply bind_inv in Hs as [(? & wb & Ha & Hs)|(e & _ & [=])].
    apply bind_inv in Hs as [(? & wc & Ht & Hs)|(e & _ & [=])].
    assert (Hk1 : well_keyed w1 rid).
    { intros r'. rewrite Hruns, lookup_insert_eq. now intros [= <-]. }
    assert (Hl1 : lifecycle_of w1 rid = Some ACTIVE).
    { unfold lifecycle_of. rewrite Hruns, lookup_insert_eq. cbn. now rewrite Hact. }
    (* up to the termination: the run is alive and nothing ended it *)
    assert (Hpre : forall R, PreOrder R -> Blind R ->
              (forall f, (forall x, run_id (info (f x)) = run_id (info x)) ->
                         (forall x, lifecycle_stage (info (f x)) = lifecycle_stage (info x)) ->
                         steady R (update_run rid f)) ->
              (forall e, is_end_of_run rid e = false -> steady R (emit e)) ->
              R w1 wb).
    { intros R HP HB Hu He. transitivity wa.
      - assert (Hst : steady R (import_run_data env src rid (import_source_tags self)
                  (src_user_id (src_info src)) (use_src_user_id self) (in_databricks self))).
        { unfold import_run_data. steady_go; [|now apply He].
          apply Hu; intros y; now destruct (_ && _). }
        specialize (Hst w1). now rewrite Hd in Hst.
      - assert (Hst : steady R (import_run_artifacts env self rid input_dir)).
        { unfold import_run_artifacts, log_artifacts.
          steady_go; auto using steady_find_artifacts, steady_before_yield,
            steady_after_yield, steady_update_mlmodel_run_id, steady_os_path_exists
            with typeclass_instances. }
        specialize (Hst wa). now rewrite Ha in Hst. }
    assert (Hkb : well_keyed wb rid).
    { refine (proj1 (Hpre (owns rid) _ _ _ _ Hk1)).
      - intros f Hf _. now apply owns_update.
      - intros e _. apply owns_emit. }
    assert (Hlb : lifecycle_of wb rid = Some ACTIVE).
    { rewrite <- Hl1. refine (Hpre (same_lifecycle rid) _ _ _ _).
      - intros f _ Hf wx. unfold same_lifecycle, lifecycle_of, update_run, lookup_run, bind,
          gets, modify, raise, ret.
        destruct (w_runs wx !! rid) as [rx|] eqn:E; cbn; [|now rewrite E].
        rewrite lookup_insert_eq. cbn. now rewrite Hf.
      - intros e _ wx. reflexivity. }
    assert (Hvb : view (is_end_of_run rid) wb = view (is_end_of_run rid) w1).
    { refine (Hpre (same_view (is_end_of_run rid)) _ _ _ _).
      - intros f _ _. apply view_update.
      - intros e He. now apply view_emit. }
    (* the termination *)
    unfold lifecycle_of in Hlb.
    destruct (w_runs wb !! rid) as [rb|] eqn:Eb; [|discriminate].
    cbn in Hlb. injection Hlb as Hlb.
    assert (Hc : w_runs wc !! rid = Some (with_status FINISHED rb) /\
                 w_trace wc = w_trace wb ++ [EvSetTerminated rid FINISHED]).
    { unfold set_terminated, update_run, lookup_run, emit, bind, call, gets, modify, ret in Ht.
      destruct (fails env _); [discriminate|]. rewrite Eb in Ht. cbn in Ht. injection Ht as _ <-. cbn. now rewrite lookup_insert_eq. }
    destruct Hc as [Ec Htc].
    (* the second fetch, and the deletion *)
    unfold import_run_refetch in Hs.
    apply bind_inv in Hs as [(r1 & wd & Hg1 & Hs)|(e & _ & [=])].
    assert (r1 = with_status FINISHED rb /\ wd = wc) as [-> ->].
    { unfold get_run, lookup_run, bind, call, gets, ret, raise in Hg1.
      destruct (fails env _); [discriminate|]. rewrite Ec in Hg1. now injection Hg1 as <- <-. }
    assert (Hid : run_id (info (with_status FINISHED rb)) = rid) by (cbn; now apply Hkb).
    rewrite Hid in Hs. unfold view. fold (view (is_end_of_run rid) wb) in Hvb.
    destruct (is_deleted src).
    - apply bind_inv in Hs as [(? & we & Hdl & Hs)|(e & _ & [=])].
      assert (He : w_runs we !! rid = Some (with_lifecycle_stage DELETED (with_status FINISHED rb))
                   /\ w_trace we = w_trace wc ++ [EvDeleteRun rid]).
      { unfold delete_run, update_run, lookup_run, emit, bind, call, gets, modify, ret in Hdl.
        destruct (fails env _); [discriminate|]. rewrite Ec in Hdl. cbn in Hdl.
        injection Hdl as _ <-. cbn. now rewrite lookup_insert_eq. }
      destruct He as [Ee Hte].
      unfold get_run, lookup_run, bind, call, gets, ret, raise in Hs.
      destruct (fails env _); [discriminate|]. rewrite Ee in Hs. injection Hs as <- <-.
      split; [exact Ee|]. split; [reflexivity|]. split; [reflexivity|].
      rewrite Hte, Htc, !List.filter_app. cbn [List.filter]. rewrite Hend, Hdel.
      fold (view (is_end_of_run rid) wb). rewrite Hvb. now rewrite <- app_assoc.
    - injection Hs as <- <-.
      split; [exact Ec|]. split; [reflexivity|]. split; [exact Hlb|].
      rewrite Htc, !List.filter_app. cbn [List.filter]. rewrite Hend.
      fold (view (is_end_of_run rid) wb). now rewrite Hvb. }
  destruct Hsteps as (Hr & Hst & Hlc & Hv).
  unfold _import_run. rewrite (bind_ok _ _ _ _ _ Hp), (bind_ok _ _ _ _ _ Hg).
  pose proof (steady_epilogue env same_runs self src run0 r input_dir nb w2) as H1.
  pose proof (steady_epilogue env (same_view (is_end_of_run rid)) self src run0 r input_dir nb w2)
    as H2.
  unfold same_runs in H1. unfold same_view in H2.
  split; [now rewrite H1|]. split; [exact Hst|]. split; [exact Hlc|].
  split; [rewrite H2, Hv, Hview; [reflexivity|typeclasses eauto|reflexivity]|].
  intros [r' p'] Hf.
  destruct (import_run_epilogue env self src run0 r input_dir nb w2) as [[[r'' p'']|e] wz] eqn:He;
    [|discriminate].
  apply epilogue_inv in He as [-> ->]. cbn in Hf. now injection Hf as <- <-.
Qed.

Lemma artifacts_skipped rid w :
  mlmodel_paths w rid = [] ->
  snd (import_run_artifacts env self rid input_dir w) = w.
Proof.
  intros Hm. unfold import_run_artifacts, find_artifacts, bind, call, gets, ret.
  destruct (fails env _); [reflexivity|].
  unfold mlmodel_paths, run_artifacts in Hm. cbn. now rewrite Hm.
Qed.

Lemma steps_no_mlmodel R `{!PreOrder R} src rid :
  steady R (import_run_data env src rid (import_source_tags self)
              (src_user_id (src_info src)) (use_src_user_id self) (in_databricks self)) ->
  steady R (set_terminated env rid FINISHED ;; import_run_refetch env src rid) ->
  forall w1, mlmodel_paths w1 rid = [] ->
             R w1 (snd (import_run_steps env self src rid input_dir w1)).
Proof.
  intros Hdata Hrest w1 Hm. unfold import_run_steps.
  match goal with |- context [bind ?m _ w1] => destruct (m w1) as [[[]|e] wa] eqn:Hd end.
  2: { rewrite (bind_raise _ _ _ _ _ Hd). specialize (Hdata w1). now rewrite Hd in Hdata. }
  rewrite (bind_ok _ _ _ _ _ Hd).
  assert (H1 : R w1 wa) by (specialize (Hdata w1); now rewrite Hd in Hdata).
  assert (Ha : w_artifacts wa = w_artifacts w1).
  { assert (Hs : steady same_artifacts (import_run_data env src rid (import_source_tags self)
              (src_user_id (src_info src)) (use_src_user_id self) (in_databricks self)))
      by steady_open.
    specialize (Hs w1). now rewrite Hd in Hs. }
  assert (Hm' : mlmodel_paths wa rid = [])
    by (unfold mlmodel_paths, run_artifacts in *; now rewrite Ha).
  pose proof (artifacts_skipped rid wa Hm') as Hsk.
  destruct (import_run_artifacts env self rid input_dir wa) as [[[]|e] wb] eqn:Hb;
    cbn in Hsk; subst wb.
  - rewrite (bind_ok _ _ _ _ _ Hb). etransitivity; [exact H1|]. apply Hrest.
  - rewrite (bind_raise _ _ _ _ _ Hb). exact H1.
Qed.

Lemma guarded_no_mlmodel R `{!PreOrder R} exp src run0 :
  let rid := run_id (info run0) in
  steady R (import_run_data env src rid (import_source_tags self)
              (src_user_id (src_info src)) (use_src_user_id self) (in_databricks self)) ->
  steady R (set_terminated env rid FINISHED ;; import_run_refetch env src rid) ->
  steady R (set_terminated env rid FAILED) ->
  forall w1, mlmodel_paths w1 rid = [] ->
             R w1 (snd (import_run_guarded env self exp src run0 input_dir w1)).
Proof.
  intros rid Hdata Hrest Hfail w1 Hm.
  pose proof (steps_no_mlmodel R src rid Hdata Hrest w1 Hm) as Hs.
  unfold import_run_guarded, try_except. cbv zeta. fold rid.
  destruct (import_run_steps env self src rid input_dir w1) as [[r|e] w2]; [exact Hs|].
  cbn in Hs. etransitivity; [exact Hs|].
  destruct e; unfold bind; specialize (Hfail w2);
    destruct (set_terminated env rid FAILED w2) as [[[]|e'] w3]; exact Hfail.
Qed.

(** X15: A notebook that cannot be saved is a warning, not a failure: when the
    notebook file can be read and the workspace directory can be made, a
    workspace import that fails with [MlflowExportImportException] does not
    make the statements after the [try] raise. *)
Theorem notebook_import_failure_is_warning src run0 :
  (forall p, fails env (StReadFile p) = None) ->
  (forall d, fails env (StWorkspaceMkdirs d) = None) ->
  (forall p f, fails env (StWorkspaceImport p) = Some f -> exists d, f = FaultHttp d) ->
  notebook_upload_completes env self src run0 input_dir nb.
Proof.
  intros Hread Hmk Himp run w. unfold import_run_epilogue.
  destruct (importing_into_databricks env && truthy nb); [|reflexivity].
  unfold _upload_databricks_notebook.
  destruct (src_tags src !! _) as [[|c s]|]; [reflexivity| |reflexivity].
  unfold os_path_exists, create_workspace_dir, try_except, bind, call, gets, emit, modify, ret.
  cbn. rewrite Hread, Hmk.
  match goal with |- context [negb ?b] => destruct b end; cbn; [|reflexivity].
  match goal with |- context [fails env (StWorkspaceImport ?p)] =>
    destruct (fails env (StWorkspaceImport p)) as [f|] eqn:E end; [|reflexivity].
  destruct (Himp _ _ E) as [d ->]. reflexivity.
Qed.

End ImportRunFurther.

(** ** The guard of the artifact steps

    [_import_run] asks [find_artifacts] for the MLmodel files of the run it
    has just created, and stages and uploads only when there are some. *)

Global Instance next_le_preorder : PreOrder next_le.
Proof. split; [intros w; unfold next_le; lia | intros a b c; unfold next_le; lia]. Qed.

Ltac steady_counted :=
  repeat first
    [ steady_step; try typeclasses eauto
    | steady_try
    | apply steady_modify; intros ?; unfold next_le; cbn; lia
    | progress unfold _import_run, import_run_prologue, import_run_guarded,
        import_run_epilogue, import_run_steps, import_run_artifacts, import_run_refetch,
        _upload_databricks_notebook, _update_mlmodel_run_id, update_one_mlmodel,
        set_experiment, ensure_workspace_dir, create_workspace_dir, create_experiment,
        get_experiment, get_experiment_by_name, read_file_mlflow, create_run, get_run,
        lookup_run, set_terminated, delete_run, update_run, import_run_data,
        find_artifacts, download_mlmodel, log_artifacts, log_artifact, os_path_exists,
        set_tag, nested_tags, link_parent, emit ].

Section Fresh.
Variables (env : Env) (self : RunImporter) (name input_dir : string) (nb : option string).

Lemma next_le_import_run : steady next_le (_import_run env self name input_dir nb).
Proof.
  unfold _import_run, import_run_guarded, import_run_steps, import_run_artifacts.
  steady_counted.
  all: try (unfold move_artifacts; destruct (PyStr.startswith "s3:/" _);
            cbn [before_yield after_yield];
            unfold dbutils_fs_ls, dbutils_fs_cp, dbutils_fs_rm; steady_counted).
Qed.

Lemma fresh_backend_step w w' :
  fresh_backend w -> next_le w w' -> w_artifacts w' = w_artifacts w -> fresh_backend w'.
Proof.
  intros Hf Hn Ha n Hle. unfold run_artifacts. rewrite Ha. apply Hf.
  unfold next_le in Hn. lia.
Qed.

(** The id [create_run] gives the new run is one the backend has not
    issued before. *)
Lemma prologue_run_id w exp src run0 w1 :
  import_run_prologue env name input_dir w = (Ok (exp, src, run0), w1) ->
  exists n, w_next w <= n /\ run_id (info run0) = "run-" +:+ pretty n.
Proof.
  unfold import_run_prologue. intros H.
  apply bind_inv in H as [(exp_id & wa & Hs & H)|(e & _ & [=])].
  assert (Hn : steady next_le (set_experiment env name None None)) by steady_counted.
  specialize (Hn w). rewrite Hs in Hn. cbn in Hn.
  apply bind_inv in H as [(exp' & wb & Hg & H)|(e & _ & [=])].
  assert (wb = wa) as ->.
  { unfold get_experiment, bind, gets, ret, raise in Hg.
    destruct find_experiment_by_id; now inversion Hg. }
  apply bind_inv in H as [(src' & wc & Hr & H)|(e & _ & [=])].
  assert (wc = wa) as ->.
  { unfold read_file_mlflow, ret, raise in Hr. destruct run_json; now inversion Hr. }
  apply bind_inv in H as [(run & wd & Hc & H)|(e & _ & [=])].
  injection H as <- <- <- <-.
  unfold create_run, emit, bind, gets, modify, ret in Hc. injection Hc as <- <-.
  exists (w_next wa). split; [exact Hn|reflexivity].
Qed.

(** On a fresh backend the guard of the artifact steps finds nothing. *)
Lemma fresh_backend_no_mlmodel w exp src run0 w1 :
  fresh_backend w ->
  import_run_prologue env name input_dir w = (Ok (exp, src, run0), w1) ->
  mlmodel_paths w (run_id (info run0)) = [].
Proof.
  intros Hf Hp. destruct (prologue_run_id _ _ _ _ _ Hp) as (n & Hle & ->).
  unfold mlmodel_paths. now rewrite (Hf n Hle).
Qed.

Lemma steps_never_empty_path src rid w1 :
  mlmodel_paths w1 rid = [] ->
  fst (import_run_steps env self src rid input_dir w1) <> Raise EmptyExperimentPathException.
Proof.
  intros Hm. unfold import_run_steps.
  pose proof (never_empty_import_run_data env src rid (import_source_tags self)
                (src_user_id (src_info src)) (use_src_user_id self) (in_databricks self) w1)
    as Hd.
  assert (Ha : steady same_artifacts (import_run_data env src rid (import_source_tags self)
              (src_user_id (src_info src)) (use_src_user_id self) (in_databricks self)))
    by steady_open.
  specialize (Ha w1). unfold bind at 1.
  destruct (import_run_data _ _ _ _ _ _ _ w1) as [[[]|e] wa];
    [|cbn in *; intros [= ->]; now apply Hd].
  cbn in Ha.
  assert (Hm' : mlmodel_paths wa rid = [])
    by (unfold mlmodel_paths, run_artifacts in *; now rewrite Ha).
  unfold bind at 1.
  assert (Hart : import_run_artifacts env self rid input_dir wa = (Ok tt, wa) \/
                 exists f, import_run_artifacts env self rid input_dir wa
                           = (Raise (exn_of_fault f), wa)).
  { unfold import_run_artifacts, find_artifacts, bind, call, gets, ret.
    destruct (fails env _) as [f|]; [right; eauto|left].
    unfold mlmodel_paths, run_artifacts in Hm'. cbn. now rewrite Hm'. }
  destruct Hart as [->|[f ->]].
  - apply (never_empty_bind (set_terminated env rid FINISHED)
             (fun _ => import_run_refetch env src rid)).
    + apply never_empty_set_terminated.
    + intros _. apply never_empty_refetch.
  - cbn. intros [= H]. now apply exn_of_fault_not_empty in H.
Qed.

End Fresh.

Section FreshImport.
Variables (env : Env) (self : RunImporter) (name input_dir : string) (nb : option string).

(** With no MLmodel listed under the new run, an invariant of the data
    replay, of the termination calls and of the statements after the [try]
    is an invariant of what [_import_run] does once the run is created. *)
Lemma no_mlmodel_steady w exp src run0 w1 R `{!PreOrder R} :
  import_run_prologue env name input_dir w = (Ok (exp, src, run0), w1) ->
  mlmodel_paths w1 (run_id (info run0)) = [] ->
  steady R (import_run_data env src (run_id (info run0)) (import_source_tags self)
              (src_user_id (src_info src)) (use_src_user_id self) (in_databricks self)) ->
  steady R (set_terminated env (run_id (info run0)) FINISHED ;;
            import_run_refetch env src (run_id (info run0))) ->
  steady R (set_terminated env (run_id (info run0)) FAILED) ->
  (forall r, steady R (import_run_epilogue env self src run0 r input_dir nb)) ->
  R w1 (snd (_import_run env self name input_dir nb w)).
Proof.
  intros Hp Hm1 Hd Hr Hf He. unfold _import_run. rewrite (bind_ok _ _ _ _ _ Hp).
  pose proof (guarded_no_mlmodel env self input_dir R exp src run0 Hd Hr Hf w1 Hm1) as Hg.
  unfold bind.
  destruct (import_run_guarded env self exp src run0 input_dir w1) as [[r|e] w2];
    [|exact Hg].
  cbn in Hg. etransitivity; [exact Hg|]. apply He.
Qed.

Lemma no_mlmodel_artifacts w exp src run0 w1 :
  import_run_prologue env name input_dir w = (Ok (exp, src, run0), w1) ->
  mlmodel_paths w (run_id (info run0)) = [] ->
  mlmodel_paths w1 (run_id (info run0)) = [] /\
  w_artifacts (snd (_import_run env self name input_dir nb w)) = w_artifacts w.
Proof.
  intros Hp Hm.
  pose proof (prologue_runs _ _ _ _ _ _ _ _ Hp) as (_ & _ & Hart & _).
  assert (Hm1 : mlmodel_paths w1 (run_id (info run0)) = [])
    by (unfold mlmodel_paths, run_artifacts in *; now rewrite Hart).
  split; [exact Hm1|]. rewrite <- Hart.
  apply (no_mlmodel_steady w exp src run0 w1 same_artifacts Hp Hm1).
  - steady_open.
  - steady_open.
  - steady_open.
  - intros r. steady_open.
Qed.

(** X14: When the tracking store lists no MLmodel file under the new run,
    the [try] of [_import_run] cannot raise the empty-path error, and
    [_import_run] patches nothing and uploads nothing: the artifact store
    and the bulk uploads are what they were, whatever else happens. *)
Theorem import_run_no_mlmodel w exp src run0 w1 :
  import_run_prologue env name input_dir w = (Ok (exp, src, run0), w1) ->
  mlmodel_paths w (run_id (info run0)) = [] ->
  fst (import_run_steps env self src (run_id (info run0)) input_dir w1)
    <> Raise EmptyExperimentPathException /\
  w_artifacts (snd (_import_run env self name input_dir nb w)) = w_artifacts w /\
  uploads (snd (_import_run env self name input_dir nb w)) = uploads w.
Proof.
  intros Hp Hm. destruct (no_mlmodel_artifacts _ _ _ _ _ Hp Hm) as [Hm1 Ha].
  split; [now apply steps_never_empty_path|]. split; [exact Ha|].
  rewrite <- (prologue_uploads _ _ _ _ _ _ _ _ Hp).
  apply (no_mlmodel_steady w exp src run0 w1 same_uploads Hp Hm1).
  - now apply view_import_run_data.
  - unfold import_run_refetch.
    steady_go; auto using view_set_terminated, view_get_run, view_delete_run
      with typeclass_instances.
  - now apply view_set_terminated.
  - intros r. apply steady_epilogue; typeclasses eauto.
Qed.

(** A backend that holds no artifact for a run it has not created yet stays
    so through the import of a run: the guard of the artifact steps asks
    for the artifacts of the run just created and finds none. *)
Lemma fresh_backend_import_run w :
  fresh_backend w -> fresh_backend (snd (_import_run env self name input_dir nb w)).
Proof.
  intros Hf. apply (fresh_backend_step w); [exact Hf|apply next_le_import_run|].
  destruct (import_run_prologue env name input_dir w) as [[[[exp src] run0]|e] w1] eqn:Hp.
  - apply (no_mlmodel_artifacts _ _ _ _ _ Hp).
    eapply fresh_backend_no_mlmodel; eauto.
  - unfold _import_run. rewrite (bind_raise _ _ _ _ _ Hp). cbn.
    assert (Hs : steady same_artifacts (import_run_prologue env name input_dir))
      by steady_open.
    specialize (Hs w). now rewrite Hp in Hs.
Qed.

(** On a fresh backend the [try] of [_import_run] never raises the
    empty-path error: the first [except] clause is not reached. *)
Lemma fresh_backend_never_empty_path w exp src run0 w1 :
  fresh_backend w ->
  import_run_prologue env name input_dir w = (Ok (exp, src, run0), w1) ->
  fst (import_run_steps env self src (run_id (info run0)) input_dir w1)
    <> Raise EmptyExperimentPathException.
Proof.
  intros Hf Hp. apply steps_never_empty_path.
  apply (no_mlmodel_artifacts _ _ _ _ _ Hp). eapply fresh_backend_no_mlmodel; eauto.
Qed.

End FreshImport.

Section FreshExperiment.
Variables (env : Env) (self : ExperimentImporter) (name input_dir : string)
  (nb : option string).

Lemma fresh_backend_import_runs l : forall m1 m2 w,
  fresh_backend w ->
  fresh_backend (snd (import_runs env self name input_dir nb l m1 m2 w)).
Proof.
  induction l as [|id l IH]; intros m1 m2 w Hf; [exact Hf|].
  cbn [import_runs]. unfold bind at 1.
  destruct (import_run env name _ nb _ _ w) as [[[r p]|e] wa] eqn:Hr.
  - apply IH.
    unfold import_run, RunImporter_import_run, bind, emit, modify in Hr. cbn in Hr.
    match type of Hr with _import_run ?e ?s ?n ?d ?b ?w0 = _ =>
      pose proof (fresh_backend_import_run e s n d b w0) as H end.
    rewrite Hr in H. apply H. exact Hf.
  - unfold import_run, RunImporter_import_run, bind, emit, modify in Hr. cbn in Hr.
    match type of Hr with _import_run ?e ?s ?n ?d ?b ?w0 = _ =>
      pose proof (fresh_backend_import_run e s n d b w0) as H end.
    rewrite Hr in H. apply H. exact Hf.
Qed.

(** Every backend that imports reach from a fresh one is fresh. *)
Lemma fresh_backend_import_experiment loc w :
  fresh_backend w ->
  fresh_backend (snd (import_experiment env self name input_dir nb loc w)).
Proof.
  intros Hf. unfold import_experiment, read_file_experiment.
  destruct (experiment_json env _) as [man|]; [|exact Hf].
  unfold bind at 1. cbn [ret].
  destruct (man_info man) as [inf|]; [|exact Hf].
  unfold bind at 1. cbn [ret]. unfold bind at 1.
  match goal with |- context [set_experiment env name ?t loc w] =>
    assert (Hs : fresh_backend (snd (set_experiment env name t loc w)));
    [|destruct (set_experiment env name t loc w) as [[exp_id|e] wc]; [|exact Hs]] end.
  { apply (fresh_backend_step w); [exact Hf| |].
    - assert (Hn : forall t, steady next_le (set_experiment env name t loc))
        by (intros t; steady_counted).
      apply Hn.
    - assert (Ha : forall t, steady same_artifacts (set_experiment env name t loc))
        by (intros t; steady_open).
      apply Ha. }
  cbn [snd] in Hs.
  destruct (failed_runs inf) as [failed|]; [|exact Hs].
  unfold bind at 1. cbn [ret]. unfold bind at 1.
  pose proof (fresh_backend_import_runs (rev (man_runs man)) [] [] wc Hs) as Hl.
  destruct (import_runs env self name input_dir nb (rev (man_runs man)) [] [] wc)
    as [[[m1 m2]|e] we]; [|exact Hl].
  cbn [snd] in Hl.
  assert (Hrest : forall A (m : M A), steady same_artifacts m -> steady next_le m ->
            forall w0, fresh_backend w0 -> fresh_backend (snd (m w0))).
  { intros A m Ha Hn w0 H0. apply (fresh_backend_step w0); [exact H0|apply Hn|apply Ha]. }
  apply Hrest; [| |exact Hl].
  - steady_open. unfold nested_tags, link_parent, set_tag. steady_open.
  - steady_counted.
Qed.

End FreshExperiment.




(** ** Setting and finding the experiment *)
Section ExperimentLookup.
Variable env : Env.

Lemma find_experiment_by_name_name name l exp :
  find_experiment_by_name name l = Some exp -> exp_name exp = name.
Proof.
  unfold find_experiment_by_name. intros H. apply List.find_some in H as [_ H].
  now apply String.eqb_eq.
Qed.

(** X17: The experiment [set_experiment] returns the id of is the one
    [mlflow_utils.get_experiment] finds under the name. *)
Theorem set_experiment_then_get client name tgs loc w id w1 :
  set_experiment env name tgs loc w = (Ok id, w1) ->
  exists exp,
    mlflow_utils_get_experiment client name w1 = (Ok exp, w1) /\
    exp_experiment_id exp = id /\ exp_name exp = name.
Proof.
  intros H. apply set_experiment_ok in H as (_ & _ & exp & Hf & Hid).
  exists exp. split; [|split; [exact Hid|eapply find_experiment_by_name_name, Hf]].
  unfold mlflow_utils_get_experiment, get_experiment_by_name, bind, gets, ret.
  now rewrite Hf.
Qed.

End ExperimentLookup.

(** ** Further properties of the experiment importer *)
Section GuardedViews.
Variables (env : Env) (keep : Event -> bool).
Context `{!Unobserved keep}.
Hypothesis keep_data : forall rid, keep (EvImportRunData rid) = false.
Hypothesis keep_upload : forall rid d, keep (EvLogArtifacts rid d) = false.
Hypothesis keep_terminated : forall rid st, keep (EvSetTerminated rid st) = false.
Hypothesis keep_delete : forall rid, keep (EvDeleteRun rid) = false.

Lemma view_steps self src rid input_dir :
  steady (same_view keep) (import_run_steps env self src rid input_dir).
Proof.
  unfold import_run_steps, import_run_artifacts, import_run_refetch.
  steady_go; auto using view_import_run_data, view_set_terminated, view_get_run,
    view_delete_run, view_log_artifacts, steady_find_artifacts, steady_before_yield,
    steady_after_yield, steady_update_mlmodel_run_id, steady_os_path_exists
    with typeclass_instances.
Qed.

Lemma view_after_create self exp src run0 input_dir nb :
  steady (same_view keep)
    (let* run := import_run_guarded env self exp src run0 input_dir in
     import_run_epilogue env self src run0 run input_dir nb).
Proof.
  unfold import_run_guarded.
  steady_go; auto using steady_epilogue with typeclass_instances.
  apply steady_try_except; [typeclasses eauto|apply view_steps|].
  intros ex k H.
  destruct ex; injection H as <-; steady_go; auto using view_set_terminated.
Qed.

End GuardedViews.

Section ExperimentFurther.
Variables (env : Env) (self : ExperimentImporter) (name input_dir : string)
  (nb : option string).

Lemma prologue_creates run_dir w exp src run0 w1 :
  import_run_prologue env name run_dir w = (Ok (exp, src, run0), w1) ->
  view is_create w1 = view is_create w ++ [EvCreateRun (run_id (info run0))].
Proof.
  unfold import_run_prologue. intros H.
  apply bind_inv in H as [(exp_id & wa & Hs & H)|(e & _ & [=])].
  apply bind_inv in H as [(exp' & wb & Hg & H)|(e & _ & [=])].
  assert (wb = wa) as ->.
  { unfold get_experiment, bind, gets, ret, raise in Hg.
    destruct find_experiment_by_id; now inversion Hg. }
  apply bind_inv in H as [(src' & wc & Hr & H)|(e & _ & [=])].
  assert (wc = wa) as ->.
  { unfold read_file_mlflow, ret, raise in Hr. destruct run_json; now inversion Hr. }
  apply bind_inv in H as [(run & wd & Hc & H)|(e & _ & [=])].
  injection H as <- <- <- <-.
  pose proof (steady_set_experiment env (same_view is_create) name None None w) as H1.
  rewrite Hs in H1. cbn in H1. unfold same_view in H1. rewrite <- H1.
  unfold create_run, emit, bind, gets, modify, ret in Hc. injection Hc as <- <-.
  unfold view. cbn. now rewrite List.filter_app.
Qed.

(** Every [import_run] that gets as far as [create_run] creates one
    destination run, whether the import then succeeds or not. *)
Lemma import_run_creates run_dir b1 b2 w r w' :
  import_run env name run_dir nb b1 b2 w = (Ok r, w') ->
  exists rid, view is_create w' = view is_create w ++ [EvCreateRun rid].
Proof.
  unfold import_run, RunImporter_import_run, _import_run. intros H.
  apply bind_inv in H as [([] & wa & He & H)|(e & _ & [=])].
  injection He as <-.
  apply bind_inv in H as [([[exp src] run0] & w1 & Hp & H)|(e & _ & [=])].
  exists (run_id (info run0)).
  apply prologue_creates in Hp. rewrite view_event in Hp. cbn in Hp.
  rewrite app_nil_r in Hp. rewrite <- Hp.
  match type of H with ?m w1 = _ =>
    assert (Hs : steady (same_view is_create) m)
      by (apply view_after_create; try typeclasses eauto; reflexivity);
    specialize (Hs w1); rewrite H in Hs; exact Hs end.
Qed.

Lemma import_runs_creates l : forall m1 m2 w r w',
  import_runs env self name input_dir nb l m1 m2 w = (Ok r, w') ->
  length (view is_create w') = length (view is_create w) + length l.
Proof.
  induction l as [|id l IH]; intros m1 m2 w r w' H.
  - cbn in H. injection H as <- <-. cbn. lia.
  - cbn [import_runs] in H.
    apply bind_inv in H as [([dst_run parent] & wa & Hr & H)|(e & _ & [=])].
    apply import_run_creates in Hr as [rid Hr]. apply IH in H.
    rewrite H, Hr, length_app. cbn. lia.
Qed.

(** What a successful [import_experiment] went through. *)
Lemma import_experiment_inv loc w man result w' :
  experiment_json env (PyStr.path_join input_dir "experiment.json") = Some man ->
  import_experiment env self name input_dir nb loc w = (Ok result, w') ->
  exists inf failed exp_id wc m1 we,
    man_info man = Some inf /\ failed_runs inf = Some failed /\
    set_experiment env name
      (Some (if ei_import_source_tags self
             then source_tags_for_experiment env (man_experiment_tags man)
             else man_experiment_tags man)) loc w = (Ok exp_id, wc) /\
    import_runs env self name input_dir nb (rev (man_runs man)) [] [] wc
      = (Ok (m1, result), we) /\
    nested_tags m1
      (if Nat.ltb 0 (length failed)
       then set_trace (fun t => t ++ [EvWarning "failed runs were not imported"]) we
       else we) = (Ok tt, w').
Proof.
  intros Hman H. unfold import_experiment, read_file_experiment in H. rewrite Hman in H.
  apply bind_inv in H as [(man' & wa & Ha & H)|(e & _ & [=])]. injection Ha as <- <-.
  apply bind_inv in H as [(inf & wb & Hb & H)|(e & _ & [=])].
  destruct (man_info man) as [inf'|] eqn:Hi; [|discriminate Hb]. injection Hb as <- <-.
  apply bind_inv in H as [(exp_id & wc & Hc & H)|(e & _ & [=])].
  apply bind_inv in H as [(failed & wd & Hd & H)|(e & _ & [=])].
  destruct (failed_runs inf') as [failed'|] eqn:Hf; [|discriminate Hd].
  injection Hd as <- <-.
  apply bind_inv in H as [([m1 m2] & we & Hl & H)|(e & _ & [=])].
  apply bind_inv in H as [([] & wf & Hw & H)|(e & _ & [=])].
  apply bind_inv in H as [([] & wg & Ht & H)|(e & _ & [=])].
  injection H as <- <-.
  exists inf', failed', exp_id, wc, m1, we. repeat split; try assumption.
  destruct (Nat.ltb 0 (length failed')); injection Hw as <-; exact Ht.
Qed.

Lemma creates_nested_tags m : steady (same_view is_create) (nested_tags m).
Proof.
  unfold nested_tags, link_parent. steady_go; auto using view_set_tag.
Qed.

(** X19: A successful [import_experiment] has created one destination run for
    every entry of the manifest's run list, a repeated id included, while
    the mapping it returns has one entry for each distinct id: it is as
    long as the list only when the list has no repetition. *)
Theorem import_experiment_creates loc w man result w' :
  experiment_json env (PyStr.path_join input_dir "experiment.json") = Some man ->
  import_experiment env self name input_dir nb loc w = (Ok result, w') ->
  length (view is_create w') = length (view is_create w) + length (man_runs man) /\
  Dict.len result <= length (man_runs man) /\
  (Dict.len result = length (man_runs man) -> List.NoDup (man_runs man)).
Proof.
  intros Hman H.
  destruct (import_experiment_inv _ _ _ _ _ Hman H)
    as (inf & failed & exp_id & wc & m1 & we & _ & _ & Hs & Hl & Ht).
  pose proof (steady_set_experiment env (same_view is_create) name
                (Some (if ei_import_source_tags self
                       then source_tags_for_experiment env (man_experiment_tags man)
                       else man_experiment_tags man)) loc w) as H1.
  rewrite Hs in H1. cbn [snd] in H1. unfold same_view in H1.
  pose proof (import_runs_creates _ _ _ _ _ _ Hl) as H2. rewrite length_rev in H2.
  pose proof (creates_nested_tags m1) as H3. unfold steady in H3.
  match type of Ht with nested_tags m1 ?wf = _ => specialize (H3 wf) end.
  rewrite Ht in H3. cbn [snd] in H3. unfold same_view in H3.
  apply import_runs_spec in Hl as (_ & Hk & Hn & _).
  assert (Hnd : List.NoDup (Dict.keys result)) by (apply Hn; constructor).
  assert (Hincl : incl (Dict.keys result) (man_runs man)).
  { intros id Hid. apply Hk in Hid as [[]|Hid]. now apply in_rev. }
  assert (Hlen : Dict.len result = length (Dict.keys result))
    by (unfold Dict.len, Dict.keys; now rewrite length_map).
  split; [|split].
  - rewrite H3. destruct (Nat.ltb 0 (length failed)).
    + rewrite view_event. cbn [is_create]. rewrite app_nil_r, H2, H1. reflexivity.
    + rewrite H2, H1. reflexivity.
  - rewrite Hlen. now apply List.NoDup_incl_length.
  - rewrite Hlen. intros Heq.
    apply (List.NoDup_incl_NoDup (l:=Dict.keys result)); [exact Hnd| |exact Hincl].
    now rewrite Heq.
Qed.

(** X20: A manifest without the [info] stanza, or whose [info] has no
    [failed_runs], makes [import_experiment] raise before any run is
    imported: no run is created and no import is started. Without [info]
    the destination is not touched at all; without [failed_runs] the
    experiment has been set before the [KeyError]. *)
Theorem import_experiment_incomplete_manifest loc w man :
  experiment_json env (PyStr.path_join input_dir "experiment.json") = Some man ->
  (man_info man = None \/ man_info man = Some (mkManifestInfo None)) ->
  let out := import_experiment env self name input_dir nb loc w in
  (exists e, fst out = Raise e) /\
  w_runs (snd out) = w_runs w /\
  imports (snd out) = imports w /\
  (man_info man = None -> out = (Raise (KeyError "info"), w)) /\
  (forall exp_id wc,
     man_info man = Some (mkManifestInfo None) ->
     set_experiment env name
       (Some (if ei_import_source_tags self
              then source_tags_for_experiment env (man_experiment_tags man)
              else man_experiment_tags man)) loc w = (Ok exp_id, wc) ->
     out = (Raise (KeyError "failed_runs"), wc)).
Proof.
  intros Hman Hinfo. cbv zeta. unfold import_experiment, read_file_experiment.
  rewrite Hman. lazy beta iota delta [bind ret raise].
  set (tgs := Some _).
  pose proof (steady_set_experiment env same_runs name tgs loc w) as Hr.
  pose proof (steady_set_experiment env same_imports name tgs loc w) as Hv.
  destruct Hinfo as [Hi|Hi]; rewrite Hi; cbn [fst snd failed_runs].
  - split; [eauto|]. split; [reflexivity|]. split; [reflexivity|].
    split; [reflexivity|]. intros exp_id wc Hd. discriminate Hd.
  - destruct (set_experiment env name tgs loc w) as [[exp_id|e] wc]; cbn in *.
    + split; [eauto|]. split; [exact Hr|]. split; [exact Hv|].
      split; [discriminate|]. intros exp_id' wc' _ Heq. now injection Heq as <- <-.
    + split; [eauto|]. split; [exact Hr|]. split; [exact Hv|].
      split; [discriminate|]. intros exp_id' wc' _ Heq. discriminate Heq.
Qed.

(** X21: [import_experiment] is not a transaction: when the import of a run
    raises, [import_experiment] raises that exception at once.  The runs
    before it stay imported, the runs after it are not started, and the
    world is the one the failed [import_run] left. *)
Theorem import_experiment_aborts loc w man inf failed exp_id wc done id rest m1 m2 wa e wb :
  experiment_json env (PyStr.path_join input_dir "experiment.json") = Some man ->
  man_info man = Some inf -> failed_runs inf = Some failed ->
  set_experiment env name
    (Some (if ei_import_source_tags self
           then source_tags_for_experiment env (man_experiment_tags man)
           else man_experiment_tags man)) loc w = (Ok exp_id, wc) ->
  rev (man_runs man) = done ++ id :: rest ->
  import_runs env self name input_dir nb done [] [] wc = (Ok (m1, m2), wa) ->
  import_run env name (PyStr.path_join input_dir id) nb
    (ei_import_source_tags self) (ei_use_src_user_id self) wa = (Raise e, wb) ->
  import_experiment env self name input_dir nb loc w = (Raise e, wb) /\
  imports wb = imports w ++ map (import_event input_dir) (done ++ [id]).
Proof.
  intros Hman Hi Hf Hs Hrev Hdone Hfail.
  assert (Hloop : forall l k1 k2 w0 r1 r2,
            import_runs env self name input_dir nb l k1 k2 w0 = (Ok (r1, r2), wa) ->
            import_runs env self name input_dir nb (l ++ id :: rest) k1 k2 w0 = (Raise e, wb)).
  { induction l as [|x l IH]; intros k1 k2 w0 r1 r2 H.
    - cbn in H. injection H as <- <- <-. cbn [app import_runs].
      now rewrite (bind_raise _ _ _ _ _ Hfail).
    - cbn [app import_runs] in *.
      apply bind_inv in H as [([dst_run parent] & wx & Hr & H)|(e' & _ & [=])].
      rewrite (bind_ok _ _ _ _ _ Hr). eapply IH, H. }
  split.
  - unfold import_experiment, read_file_experiment. rewrite Hman. unfold bind at 1.
    cbn [ret]. rewrite Hi. unfold bind at 1. cbn [ret].
    rewrite (bind_ok _ _ _ _ _ Hs). rewrite Hf. unfold bind at 1. cbn [ret].
    rewrite Hrev. now rewrite (bind_raise _ _ _ _ _ (Hloop _ _ _ _ _ _ Hdone)).
  - pose proof (steady_set_experiment env same_imports name
                (Some (if ei_import_source_tags self
                       then source_tags_for_experiment env (man_experiment_tags man)
                       else man_experiment_tags man)) loc w) as H1.
    rewrite Hs in H1. cbn [snd] in H1. unfold same_view in H1.
    apply import_runs_spec in Hdone as (Hd & _).
    apply import_run_imports in Hfail.
    rewrite Hfail, Hd, H1, map_app. cbn. now rewrite app_assoc.
Qed.

End ExperimentFurther.

(** ** The runs an experiment import creates *)
Section CreatedRuns.
Variable env : Env.

Lemma keeps_run_create_run rid exp_id : steady (keeps_run rid) (create_run env exp_id).
Proof.
  intros w [r Hr]. unfold create_run, emit, bind, gets, modify, ret. cbn.
  destruct (decide (rid = "run-" +:+ pretty (w_next w))) as [->|Hne].
  - rewrite lookup_insert_eq. eauto.
  - rewrite lookup_insert_ne by congruence. eauto.
Qed.

Lemma keeps_run_guarded rid self exp src run0 input_dir :
  steady (keeps_run rid) (import_run_guarded env self exp src run0 input_dir).
Proof.
  unfold import_run_guarded.
  apply steady_try_except; [typeclasses eauto|apply keeps_run_steps|].
  intros ex k H.
  destruct ex; injection H as <-; steady_go; auto using keeps_run_set_terminated.
Qed.

Lemma keeps_run_after_create rid self exp src run0 input_dir nb :
  steady (keeps_run rid)
    (let* run := import_run_guarded env self exp src run0 input_dir in
     import_run_epilogue env self src run0 run input_dir nb).
Proof.
  steady_go; auto using steady_epilogue, keeps_run_guarded with typeclass_instances.
Qed.

Lemma keeps_run_import_run rid name run_dir nb b1 b2 :
  steady (keeps_run rid) (import_run env name run_dir nb b1 b2).
Proof.
  unfold import_run, RunImporter_import_run, _import_run, import_run_prologue,
    get_experiment, read_file_mlflow.
  steady_go; auto using keeps_run_emit, steady_set_experiment, keeps_run_create_run,
    steady_epilogue, keeps_run_guarded with typeclass_instances.
Qed.

Lemma keeps_run_set_tag rid rid' k v : steady (keeps_run rid) (set_tag rid' k v).
Proof. unfold set_tag. steady_go; auto using keeps_run_update, keeps_run_emit. Qed.

Lemma keeps_run_nested_tags rid m : steady (keeps_run rid) (nested_tags m).
Proof. unfold nested_tags, link_parent. steady_go; auto using keeps_run_set_tag. Qed.

(** The run that is fetched again carries the id it was asked by. *)
Lemma refetch_id src rid w r w' :
  well_keyed w rid ->
  import_run_refetch env src rid w = (Ok r, w') ->
  run_id (info r) = rid.
Proof.
  intros Hk H. unfold import_run_refetch in H.
  apply bind_inv in H as [(r1 & wa & Hg & H)|(e & _ & [=])].
  assert (Hr : run_id (info r1) = rid /\ wa = w).
  { unfold get_run, lookup_run, bind, call, gets, ret, raise in Hg.
    destruct (fails env _); [discriminate|].
    destruct (w_runs w !! rid) as [r'|] eqn:E; [|discriminate].
    injection Hg as <- <-. split; [now apply Hk|reflexivity]. }
  destruct Hr as [Hr ->]. rewrite Hr in H.
  destruct (is_deleted src); [|now injection H as <- <-].
  apply bind_inv in H as [([] & wd & Hd & H)|(e & _ & [=])].
  pose proof (owns_delete_run env rid w Hk) as [Hkd _]. rewrite Hd in Hkd. cbn in Hkd.
  unfold get_run, lookup_run, bind, call, gets, ret, raise in H.
  destruct (fails env _); [discriminate|].
  destruct (w_runs wd !! rid) as [r'|] eqn:E; [|discriminate].
  injection H as <- <-. now apply Hkd.
Qed.

(** What a successful [import_run] leaves: one more run created, which the
    backend holds, and the run that is returned carries its id. *)
Lemma import_run_returns name run_dir nb b1 b2 w r p w' :
  import_run env name run_dir nb b1 b2 w = (Ok (r, p), w') ->
  view is_create w' = view is_create w ++ [EvCreateRun (run_id (info r))] /\
  is_Some (w_runs w' !! run_id (info r)).
Proof.
  unfold import_run, RunImporter_import_run. intros H.
  apply bind_inv in H as [([] & w0 & He & H)|(e & _ & [=])].
  assert (Hv0 : view is_create w0 = view is_create w).
  { injection He as <-. rewrite view_event. apply app_nil_r. }
  set (self := RunImporter_init env b1 true b2 false) in *.
  unfold _import_run in H.
  apply bind_inv in H as [([[exp src] run0] & w1 & Hp & H)|(e & _ & [=])].
  pose proof (prologue_creates env name run_dir w0 exp src run0 w1 Hp) as Hc.
  pose proof (prologue_inv env name run_dir w0 exp src run0 w1 Hp) as [Hrun _].
  pose proof (view_after_create env is_create (fun _ => eq_refl) (fun _ _ => eq_refl)
                (fun _ _ => eq_refl) (fun _ => eq_refl) self exp src run0 run_dir nb w1) as Hv.
  pose proof (keeps_run_after_create (run_id (info run0)) self exp src run0 run_dir nb w1)
    as Hk.
  unfold bind in Hv, Hk.
  assert (Hid : run_id (info r) = run_id (info run0)).
  { apply bind_inv in H as [(r' & w2 & Hg & H)|(e & _ & [=])].
    apply epilogue_inv in H as [-> _].
    unfold import_run_guarded, try_except in Hg.
    destruct (import_run_steps env self src (run_id (info run0)) run_dir w1)
      as [[r1|e] wx] eqn:Hs.
    - injection Hg as <- <-. unfold import_run_steps in Hs.
      apply bind_inv in Hs as [([] & wa & Hd & Hs)|(e & _ & [=])].
      apply bind_inv in Hs as [([] & wb & Ha & Hs)|(e & _ & [=])].
      apply bind_inv in Hs as [([] & wc & Ht & Hs)|(e & _ & [=])].
      assert (Hk1 : well_keyed w1 (run_id (info run0))).
      { intros r'. rewrite Hrun. now intros [= <-]. }
      assert (Hkc : well_keyed wc (run_id (info run0))).
      { pose proof (owns_import_run_data env (run_id (info run0)) src (import_source_tags self)
                      (src_user_id (src_info src)) (use_src_user_id self) (in_databricks self)
                      w1 Hk1) as [Hka _].
        rewrite Hd in Hka. cbn in Hka.
        pose proof (owns_artifacts env (run_id (info run0)) self run_dir wa Hka) as [Hkb _].
        rewrite Ha in Hkb. cbn in Hkb.
        pose proof (owns_set_terminated env (run_id (info run0)) FINISHED wb Hkb) as [Hkc _].
        now rewrite Ht in Hkc. }
      eapply refetch_id; eauto.
    - destruct e;
        apply bind_inv in Hg as [([] & wy & _ & Hg)|(e' & _ & [=])];
        try discriminate.
      now injection Hg as <- <-. }
  rewrite Hid. unfold bind in H. rewrite H in Hv, Hk. cbn in Hv, Hk.
  unfold same_view in Hv. split.
  - now rewrite Hv, Hc, Hv0.
  - apply Hk. eauto.
Qed.

End CreatedRuns.

Section ExperimentRuns.
Variables (env : Env) (self : ExperimentImporter) (name input_dir : string)
  (nb : option string).

Lemma keeps_run_import_runs rid l : forall m1 m2,
  steady (keeps_run rid) (import_runs env self name input_dir nb l m1 m2).
Proof.
  induction l as [|id l IH]; intros m1 m2; cbn [import_runs].
  - steady_go.
  - steady_go; auto using keeps_run_import_run.
Qed.

Lemma import_runs_in_order l : forall m1 m2 w m1' m2' w',
  import_runs env self name input_dir nb l m1 m2 w = (Ok (m1', m2'), w') ->
  exists rs,
    imported_in_order env self name input_dir nb l rs w w' /\
    length rs = length l /\
    view is_create w' = view is_create w ++ created rs /\
    (forall r, In r rs -> is_Some (w_runs w' !! run_id (info r))) /\
    (forall k, ~ In k l -> Dict.get k m2' = Dict.get k m2) /\
    (List.NoDup l -> forall i id r, l !! i = Some id -> rs !! i = Some r ->
       Dict.get id m2' = Some (info r)).
Proof.
  induction l as [|id l IH]; intros m1 m2 w m1' m2' w' H.
  - cbn in H. injection H as <- <- <-. exists []. cbn.
    rewrite app_nil_r. repeat split; try tauto. intros _ i id r [=].
  - cbn [import_runs] in H.
    apply bind_inv in H as [([dst_run parent] & wa & Hr & H)|(e & _ & [=])].
    pose proof (import_run_returns _ _ _ _ _ _ _ _ _ _ Hr) as [Hc He].
    match type of H with import_runs _ _ _ _ _ _ ?a ?b _ = _ =>
      pose proof (keeps_run_import_runs (run_id (info dst_run)) l a b wa He) as Hk end.
    rewrite H in Hk. cbn [snd] in Hk.
    apply IH in H as (rs & Ho & Hlen & Hv & Hex & Hfr & Hval).
    exists (dst_run :: rs). split; [|split; [|split; [|split; [|split]]]].
    + cbn. eauto.
    + cbn. now rewrite Hlen.
    + rewrite Hv, Hc. unfold created. cbn. now rewrite <- app_assoc.
    + intros r [<-|Hin]; auto.
    + intros k Hk'. rewrite Hfr by (intros Hin; apply Hk'; now right).
      apply dict_get_set_ne. intros ->. apply Hk'. now left.
    + intros Hnd i id' r Hi Hrs. inversion Hnd as [|? ? Hnotin Hnd']; subst.
      destruct i as [|i]; cbn in Hi, Hrs.
      * injection Hi as <-. injection Hrs as <-.
        rewrite Hfr by assumption. apply dict_get_set_eq.
      * eapply Hval; eauto.
Qed.

(** C4: a successful [import_experiment] has imported the runs of the
    manifest in reversed order, one [import_run] after the other, each
    creating one destination run that the backend holds at the end; the
    mapping it returns has the listed source run ids as its keys, each
    once, so as many entries as the manifest lists runs when these are
    distinct, and it maps each id to the run its import returned. *)
Theorem import_experiment_runs loc w man result w' :
  experiment_json env (PyStr.path_join input_dir "experiment.json") = Some man ->
  import_experiment env self name input_dir nb loc w = (Ok result, w') ->
  imports w' = imports w ++ map (import_event input_dir) (rev (man_runs man)) /\
  (forall id, In id (Dict.keys result) <-> In id (man_runs man)) /\
  List.NoDup (Dict.keys result) /\
  (List.NoDup (man_runs man) -> Dict.len result = length (man_runs man)) /\
  exists exp_id wc rs we,
    set_experiment env name
      (Some (if ei_import_source_tags self
             then source_tags_for_experiment env (man_experiment_tags man)
             else man_experiment_tags man)) loc w = (Ok exp_id, wc) /\
    imported_in_order env self name input_dir nb (rev (man_runs man)) rs wc we /\
    length rs = length (man_runs man) /\
    view is_create w' = view is_create w ++ created rs /\
    (forall r, In r rs -> is_Some (w_runs w' !! run_id (info r))) /\
    (List.NoDup (man_runs man) -> forall i id r,
       rev (man_runs man) !! i = Some id -> rs !! i = Some r ->
       Dict.get id result = Some (info r)).
Proof.
  intros Hman H.
  destruct (import_experiment_inv _ _ _ _ _ _ _ _ _ _ Hman H)
    as (inf & failed & exp_id & wc & m1 & we & _ & _ & Hs & Hl & Ht).
  set (tgs := Some (if ei_import_source_tags self
                    then source_tags_for_experiment env (man_experiment_tags man)
                    else man_experiment_tags man)) in *.
  pose proof (steady_set_experiment env same_imports name tgs loc w) as Hsi.
  pose proof (steady_set_experiment env (same_view is_create) name tgs loc w) as Hsc.
  rewrite Hs in Hsi, Hsc. cbn [snd] in Hsi, Hsc. unfold same_view in Hsi, Hsc.
  set (wf := if Nat.ltb 0 (length failed)
             then set_trace (fun t => t ++ [EvWarning "failed runs were not imported"]) we
             else we) in *.
  assert (Hwi : imports wf = imports we).
  { subst wf. destruct (Nat.ltb 0 (length failed)); [|reflexivity].
    rewrite view_event. apply app_nil_r. }
  assert (Hwc : view is_create wf = view is_create we).
  { subst wf. destruct (Nat.ltb 0 (length failed)); [|reflexivity].
    rewrite view_event. apply app_nil_r. }
  assert (Hwr : w_runs wf = w_runs we).
  { subst wf. now destruct (Nat.ltb 0 (length failed)). }
  pose proof (imports_nested_tags m1 wf) as Hni.
  pose proof (creates_nested_tags m1 wf) as Hnc.
  rewrite Ht in Hni, Hnc. cbn [snd] in Hni, Hnc. unfold same_view in Hni, Hnc.
  pose proof (import_runs_spec _ _ _ _ _ _ _ _ _ _ _ _ Hl) as (Hi & Hk & Hn & Hlen).
  apply import_runs_in_order in Hl as (rs & Ho & Hlr & Hv & Hex & _ & Hval).
  split; [|split; [|split; [|split]]].
  - rewrite Hni, Hwi, Hi, Hsi. reflexivity.
  - intros id. rewrite Hk. cbn. rewrite <- in_rev. tauto.
  - apply Hn. constructor.
  - intros Hnd. rewrite Hlen.
    + cbn. now rewrite length_rev.
    + now apply NoDup_rev.
    + intros id _ [].
  - exists exp_id, wc, rs, we. split; [exact Hs|]. split; [exact Ho|].
    split; [now rewrite Hlr, length_rev|]. split; [|split].
    + rewrite Hnc, Hwc, Hv, Hsc. reflexivity.
    + intros r Hin. pose proof (keeps_run_nested_tags (run_id (info r)) m1 wf) as Hkn.
      rewrite Ht in Hkn. cbn [snd] in Hkn. apply Hkn. rewrite Hwr. now apply Hex.
    + intros Hnd. apply Hval. now apply NoDup_rev.
Qed.

End ExperimentRuns.

Lemma import_experiment_runs_witness :
  let w := Sample.empty_world in
  let w' := snd (import_experiment Sample.local_env (mkExperimentImporter false false)
                   "/Shared/exp" "/exports/exp" None None Sample.empty_world) in
  let result := [("r1", mkRunInfo "run-1" "0" "importer" FINISHED ACTIVE);
                 ("r2", mkRunInfo "run-2" "0" "importer" FINISHED ACTIVE)] in
  imports w' = imports w ++ map (import_event "/exports/exp") (rev (man_runs Sample.manifest)) /\
  (forall id, In id (Dict.keys result) <-> In id (man_runs Sample.manifest)) /\
  List.NoDup (Dict.keys result) /\
  (List.NoDup (man_runs Sample.manifest) -> Dict.len result = length (man_runs Sample.manifest)) /\
  exists exp_id wc rs we,
    set_experiment Sample.local_env "/Shared/exp" (Some (man_experiment_tags Sample.manifest))
      None w = (Ok exp_id, wc) /\
    imported_in_order Sample.local_env (mkExperimentImporter false false) "/Shared/exp"
      "/exports/exp" None (rev (man_runs Sample.manifest)) rs wc we /\
    length rs = length (man_runs Sample.manifest) /\
    view is_create w' = view is_create w ++ created rs /\
    (forall r, In r rs -> is_Some (w_runs w' !! run_id (info r))) /\
    (List.NoDup (man_runs Sample.manifest) -> forall i id r,
       rev (man_runs Sample.manifest) !! i = Some id -> rs !! i = Some r ->
       Dict.get id result = Some (info r)).
Proof.
  apply (import_experiment_runs Sample.local_env (mkExperimentImporter false false)
           "/Shared/exp" "/exports/exp" None None Sample.empty_world Sample.manifest).
  - reflexivity.
  - vm_compute. reflexivity.
Defined.

(** ** reverse_order.py *)
Section ReverseOrder.

Lemma reverse_runs_involutive man : reverse_runs (reverse_runs man) = man.
Proof. destruct man as [i t l]. unfold reverse_runs. cbn. now rewrite rev_involutive. Qed.

Lemma reverse_order_main_inv env dir env1 :
  reverse_order_main env dir = Ok env1 ->
  exists man,
    experiment_json env (PyStr.path_join dir "experiment.json") = Some man /\
    env1 = write_experiment_json (PyStr.path_join dir "experiment.json")
             (reverse_runs man) env.
Proof.
  unfold reverse_order_main.
  destruct (experiment_json env _) as [man|]; [|discriminate].
  intros [= <-]. eauto.
Qed.

(** X22: Running [main] twice gives every manifest back: the second run
    succeeds and each [experiment.json] reads as it did at first; the
    files of the runs are never touched. *)
Theorem reverse_order_twice env dir env1 :
  reverse_order_main env dir = Ok env1 ->
  exists env2,
    reverse_order_main env1 dir = Ok env2 /\
    (forall p, experiment_json env2 p = experiment_json env p) /\
    run_json env2 = run_json env.
Proof.
  intros H. apply reverse_order_main_inv in H as (man & Hman & ->).
  unfold reverse_order_main. cbn [experiment_json write_experiment_json].
  rewrite String.eqb_refl. eexists. split; [reflexivity|]. split; [|reflexivity].
  intros p. cbn [experiment_json write_experiment_json].
  destruct (String.eqb_spec p (PyStr.path_join dir "experiment.json")) as [->|Hne];
    [|reflexivity].
  now rewrite reverse_runs_involutive, Hman.
Qed.

(** X23: After [main] has rewritten the manifest of a directory on the local
    disk, whose path the importer reads as it is, [import_experiment],
    which reverses the run list itself, imports the runs in the order in
    which the manifest listed them before. *)
Theorem reverse_order_then_import env dir env1 man self name nb loc w result w' :
  get_filesystem (PyStr.path_join dir "experiment.json") = LocalFileSystem ->
  mk_local_path (PyStr.path_join dir "experiment.json")
  = PyStr.path_join dir "experiment.json" ->
  experiment_json env (PyStr.path_join dir "experiment.json") = Some man ->
  reverse_order_main env dir = Ok env1 ->
  import_experiment env1 self name dir nb loc w = (Ok result, w') ->
  imports w' = imports w ++ map (import_event dir) (man_runs man).
Proof.
  intros _ _ Hman Hmain H.
  apply reverse_order_main_inv in Hmain as (man' & Hman' & ->).
  rewrite Hman in Hman'. injection Hman' as <-.
  set (env1 := write_experiment_json _ _ env) in *.
  assert (H1 : experiment_json env1 (PyStr.path_join dir "experiment.json")
               = Some (reverse_runs man)).
  { unfold env1. cbn [experiment_json write_experiment_json]. now rewrite String.eqb_refl. }
  destruct (import_experiment_inv _ _ _ _ _ _ _ _ _ _ H1 H)
    as (inf & failed & exp_id & wc & m1 & we & _ & _ & Hs & Hl & Ht).
  cbn [man_runs reverse_runs] in Hl. rewrite rev_involutive in Hl.
  match type of Hs with set_experiment _ _ ?tgs _ _ = _ =>
    pose proof (steady_set_experiment env1 same_imports name tgs loc w) as Hv end.
  rewrite Hs in Hv. cbn [snd] in Hv. unfold same_view in Hv.
  apply import_runs_spec in Hl as (Hi & _).
  pose proof (imports_nested_tags m1) as Hn. unfold steady in Hn.
  match type of Ht with nested_tags m1 ?wf = _ => specialize (Hn wf) end.
  rewrite Ht in Hn. cbn [snd] in Hn. unfold same_view in Hn.
  rewrite Hn. destruct (Nat.ltb 0 (length failed)).
  - rewrite view_event. cbn [is_import]. now rewrite app_nil_r, Hi, Hv.
  - now rewrite Hi, Hv.
Qed.

End ReverseOrder.

(** ** The further properties at concrete inputs *)


(** The import of the witness above runs to its end: the run is created,
    its data replayed and its status set.  Where the destination run lists
    a model, the artifact directory on the local disk is yielded as it is
    by the staging scope and uploaded from there. *)
Example import_run_plain_path_runs :
  w_trace (snd (_import_run Sample.local_env Sample.importer "/Shared/exp" "/exports/exp/r1"
                  None Sample.empty_world))
  = [EvCreateRun "run-1"; EvImportRunData "run-1"; EvSetTerminated "run-1" FINISHED] /\
  uploads (snd (_import_run Sample.local_env Sample.importer "/Shared/exp" "/exports/exp/r1"
                  None Sample.nested_models))
  = [EvLogArtifacts "run-1" "/exports/exp/r1/artifacts"] /\
  w_dbfs (snd (_import_run Sample.local_env Sample.importer "/Shared/exp" "/exports/exp/r1"
                 None Sample.nested_models))
  = w_dbfs Sample.nested_models.
Proof. repeat split; vm_compute; reflexivity. Qed.

Lemma import_run_early_failure_witness :
  _import_run Sample.quiet_env Sample.importer "/Shared/exp" "s3://bucket/exp/r9" None
    Sample.exported_run
  = (Raise (OtherError "read_file"),
     snd (import_run_prologue Sample.quiet_env "/Shared/exp" "s3://bucket/exp/r9"
            Sample.exported_run)) /\
  w_runs (snd (import_run_prologue Sample.quiet_env "/Shared/exp" "s3://bucket/exp/r9"
                 Sample.exported_run)) = w_runs Sample.exported_run /\
  view is_create (snd (import_run_prologue Sample.quiet_env "/Shared/exp" "s3://bucket/exp/r9"
                         Sample.exported_run)) = view is_create Sample.exported_run.
Proof.
  apply (import_run_early_failure Sample.quiet_env Sample.importer "/Shared/exp"
           "s3://bucket/exp/r9" None Sample.exported_run (OtherError "read_file")).
  vm_compute. reflexivity.
Defined.

Lemma import_run_other_runs_witness :
  w_runs (snd (_import_run Sample.quiet_env Sample.importer "/Shared/exp" "s3://bucket/exp/r1"
                 None Sample.linking_world)) !! "run-2"
  = w_runs Sample.linking_world !! "run-2".
Proof.
  apply (import_run_other_runs Sample.quiet_env Sample.importer "/Shared/exp"
           "s3://bucket/exp/r1" None Sample.linking_world
           (mkExperiment "4" "/Shared/exp" None ∅) Sample.src_r1
           (mkRun (mkRunInfo "run-5" "4" "importer" RUNNING ACTIVE) ∅)
           (snd (import_run_prologue Sample.quiet_env "/Shared/exp" "s3://bucket/exp/r1"
                   Sample.linking_world))).
  - vm_compute. reflexivity.
  - discriminate.
Defined.

Lemma import_run_success_witness :
  let w3 := snd (_import_run Sample.quiet_env Sample.importer "/Shared/exp"
                   "s3://bucket/exp/r1" None Sample.exported_run) in
  let r := mkRun (mkRunInfo "run-1" "0" "importer" FINISHED ACTIVE) ∅ in
  w_runs w3 !! "run-1" = Some r /\
  status (info r) = FINISHED /\
  lifecycle_stage (info r) = (if is_deleted Sample.src_r1 then DELETED else ACTIVE) /\
  view (is_end_of_run "run-1") w3 =
    view (is_end_of_run "run-1") Sample.exported_run ++
      EvSetTerminated "run-1" FINISHED ::
      (if is_deleted Sample.src_r1 then [EvDeleteRun "run-1"] else []) /\
  forall p, fst (_import_run Sample.quiet_env Sample.importer "/Shared/exp"
                   "s3://bucket/exp/r1" None Sample.exported_run) = Ok p ->
            p = (r, src_tags Sample.src_r1 !! MLFLOW_PARENT_RUN_ID).
Proof.
  apply (import_run_success Sample.quiet_env Sample.importer "/Shared/exp"
           "s3://bucket/exp/r1" None Sample.exported_run Sample.exp0 Sample.src_r1 Sample.run1
           (snd (import_run_prologue Sample.quiet_env "/Shared/exp" "s3://bucket/exp/r1"
                   Sample.exported_run))
           (mkRun (mkRunInfo "run-1" "0" "importer" FINISHED ACTIVE) ∅)
           (snd (import_run_steps Sample.quiet_env Sample.importer Sample.src_r1 "run-1"
                   "s3://bucket/exp/r1"
                   (snd (import_run_prologue Sample.quiet_env "/Shared/exp"
                           "s3://bucket/exp/r1" Sample.exported_run))))).
  - vm_compute. reflexivity.
  - vm_compute. reflexivity.
Defined.

Lemma import_run_no_mlmodel_witness :
  fst (import_run_steps Sample.quiet_env Sample.importer Sample.src_r1 "run-1"
         "s3://bucket/exp/r1"
         (snd (import_run_prologue Sample.quiet_env "/Shared/exp" "s3://bucket/exp/r1"
                 Sample.exported_run)))
    <> Raise EmptyExperimentPathException /\
  w_artifacts (snd (_import_run Sample.quiet_env Sample.importer "/Shared/exp"
                      "s3://bucket/exp/r1" None Sample.exported_run))
  = w_artifacts Sample.exported_run /\
  uploads (snd (_import_run Sample.quiet_env Sample.importer "/Shared/exp"
                  "s3://bucket/exp/r1" None Sample.exported_run))
  = uploads Sample.exported_run.
Proof.
  apply (import_run_no_mlmodel Sample.quiet_env Sample.importer "/Shared/exp"
           "s3://bucket/exp/r1" None Sample.exported_run Sample.exp0 Sample.src_r1 Sample.run1
           (snd (import_run_prologue Sample.quiet_env "/Shared/exp" "s3://bucket/exp/r1"
                   Sample.exported_run))).
  - vm_compute. reflexivity.
  - reflexivity.
Defined.

Lemma notebook_import_failure_is_warning_witness :
  notebook_upload_completes Sample.notebook_env Sample.importer Sample.src_nb Sample.run1
    "s3://bucket/exp/r3" (Some "/Shared/notebooks").
Proof.
  apply (notebook_import_failure_is_warning Sample.notebook_env Sample.importer
           "s3://bucket/exp/r3" (Some "/Shared/notebooks") Sample.src_nb Sample.run1).
  - reflexivity.
  - reflexivity.
  - intros p f H. exists "403". vm_compute in H. now injection H as <-.
Defined.

(** The refused notebook leaves a warning, and the import post no trace. *)
Example notebook_refused :
  snd (_upload_databricks_notebook Sample.notebook_env "s3://bucket/exp/r3" Sample.src_nb
         "/Shared/notebooks" Sample.empty_world)
  = set_trace (fun _ => [EvWorkspaceMkdirs "/Shared/notebooks";
                         EvWarning "Cannot save notebook '/Shared/notebooks/train'"])
      Sample.empty_world.
Proof. vm_compute. reflexivity. Qed.

Lemma update_mlmodel_run_id_patches_witness :
  exists w',
    _update_mlmodel_run_id Sample.quiet_env "run-1" Sample.empty_export = (Ok tt, w') /\
    forall p m a,
      Dict.get p (run_artifacts Sample.empty_export "run-1") = Some m ->
      PyStr.basename p = "MLmodel" ->
      m !! "artifact_path" = Some a ->
      exists m',
        Dict.get p (run_artifacts w' "run-1") = Some m' /\
        m' !! "run_id" = Some "run-1" /\
        m' !! "artifact_path" = Some ("artifacts/" +:+ a) /\
        forall k, k <> "run_id" -> k <> "artifact_path" -> m' !! k = m !! k.
Proof.
  apply (update_mlmodel_run_id_patches Sample.quiet_env "run-1").
  - reflexivity.
  - reflexivity.
  - reflexivity.
  - vm_compute. repeat constructor. intros [].
  - intros p m Hg _.
    change (run_artifacts Sample.empty_export "run-1")
      with [("model/MLmodel", Sample.mlmodel_old)] in Hg.
    cbn [Dict.get] in Hg. destruct (String.eqb p "model/MLmodel") eqn:E; [|discriminate Hg].
    apply String.eqb_eq in E as ->. injection Hg as <-. split; [reflexivity|].
    exists "model". reflexivity.
Defined.

Lemma set_experiment_then_get_witness :
  exists exp,
    mlflow_utils_get_experiment "client" "/Shared/exp" Sample.created_once
    = (Ok exp, Sample.created_once) /\
    exp_experiment_id exp = "0" /\ exp_name exp = "/Shared/exp".
Proof.
  apply (set_experiment_then_get Sample.quiet_env "client" "/Shared/exp" None None
           Sample.empty_world).
  vm_compute. reflexivity.
Defined.

Lemma import_experiment_creates_witness :
  let w' := snd (import_experiment Sample.quiet_env (mkExperimentImporter false false)
                   "/Shared/exp" "s3://bucket/exp" None None Sample.exported_run) in
  let result := [("r1", mkRunInfo "run-1" "0" "importer" FINISHED ACTIVE);
                 ("r2", mkRunInfo "run-2" "0" "importer" FINISHED ACTIVE)] in
  length (view is_create w')
  = length (view is_create Sample.exported_run) + length (man_runs Sample.manifest) /\
  Dict.len result <= length (man_runs Sample.manifest) /\
  (Dict.len result = length (man_runs Sample.manifest) ->
   List.NoDup (man_runs Sample.manifest)).
Proof.
  apply (import_experiment_creates Sample.quiet_env (mkExperimentImporter false false)
           "/Shared/exp" "s3://bucket/exp" None None Sample.exported_run Sample.manifest).
  - reflexivity.
  - vm_compute. reflexivity.
Defined.

Lemma import_experiment_incomplete_manifest_witness :
  let man := mkExperimentManifest None ∅ ["r2"; "r1"] in
  let out := import_experiment Sample.no_info_env (mkExperimentImporter false false)
               "/Shared/exp" "s3://bucket/exp" None None Sample.exported_run in
  (exists e, fst out = Raise e) /\
  w_runs (snd out) = w_runs Sample.exported_run /\
  imports (snd out) = imports Sample.exported_run /\
  (man_info man = None -> out = (Raise (KeyError "info"), Sample.exported_run)) /\
  (forall exp_id wc,
     man_info man = Some (mkManifestInfo None) ->
     set_experiment Sample.no_info_env "/Shared/exp"
       (Some (if ei_import_source_tags (mkExperimentImporter false false)
              then source_tags_for_experiment Sample.no_info_env (man_experiment_tags man)
              else man_experiment_tags man)) None Sample.exported_run = (Ok exp_id, wc) ->
     out = (Raise (KeyError "failed_runs"), wc)).
Proof.
  apply (import_experiment_incomplete_manifest Sample.no_info_env
           (mkExperimentImporter false false) "/Shared/exp" "s3://bucket/exp" None None
           Sample.exported_run (mkExperimentManifest None ∅ ["r2"; "r1"])).
  - reflexivity.
  - left. reflexivity.
Defined.

Lemma import_experiment_aborts_witness :
  let wb := snd (import_run Sample.data_fails_env "/Shared/exp"
                   (PyStr.path_join "s3://bucket/exp" "r1") None false false
                   (snd (set_experiment Sample.data_fails_env "/Shared/exp" (Some ∅) None
                           Sample.exported_run))) in
  import_experiment Sample.data_fails_env (mkExperimentImporter false false)
    "/Shared/exp" "s3://bucket/exp" None None Sample.exported_run
  = (Raise (MlflowExportImportException (RestException "BAD_REQUEST")
              (import_failed_msg "run-1" "/Shared/exp")), wb) /\
  imports wb = imports Sample.exported_run ++ map (import_event "s3://bucket/exp") ([] ++ ["r1"]).
Proof.
  apply (import_experiment_aborts Sample.data_fails_env (mkExperimentImporter false false)
           "/Shared/exp" "s3://bucket/exp" None None Sample.exported_run Sample.manifest
           (mkManifestInfo (Some [])) [] "0"
           (snd (set_experiment Sample.data_fails_env "/Shared/exp" (Some ∅) None
                   Sample.exported_run))
           [] "r1" ["r2"] [] []
           (snd (set_experiment Sample.data_fails_env "/Shared/exp" (Some ∅) None
                   Sample.exported_run))).
  - reflexivity.
  - reflexivity.
  - reflexivity.
  - vm_compute. reflexivity.
  - reflexivity.
  - reflexivity.
  - vm_compute. reflexivity.
Defined.

Lemma reverse_order_twice_witness :
  exists env2,
    reverse_order_main
      (write_experiment_json (PyStr.path_join "s3://bucket/exp" "experiment.json")
         (reverse_runs Sample.manifest) Sample.quiet_env) "s3://bucket/exp" = Ok env2 /\
    (forall p, experiment_json env2 p = experiment_json Sample.quiet_env p) /\
    run_json env2 = run_json Sample.quiet_env.
Proof.
  apply (reverse_order_twice Sample.quiet_env "s3://bucket/exp").
  reflexivity.
Defined.

Lemma reverse_order_then_import_witness :
  imports (snd (import_experiment
                  (write_experiment_json (PyStr.path_join "/exports/exp" "experiment.json")
                     (reverse_runs Sample.manifest) Sample.local_env)
                  (mkExperimentImporter false false)
                  "/Shared/exp" "/exports/exp" None None Sample.empty_world))
  = imports Sample.empty_world ++ map (import_event "/exports/exp") (man_runs Sample.manifest).
Proof.
  apply (reverse_order_then_import Sample.local_env "/exports/exp"
           (write_experiment_json (PyStr.path_join "/exports/exp" "experiment.json")
              (reverse_runs Sample.manifest) Sample.local_env)
           Sample.manifest (mkExperimentImporter false false) "/Shared/exp" None None
           Sample.empty_world
           [("r2", mkRunInfo "run-1" "0" "importer" FINISHED ACTIVE);
            ("r1", mkRunInfo "run-2" "0" "importer" FINISHED ACTIVE)]).
  - reflexivity.
  - reflexivity.
  - reflexivity.
  - reflexivity.
  - vm_compute. reflexivity.
Defined.

Lemma DatabricksFileSystem_read_leaves_copy_witness :
  exists w',
    DatabricksFileSystem_read
      (Sample.env_with (fun st => match st with
                                  | StReadFile _ => Some (FaultOther "PermissionError")
                                  | _ => None
                                  end))
      "s3://bucket/exp/r1/run.json" Sample.exported_run
    = (Raise (exn_of_fault (FaultOther "PermissionError")), w') /\
    In (mk_dbfs_path (tmp_dst_path "s3://bucket/exp/r1/run.json")) (w_dbfs w').
Proof.
  apply (DatabricksFileSystem_read_leaves_copy
           (Sample.env_with (fun st => match st with
                                       | StReadFile _ => Some (FaultOther "PermissionError")
                                       | _ => None
                                       end))
           "s3://bucket/exp/r1/run.json" Sample.exported_run).
  - reflexivity.
  - vm_compute. left. reflexivity.
  - reflexivity.
  - reflexivity.
Defined.
